(** * The paper-search and survey service, embedded in Rocq

    A shallow embedding of [api/db/services/paper_search_service.py] and of
    the request handlers of [api/apps/paper_search_app.py] that drive it.

    - Python [str] values are [string]s holding UTF-8 text; slices count
      code points ([take_chars]).
    - What [json.loads] gives for an answer of the model is a [Value]: any
      JSON value, whatever the prompt asked for.
    - The relational tables are finite maps keyed by the primary key [id].
    - Every function that touches a table, the queue or a model runs in the
      monad [M]: it threads a [World] and either returns or raises.
    - The collaborators that are not part of these files (the language
      model, the retrieval engine, the knowledge-base and tenant services,
      Redis, python-docx, the clock) are the fields of an [Env]. *)

From Stdlib Require Import ZArith QArith DecimalString.
From stdpp Require Import gmap strings list sorting.

Local Open Scope string_scope.

(** ** Python strings *)

Definition dq : string := String (Ascii.ascii_of_nat 34) EmptyString.
Definition nl : string := String (Ascii.ascii_of_nat 10) EmptyString.

Definition newline : Ascii.ascii := Ascii.ascii_of_nat 10.
Definition comma : Ascii.ascii := Ascii.ascii_of_nat 44.
Definition open_bracket : Ascii.ascii := Ascii.ascii_of_nat 91.
Definition close_bracket : Ascii.ascii := Ascii.ascii_of_nat 93.

(** [str(n)] and the rendering of an [int] in an f-string. *)
Definition str (n : Z) : string := NilZero.string_of_int (Z.to_int n).

(** Truth value of a [str]: every string but the empty one. *)
Definition truthy (s : string) : bool :=
  match s with
  | EmptyString => false
  | String _ _ => true
  end.

(** [a or b] on strings. *)
Definition py_or (a b : string) : string := if truthy a then a else b.

(** [d.get(key, default)] for a key that may be missing. *)
Definition get_or {A} (o : option A) (default : A) : A :=
  match o with
  | Some v => v
  | None => default
  end.

(** [sep.join(l)]. *)
Definition join (sep : string) (l : list string) : string := String.concat sep l.

(** A byte that continues a UTF-8 sequence ([10xxxxxx]). *)
Definition is_continuation (c : Ascii.ascii) : bool :=
  let n := Ascii.nat_of_ascii c in (128 <=? n)%nat && (n <? 192)%nat.

(** [s[:n]]: the first [n] code points of [s]. *)
Fixpoint take_chars (n : nat) (s : string) : string :=
  match s with
  | EmptyString => EmptyString
  | String c rest =>
      if is_continuation c then String c (take_chars n rest)
      else match n with
           | O => EmptyString
           | S n' => String c (take_chars n' rest)
           end
  end.

(** The code points of a string: each lead byte with the continuation
    bytes that follow it. *)
Fixpoint split_chars (s : string) : string * list string :=
  match s with
  | EmptyString => (EmptyString, [])
  | String c rest =>
      let '(front, l) := split_chars rest in
      if is_continuation c then (String c front, l)
      else (EmptyString, String c front :: l)
  end.

Definition chars (s : string) : list string :=
  let '(front, l) := split_chars s in
  if truthy front then front :: l else l.

Definition of_bytes (l : list nat) : string :=
  fold_right (fun n s => String (Ascii.ascii_of_nat n) s) EmptyString l.

(** The code points Python counts as white space ([str.isspace],
    [str.strip], [str.split], [\s]): U+0009..U+000D, U+001C..U+0020, U+0085,
    U+00A0, U+1680, U+2000..U+200A, U+2028, U+2029, U+202F, U+205F, U+3000. *)
Definition whitespace : list string :=
  map of_bytes
    [ [9]; [10]; [11]; [12]; [13]; [28]; [29]; [30]; [31]; [32];
      [194; 133]; [194; 160]; [225; 154; 128];
      [226; 128; 128]; [226; 128; 129]; [226; 128; 130]; [226; 128; 131];
      [226; 128; 132]; [226; 128; 133]; [226; 128; 134]; [226; 128; 135];
      [226; 128; 136]; [226; 128; 137]; [226; 128; 138];
      [226; 128; 168]; [226; 128; 169]; [226; 128; 175];
      [226; 129; 159]; [227; 128; 128] ]%nat.

Definition member (x : string) (l : list string) : bool :=
  existsb (String.eqb x) l.

Definition isspace (ch : string) : bool := member ch whitespace.

Fixpoint drop_while {A} (p : A → bool) (l : list A) : list A :=
  match l with
  | [] => []
  | x :: rest => if p x then drop_while p rest else l
  end.

(** [s.strip(chars)] for a set of code points. *)
Definition strip_of (p : string → bool) (s : string) : string :=
  String.concat EmptyString
    (rev (drop_while p (rev (drop_while p (chars s))))).

(** [s.strip()] *)
Definition strip (s : string) : string := strip_of isspace s.

(** [s.lstrip()] *)
Definition lstrip (s : string) : string :=
  String.concat EmptyString (drop_while isspace (chars s)).

(** [s.split()]: the maximal runs of code points that are not white space. *)
Fixpoint split_runs (cur : string) (l : list string) : list string :=
  match l with
  | [] => if truthy cur then [cur] else []
  | ch :: rest =>
      if isspace ch
      then (if truthy cur then cur :: split_runs EmptyString rest
            else split_runs EmptyString rest)
      else split_runs (cur +:+ ch) rest
  end.

Definition split_whitespace (s : string) : list string :=
  split_runs EmptyString (chars s).

(** [s.split(sep)] for a one-byte separator: always at least one field. *)
Fixpoint split_on (sep : Ascii.ascii) (s : string) : list string :=
  match s with
  | EmptyString => [EmptyString]
  | String c rest =>
      if Ascii.eqb c sep then EmptyString :: split_on sep rest
      else match split_on sep rest with
           | [] => [String c EmptyString]
           | field :: fields => String c field :: fields
           end
  end.

(** [s[n:]] for a prefix of [n] one-byte characters. *)
Fixpoint drop_bytes (n : nat) (s : string) : string :=
  match n, s with
  | O, _ => s
  | S n', String _ rest => drop_bytes n' rest
  | S _, EmptyString => EmptyString
  end.

(** [s.startswith(p)] *)
Definition startswith (p s : string) : bool := String.prefix p s.

(** [re.sub(pat, rep, s)] for a literal, non-empty pattern: the matches
    are replaced left to right, without overlap. *)
Fixpoint replace_from (pat rep : string) (skip : nat) (s : string) : string :=
  match s with
  | EmptyString => EmptyString
  | String c rest =>
      match skip with
      | S k => replace_from pat rep k rest
      | O =>
          if startswith pat s
          then rep +:+ replace_from pat rep (String.length pat - 1) rest
          else String c (replace_from pat rep 0 rest)
      end
  end.

Definition replace_all (pat rep s : string) : string := replace_from pat rep 0 s.

(** [s * n] *)
Fixpoint repeat_string (s : string) (n : nat) : string :=
  match n with
  | O => EmptyString
  | S n' => s +:+ repeat_string s n'
  end.

(** [s.encode("utf-8")] *)
Definition encode_utf8 (s : string) : list Byte.byte := String.list_byte_of_string s.

(** ** Data model *)

(** A paper as the handlers exchange it: a [dict] whose keys may be missing. *)
Record Paper := {
  paper_uid : option string;
  paper_title : option string;
  paper_abstract : option string;
  paper_source : option string;
  paper_selected : option bool;
  paper_similarity : option Q;
  paper_doc_id : option string;
  paper_kb_id : option string;
  paper_full_content : option string;
}.

Definition set_full_content (v : string) (p : Paper) : Paper :=
  {| paper_uid := paper_uid p; paper_title := paper_title p;
     paper_abstract := paper_abstract p; paper_source := paper_source p;
     paper_selected := paper_selected p; paper_similarity := paper_similarity p;
     paper_doc_id := paper_doc_id p; paper_kb_id := paper_kb_id p;
     paper_full_content := Some v |}.

(** A chunk of the document store. *)
Record Chunk := {
  chunk_doc_id : option string;
  chunk_kb_id : option string;
  content_with_weight : option string;
  chunk_similarity : option Q;
  position_int : option Z;
}.

(** A row of [PaperSurveyRecord]; a survey record [dict] is a row whose
    unset columns are [None]. *)
Record SurveyRow := {
  survey_id : string;
  survey_tenant_id : string;
  survey_user_id : string;
  search_record_id : string;
  survey_content : string;
  survey_title : string;
  status : string;
  progress : Q;
  progress_msg : string;
  task_id : option string;
  survey_papers : option string;
  process_begin_at : option Z;
  process_duration : option Q;
  created_at : option Z;
  updated_at : option Z;
}.

(** The column assignments of [PaperSurveyRecord.update(...)]. *)
Inductive SurveyField :=
| set_status (v : string)
| set_survey_content (v : string)
| set_progress (v : Q)
| set_progress_msg (v : string)
| set_task_id (v : string)
| set_process_begin_at (v : Z)
| set_updated_at (v : Z).

Definition assign (f : SurveyField) (r : SurveyRow) : SurveyRow :=
  {| survey_id := survey_id r;
     survey_tenant_id := survey_tenant_id r;
     survey_user_id := survey_user_id r;
     search_record_id := search_record_id r;
     survey_content :=
       match f with set_survey_content v => v | _ => survey_content r end;
     survey_title := survey_title r;
     status := match f with set_status v => v | _ => status r end;
     progress := match f with set_progress v => v | _ => progress r end;
     progress_msg :=
       match f with set_progress_msg v => v | _ => progress_msg r end;
     task_id := match f with set_task_id v => Some v | _ => task_id r end;
     survey_papers := survey_papers r;
     process_begin_at :=
       match f with set_process_begin_at v => Some v | _ => process_begin_at r end;
     process_duration := process_duration r;
     created_at := created_at r;
     updated_at := match f with set_updated_at v => Some v | _ => updated_at r end |}.

Definition assign_all (fs : list SurveyField) (r : SurveyRow) : SurveyRow :=
  fold_left (fun r f => assign f r) fs r.

(** A row of [PaperSearchRecord]. *)
Record SearchRow := {
  search_id : string;
  search_tenant_id : string;
  search_user_id : string;
  search_query_text : string;
  keywords : string;
  search_results : string;
  result_count : Z;
}.

(** A row of [Task]. *)
Record TaskRow := {
  task_row_id : string;
  task_doc_id : string;
  from_page : Z;
  to_page : Z;
  task_type : string;
  priority : Z;
  task_progress : Q;
  task_progress_msg : string;
  begin_at : Z;
}.

(** The message pushed on the Redis queue: the task's columns and a
    snapshot of the job. *)
Record TaskMessage := {
  message_task : TaskRow;
  message_survey_record : SurveyRow;
  message_papers : list Paper;
  message_tenant_id : string;
}.

(** ** Model calls *)

Inductive LLMType := CHAT | EMBEDDING.

Record Model := {
  model_tenant : string;
  model_type : LLMType;
  model_name : option string;
}.

Record Message := { role : string; content : string }.

Record ChatParams := {
  temperature : Q;
  max_tokens : Z;
  enable_thinking : bool;
}.

Record LlmCall := {
  call_model : Model;
  call_system : string;
  call_history : list Message;
  call_params : ChatParams;
}.

(** ** Exceptions and outcomes *)

Inductive Exn :=
| IntegrityError
| DoesNotExist
| Exception (msg : string)
| Failure (what : string).

Inductive Outcome (A : Type) :=
| Returns (a : A)
| Raises (e : Exn).
Arguments Returns {A} a.
Arguments Raises {A} e.

(** ** The world *)

(** The statements issued against [PaperSurveyRecord], in order. *)
Inductive SurveyWrite :=
| Insert (r : SurveyRow)
| Update (id : string) (fs : list SurveyField)
| Delete (id : string).

Record World := {
  surveys : gmap string SurveyRow;
  searches : gmap string SearchRow;
  tasks : gmap string TaskRow;
  queues : gmap string (list TaskMessage);
  llm_calls : list LlmCall;
  survey_writes : list SurveyWrite;
  uuids_drawn : nat;
}.

(** What a statement does to the table. *)
Definition apply_write (wr : SurveyWrite) (table : gmap string SurveyRow)
    : gmap string SurveyRow :=
  match wr with
  | Insert r => <[survey_id r := r]> table
  | Update id fs => alter (assign_all fs) id table
  | Delete id => delete id table
  end.

Definition with_write (wr : SurveyWrite) (w : World) : World :=
  {| surveys := apply_write wr (surveys w); searches := searches w;
     tasks := tasks w; queues := queues w; llm_calls := llm_calls w;
     survey_writes := survey_writes w ++ [wr]; uuids_drawn := uuids_drawn w |}.

(** The status a job is stored with after each statement of a trace. *)
Fixpoint status_history (id : string) (table : gmap string SurveyRow)
    (writes : list SurveyWrite) : list (option string) :=
  match writes with
  | [] => []
  | wr :: rest =>
      let table' := apply_write wr table in
      (status <$> table' !! id) :: status_history id table' rest
  end.

Definition with_searches (f : gmap string SearchRow → gmap string SearchRow)
    (w : World) : World :=
  {| surveys := surveys w; searches := f (searches w); tasks := tasks w;
     queues := queues w; llm_calls := llm_calls w;
     survey_writes := survey_writes w; uuids_drawn := uuids_drawn w |}.

Definition with_tasks (f : gmap string TaskRow → gmap string TaskRow)
    (w : World) : World :=
  {| surveys := surveys w; searches := searches w; tasks := f (tasks w);
     queues := queues w; llm_calls := llm_calls w;
     survey_writes := survey_writes w; uuids_drawn := uuids_drawn w |}.

Definition with_queues
    (f : gmap string (list TaskMessage) → gmap string (list TaskMessage))
    (w : World) : World :=
  {| surveys := surveys w; searches := searches w; tasks := tasks w;
     queues := f (queues w); llm_calls := llm_calls w;
     survey_writes := survey_writes w; uuids_drawn := uuids_drawn w |}.

Definition with_llm_call (c : LlmCall) (w : World) : World :=
  {| surveys := surveys w; searches := searches w; tasks := tasks w;
     queues := queues w; llm_calls := llm_calls w ++ [c];
     survey_writes := survey_writes w; uuids_drawn := uuids_drawn w |}.

Definition with_uuid_drawn (w : World) : World :=
  {| surveys := surveys w; searches := searches w; tasks := tasks w;
     queues := queues w; llm_calls := llm_calls w;
     survey_writes := survey_writes w; uuids_drawn := S (uuids_drawn w) |}.

(** ** The monad of the service: state and exceptions *)

Definition M (A : Type) : Type := World → Outcome A * World.

Definition ret {A} (a : A) : M A := fun w => (Returns a, w).

Definition raise {A} (e : Exn) : M A := fun w => (Raises e, w).

Definition bind {A B} (m : M A) (k : A → M B) : M B :=
  fun w =>
    match m w with
    | (Returns a, w') => k a w'
    | (Raises e, w') => (Raises e, w')
    end.

(** [try: m except Exception as e: handler(e)]: what [m] wrote before
    raising stays written. *)
Definition try_except {A} (m : M A) (handler : Exn → M A) : M A :=
  fun w =>
    match m w with
    | (Returns a, w') => (Returns a, w')
    | (Raises e, w') => handler e w'
    end.

Notation "'let*' x := m 'in' k" := (bind m (fun x => k))
  (at level 10, x name, m at level 100, k at level 200, only parsing).
Notation "'exec' m 'in' k" := (bind m (fun _ => k))
  (at level 10, m at level 100, k at level 200, only parsing).

(** [[f(x) for x in l]] with an effectful [f], in list order. *)
Fixpoint for_each {A B} (f : A → M B) (l : list A) : M (list B) :=
  match l with
  | [] => ret []
  | x :: rest =>
      let* y := f x in
      let* ys := for_each f rest in
      ret (y :: ys)
  end.

Definition lift {A} (r : Exn + A) : M A :=
  match r with
  | inl e => raise e
  | inr a => ret a
  end.

(** ** Values exchanged with the caller *)

(** A value as [json.loads] gives it: [None], a [bool], a number (kept as
    its literal), a [str], a [list], or a [dict] as its items, every key
    once and in the order of insertion. *)
#[warnings="-register-all"] Inductive Value :=
| py_none
| py_bool (b : bool)
| py_number (literal : string)
| py_str (s : string)
| py_list (items : list Value)
| py_dict (members : list (string * Value)).

(** A list of strings. *)
Definition py_strings (l : list string) : Value := py_list (map py_str l).

(** [d.get(key, default)] *)
Fixpoint dict_get (members : list (string * Value)) (key : string)
    (default : Value) : Value :=
  match members with
  | [] => default
  | (k, v) :: rest => if String.eqb k key then v else dict_get rest key default
  end.

(** The dictionary of a keyword extraction. Its five keys are always
    there; the values are lists of strings when the service builds them
    itself, and whatever the answer of the model holds under these keys
    when that answer is a JSON object. *)
Record KeywordBundle := {
  keyword_en : Value;
  keyword_cn : Value;
  searchquery_en : Value;
  searchquery_cn : Value;
  time_range : Value;
}.

(** What [search_papers] returns. *)
Record SearchResult := {
  result_search_record_id : string;
  result_papers : list Paper;
  result_keywords : KeywordBundle;
}.

(** What the service's [get_survey] returns. *)
Record SurveyDetail := {
  detail_id : string;
  detail_tenant_id : string;
  detail_user_id : string;
  detail_search_record_id : string;
  detail_survey_content : string;
  detail_survey_title : string;
  detail_status : string;
  detail_created_at : option Z;
}.

(** What [generate_survey] returns. *)
Record SurveyResult := {
  result_survey_id : string;
  result_survey_content : string;
  result_status : string;
}.

(** What [get_survey_progress] answers. *)
Record ProgressData := {
  progress_survey_id : string;
  progress_status : string;
  progress_value : Q;
  progress_message : string;
  progress_survey_title : string;
  progress_process_duration : option Q;
  progress_created_at : option Z;
  progress_updated_at : option Z;
  progress_survey_content : option string;
  progress_papers : option (list Paper);
}.

(** The [data] of a JSON answer. *)
Inductive Data :=
| data_message (message : string)
| data_true
| data_survey (d : SurveyDetail)
| data_submitted (survey_id task_id status : string) (progress : Q)
    (message : string)
| data_progress (d : ProgressData)
| data_search (r : SearchResult)
| data_keywords (k : KeywordBundle).

(** The three answers of [api.utils.api_utils]. *)
Inductive Response :=
| get_json_result (data : Data)
| get_data_error_result (message : string)
| server_error_response (e : Exn).

(** A request of another client, served while a model call is in flight. *)
Inductive Request :=
| cancel_request (current_user survey_id : string).

(** A knowledge base and a document, as far as the service reads them. *)
Record Knowledgebase := {
  kb_id : string;
  kb_tenant_id : string;
  embd_id : string;
}.

Record DocumentRow := {
  document_id : string;
  document_name : string;
}.

(** The fixed parameters of a retrieval call. *)
Record RetrievalParams := {
  page : Z;
  page_size : Z;
  similarity_threshold : Q;
  vector_similarity_weight : Q;
  top : Z;
  aggs : bool;
}.

(** A block of the Word document under construction. *)
Inductive Run :=
| text_run (text : string)
| citation_run (label : string).

Inductive Block :=
| heading (text : string) (level : Z)
| centered_heading (text : string) (level : Z)
| paragraph (text : string)
| centered_paragraph (text : string)
| styled_paragraph (text : string) (style : string)
| run_paragraph (runs : list Run)
| reference_paragraph (label : string) (title : string).

(** [json.loads(text)]: the value, [JSONDecodeError], or another
    exception (a [RecursionError] on a deeply nested text). *)
Inductive Decoded :=
| decoded (v : Value)
| JSONDecodeError
| decode_raises (e : Exn).

(** ** Collaborators *)

Record Env := {
  (** [datetime.now()] and [current_timestamp()] *)
  now : Z;
  (** [datetime.strftime(format)] *)
  strftime : string → Z → string;
  (** the n-th identifier [get_uuid()] hands out *)
  uuid : nat → string;
  (** [LLMBundle(tenant, type, llm_name)] raising, for a tenant without
      a usable model *)
  bundle_error : string → LLMType → option string → option Exn;
  (** the model's answer to [chat(system, history, gen_conf)] *)
  chat_reply : Model → string → list Message → ChatParams → Exn + string;
  (** the requests served while the n-th model call is in flight *)
  arrivals : nat → list Request;
  (** [Dealer.chunk_list(doc_id, tenant_id, kb_ids)] *)
  chunk_list : string → string → list string → Exn + list Chunk;
  (** [Dealer.retrieval(question, embd_mdl, tenant_id, kb_ids, ...)]:
      the [chunks] of the answer *)
  retrieval :
    string → Model → string → list string → RetrievalParams → Exn + list Chunk;
  (** [KnowledgebaseService.query(tenant_id=...)] *)
  kbs_of_tenant : string → list Knowledgebase;
  (** [KnowledgebaseService.query(permission=PUBLIC)] *)
  public_kbs : list Knowledgebase;
  (** [DocumentService.get_by_id(doc_id)] *)
  document_by_id : string → Exn + (bool * option DocumentRow);
  (** [REDIS_CONN.queue_product(queue, message)]: does the push succeed *)
  queue_product : string → TaskMessage → bool;
  (** [rag.settings.get_svr_queue_name(priority)] *)
  get_svr_queue_name : Z → string;
  (** [TenantService.get_info_by(user_id)]: the tenant ids *)
  tenant_info_by : string → list string;
  (** [UserTenantService.get_tenants_by_user_id(user_id)]: the tenant ids *)
  tenants_by_user_id : string → list string;
  (** [TaskService.update_progress(task_id, info)] on the task table *)
  task_update_progress :
    string → Q → string → gmap string TaskRow → gmap string TaskRow;
  (** [json.dumps(x, ensure_ascii=False)] *)
  dumps_keywords : KeywordBundle → string;
  dumps_papers : list Paper → string;
  (** [json.loads] of a stored paper list *)
  loads_papers : string → Exn + list Paper;
  (** [json.loads] of a cleaned model answer *)
  loads_keywords : string → Decoded;
  (** the value of a code point that is a Unicode decimal digit
      ([\d] and [int()]) *)
  unicode_decimal : string → option Z;
  (** python-docx building and saving the described document *)
  docx_save : list Block → Exn + list Byte.byte;
}.

(** ** The [PaperSurveyRecord] table *)

Module PaperSurveyRecord.

(** Modelled from the spec: the table declaration ([api/db/db_models.py])
    is not among the sources. The spec's data model gives a survey job an
    "opaque unique identifier", so [id] is the primary key and inserting
    an [id] that is stored raises. *)
Definition create (survey_record : SurveyRow) : M SurveyRow :=
  fun w =>
    match surveys w !! survey_id survey_record with
    | Some _ => (Raises IntegrityError, w)
    | None =>
        (Returns survey_record, with_write (Insert survey_record) w)
    end.

(** [update(fields).where(id == id_).execute()] *)
Definition update (id_ : string) (fs : list SurveyField) : M unit :=
  fun w =>
    (Returns tt, with_write (Update id_ fs) w).

(** [get((id == id_) & where_)]: the row, or [DoesNotExist]. *)
Definition get (id_ : string) (where_ : SurveyRow → bool) : M SurveyRow :=
  fun w =>
    match surveys w !! id_ with
    | Some r => if where_ r then (Returns r, w) else (Raises DoesNotExist, w)
    | None => (Raises DoesNotExist, w)
    end.

(** [row.delete_instance()] *)
Definition delete_instance (r : SurveyRow) : M unit :=
  fun w =>
    (Returns tt, with_write (Delete (survey_id r)) w).

End PaperSurveyRecord.

(** ** Cancellation, as the request layer serves it *)

Section Cancel.
Variable env : Env.

Definition TaskService_update_progress (task : string) (p : Q) (msg : string)
    : M unit :=
  fun w => (Returns tt, with_tasks (task_update_progress env task p msg) w).

(** [POST /paper_survey/<survey_id>/cancel] *)
Definition cancel_survey (current_user survey_id_ : string) : M Response :=
  try_except
    (let* survey :=
       PaperSurveyRecord.get survey_id_
         (fun r => String.eqb (survey_user_id r) current_user) in
     if negb (String.eqb (status survey) "pending"
              || String.eqb (status survey) "processing")
     then ret (get_data_error_result
                 ("任务状态为 " +:+ status survey +:+ "，无法取消"))
     else
       exec (if truthy (get_or (task_id survey) EmptyString)
             then TaskService_update_progress
                    (get_or (task_id survey) EmptyString) (-1) "任务已取消"
             else ret tt) in
       exec PaperSurveyRecord.update survey_id_
              [set_status "cancelled"; set_progress (-1);
               set_progress_msg "任务已取消"; set_updated_at (now env)] in
       ret (get_json_result (data_message "任务已取消")))
    (fun e =>
       match e with
       | DoesNotExist => ret (get_data_error_result "综述不存在或无权限访问")
       | _ => ret (server_error_response e)
       end).

Definition serve (r : Request) (w : World) : World :=
  match r with
  | cancel_request current_user survey_id_ =>
      snd (cancel_survey current_user survey_id_ w)
  end.

(** ** The language model *)

(** [LLMBundle(tenant_id, llm_type, llm_name)] *)
Definition LLMBundle (tenant : string) (ty : LLMType) (llm_name : option string)
    : M Model :=
  match bundle_error env tenant ty llm_name with
  | Some e => raise e
  | None =>
      ret {| model_tenant := tenant; model_type := ty; model_name := llm_name |}
  end.

(** [mdl.chat(system, history, gen_conf)]: the call is recorded, the
    requests that arrive while it is in flight are served, and the model
    answers or fails. *)
Definition chat (mdl : Model) (system : string) (history : list Message)
    (gen_conf : ChatParams) : M string :=
  fun w =>
    let n := length (llm_calls w) in
    let w1 :=
      with_llm_call {| call_model := mdl; call_system := system;
                       call_history := history; call_params := gen_conf |} w in
    let w2 := fold_left (fun w r => serve r w) (arrivals env n) w1 in
    match chat_reply env mdl system history gen_conf with
    | inl e => (Raises e, w2)
    | inr answer => (Returns answer, w2)
    end.

End Cancel.

(** ** Prompt texts *)

(** The literal parts of the brief prompt of [generate_paper_summary]. *)
Definition summary_prompt_text_1 : string :=
  "
请对以下学术论文生成一份200字左右的简报：

论文标题: ".

Definition summary_prompt_text_2 : string :=
  "

论文内容:
".

Definition summary_prompt_text_3 : string :=
  "  # 限制内容长度避免超限

请按照以下结构生成简报，确保内容准确反映原文：
1. **研究主题**：概括论文的核心研究主题
2. **主要方法**：描述论文采用的主要方法或技术
3. **关键结果**：总结论文的主要发现或实验结果
4. **创新点**：指出论文的重要创新或贡献
5. **应用价值**：说明论文的理论或实践意义
6. **局限性**：指出论文存在的局限性或待改进之处

请确保简报内容准确、详细、客观，突出论文的核心内容和贡献。
".

(** The literal parts of one brief in [_build_survey_prompt_from_summaries]. *)
Definition summary_text_1 : string :=
  "
简报 ".

Definition summary_text_2 : string :=
  ":
- 标题: ".

Definition summary_text_3 : string :=
  "
- 简报: ".

Definition summary_text_4 : string :=
  "...  # 限制长度以避免超限
".

(** The literal parts of the survey prompt of
    [_build_survey_prompt_from_summaries]. *)
Definition survey_prompt_text_1 : string :=
  "
###目标###
我需要你作为文献综述专家，基于以下".

Definition survey_prompt_text_2 : string :=
  "份文献简报，生成一篇结构完整、内容详实的中文文献综述。要求：
1. 深度分析每份简报对应论文的核心观点、技术创新点和研究脉络
2. 按技术发展/应用场景/研究方法等维度组织内容
3. 对每项具体技术或观点都要标注引用来源，使用 ##编号$ 格式
4. 保持学术严谨性，区分作者观点与综合评述

###指定文献简报内容###
".

Definition survey_prompt_text_3 : string :=
  "

###数据处理要求###
1. **深度内容提取**：
   - 提取每篇论文的核心技术方法、实验结果、创新点
   - 识别论文中的关键数据、性能指标、对比分析
   - 挖掘论文的技术局限性和未来展望

2. **跨文献对比分析**：
   - 对比不同论文的技术路线差异
   - 分析方法演进的时间脉络
   - 识别研究热点和技术趋势

###结构要求###
采用「总-分-总」结构，包含：
1. **研究背景**（融合".

Definition survey_prompt_text_4 : string :=
  "篇文献的研究动机和问题定义）
2. **核心技术进展分析**（按主题分类，深入对比各文献的方法创新）
   - 每个技术点必须引用具体论文内容
   - 包含具体的技术细节、实验数据、性能对比
   - 分析不同方法的优缺点和适用场景
3. **技术挑战与局限**（结合各文献指出的问题和瓶颈）
4. **未来研究方向**（综合各文献的建议和展望）

###引用规范###
1. **引用密度**：每个技术点、观点或数据都必须关联≥1篇具体文献
2. **引用格式**：使用 ##编号$$ 格式，编号从1开始按文献顺序
3. **内容深度**：引用时要提及具体的技术方法、实验结果或理论观点
4. **全面覆盖**：确保每一份简报对应的论文都在综述中被充分分析

###质量标准###
1. **具体性**：避免泛泛而谈，要有具体的技术细节和数据支撑
2. **对比性**：横向对比不同论文的方法差异和性能优劣
3. **创新性**：突出每篇论文的独特贡献和技术突破
4. **批判性**：客观分析各方法的局限性和改进空间

###格式约束###
- 使用Markdown格式，标题层级清晰
- **引用格式**：必须使用 ##编号$$ 格式，编号范围1-".

Definition survey_prompt_text_5 : string :=
  "
- **严格禁止**：添加参考文献列表或References章节
- **严格禁止**：使用[1]、（1）、文献[1]等其他引用格式
- 每段内容都要有具体的引用支撑

###引用编号对应关系###
请严格按照以下编号对应关系进行引用：
".

Definition survey_prompt_text_6 : string :=
  "

###示例引用风格###
正确示例：
- " +:+ dq +:+ "该研究提出的注意力机制在BLEU评分上达到了85.3% ##1$$，相比传统方法提升了12.7个百分点。" +:+ dq +:+ "
- " +:+ dq +:+ "##2$$ 的实验表明，多模态融合策略在视觉问答任务中的准确率为91.2%，但在推理时间上增加了约30%的开销。" +:+ dq +:+ "
- " +:+ dq +:+ "三种不同的技术路线显示出各自优势 ##1$$ ##2$$ ##3$$。" +:+ dq +:+ "

错误示例：
- " +:+ dq +:+ "多模态AI是重要研究方向。" +:+ dq +:+ " （缺乏引用）
- " +:+ dq +:+ "文献[1]指出..." +:+ dq +:+ " （错误的引用格式）
- " +:+ dq +:+ "根据文献1的研究..." +:+ dq +:+ " （错误的引用格式）

请严格按照上述格式要求生成综述。
".

(** The literal parts of the prompt of [extract_keywords]. *)
Definition extract_prompt_text_1 : string :=
  "
请根据用户的输入推断用户感兴趣的研究方向，并输出".

Definition extract_prompt_text_2 : string :=
  "个最贴近用户需求的关键词。你需要将这些关键词以JSON格式直接输出，不需要任何额外说明，格式为
  {" +:+ dq +:+ "keyword_en" +:+ dq +:+ ": [ 英文关键字 ], " +:+ dq +:+ "keyword_cn" +:+ dq +:+ ": [对应的中文关键字], " +:+ dq +:+ "searchquery_en" +:+ dq +:+ " : [ 英文搜索句 ], " +:+ dq +:+ "searchquery_cn" +:+ dq +:+ " : [中文搜索句], " +:+ dq +:+ "time_range" +:+ dq +:+ ": [" +:+ dq +:+ "2025" +:+ dq +:+ ", " +:+ dq +:+ "2024" +:+ dq +:+ ", " +:+ dq +:+ "2023" +:+ dq +:+ "] }。
注意以下几点：
1. 关键词需要准确反映用户输入的主题。
2. 确保输出结果严格遵循指定的JSON格式。
3. 输出中不得包含任何XML标签。
4. 时间范围识别：根据用户描述的时间要求，输出年份数组，默认为空数组[]。

完成任务的步骤如下：
- 首先，仔细阅读和分析用户输入的内容，识别出核心主题或研究方向，关键词必须在该领域内。
- 其次，根据识别出的主题，提取出".

Definition extract_prompt_text_3 : string :=
  "个紧密相关的关键词，确保同时提供英文和中文版本。
- 然后，根据关键词和用户旨意提出 ".

Definition extract_prompt_text_4 : string :=
  "个可以用于检索论文的搜索句子，确保同时提供英文和中文版本
- 识别时间范围：
  * 如果用户提到" +:+ dq +:+ "近三年" +:+ dq +:+ "、" +:+ dq +:+ "最近三年" +:+ dq +:+ "，输出[" +:+ dq +:+ "2025" +:+ dq +:+ ", " +:+ dq +:+ "2024" +:+ dq +:+ ", " +:+ dq +:+ "2023" +:+ dq +:+ "]
  * 如果用户提到" +:+ dq +:+ "近五年" +:+ dq +:+ "、" +:+ dq +:+ "最近五年" +:+ dq +:+ "，输出[" +:+ dq +:+ "2025" +:+ dq +:+ ", " +:+ dq +:+ "2024" +:+ dq +:+ ", " +:+ dq +:+ "2023" +:+ dq +:+ ", " +:+ dq +:+ "2022" +:+ dq +:+ ", " +:+ dq +:+ "2021" +:+ dq +:+ "]
  * 如果用户提到" +:+ dq +:+ "2020年以后" +:+ dq +:+ "、" +:+ dq +:+ "2020年后" +:+ dq +:+ "，输出[" +:+ dq +:+ "2025" +:+ dq +:+ ", " +:+ dq +:+ "2024" +:+ dq +:+ ", " +:+ dq +:+ "2023" +:+ dq +:+ ", " +:+ dq +:+ "2022" +:+ dq +:+ ", " +:+ dq +:+ "2021" +:+ dq +:+ "]
  * 如果用户提到具体年份如" +:+ dq +:+ "2023年" +:+ dq +:+ "，输出[" +:+ dq +:+ "2023" +:+ dq +:+ "]
  * 如果用户提到年份范围如" +:+ dq +:+ "2022-2024" +:+ dq +:+ "，输出[" +:+ dq +:+ "2022" +:+ dq +:+ ", " +:+ dq +:+ "2023" +:+ dq +:+ ", " +:+ dq +:+ "2024" +:+ dq +:+ "]
  * 如果用户没有提到时间要求，输出[]
- 最后，按照指定的JSON格式组织输出内容，确保格式正确无误。

如果用户输入的内容不够明确，请基于常见的研究领域进行合理推测。

示例：
用户输入：我对人工智能在医疗领域的应用很感兴趣，特别是如何利用深度学习技术进行疾病诊断，希望了解近三年的研究进展。
输出：{" +:+ dq +:+ "keyword_en" +:+ dq +:+ ": [" +:+ dq +:+ "Artificial Intelligence" +:+ dq +:+ "," +:+ dq +:+ "Medical Applications" +:+ dq +:+ "," +:+ dq +:+ "Deep Learning" +:+ dq +:+ "," +:+ dq +:+ "Disease Diagnosis" +:+ dq +:+ "," +:+ dq +:+ "Healthcare" +:+ dq +:+ "], " +:+ dq +:+ "keyword_cn" +:+ dq +:+ ": [" +:+ dq +:+ "人工智能" +:+ dq +:+ "," +:+ dq +:+ "医疗应用" +:+ dq +:+ "," +:+ dq +:+ "深度学习" +:+ dq +:+ "," +:+ dq +:+ "疾病诊断" +:+ dq +:+ "," +:+ dq +:+ "医疗保健" +:+ dq +:+ "] , " +:+ dq +:+ "searchquery_en" +:+ dq +:+ ": [" +:+ dq +:+ "Deep Learning Applications in Disease Diagnosis" +:+ dq +:+ ", " +:+ dq +:+ "Innovations of Artificial Intelligence in Healthcare" +:+ dq +:+ ", " +:+ dq +:+ "Artificial Intelligence-based Disease Diagnosis Technologies" +:+ dq +:+ ", " +:+ dq +:+ "Challenges and Opportunities of Deep Learning in Healthcare" +:+ dq +:+ "], " +:+ dq +:+ "searchquery_cn" +:+ dq +:+ " : [ " +:+ dq +:+ "深度学习在疾病诊断中的应用" +:+ dq +:+ ", " +:+ dq +:+ "人工智能在医疗保健中的创新" +:+ dq +:+ ", " +:+ dq +:+ "基于人工智能的疾病诊断技术" +:+ dq +:+ " ], " +:+ dq +:+ "time_range" +:+ dq +:+ ": [" +:+ dq +:+ "2025" +:+ dq +:+ ", " +:+ dq +:+ "2024" +:+ dq +:+ ", " +:+ dq +:+ "2023" +:+ dq +:+ "]}
".

(** ** JSON text of a string *)

Definition hex_digit (n : nat) : Ascii.ascii :=
  if (n <? 10)%nat then Ascii.ascii_of_nat (48 + n)
  else Ascii.ascii_of_nat (87 + n).

(** One character of [json.dumps(s, ensure_ascii=False)]: the quote, the
    backslash and the control characters are escaped, every other byte is
    kept. *)
Definition json_escape (c : Ascii.ascii) : string :=
  let n := Ascii.nat_of_ascii c in
  let backslash := String (Ascii.ascii_of_nat 92) EmptyString in
  if (n =? 34)%nat then backslash +:+ dq
  else if (n =? 92)%nat then backslash +:+ backslash
  else if (n =? 10)%nat then backslash +:+ "n"
  else if (n =? 13)%nat then backslash +:+ "r"
  else if (n =? 9)%nat then backslash +:+ "t"
  else if (n =? 8)%nat then backslash +:+ "b"
  else if (n =? 12)%nat then backslash +:+ "f"
  else if (n <? 32)%nat
       then backslash +:+ "u00"
              +:+ String (hex_digit (n / 16)) (String (hex_digit (n mod 16)) EmptyString)
  else String c EmptyString.

Fixpoint json_escape_all (s : string) : string :=
  match s with
  | EmptyString => EmptyString
  | String c rest => json_escape c +:+ json_escape_all rest
  end.

(** [json.dumps(s, ensure_ascii=False)] for a [str]. *)
Definition json_string (s : string) : string := dq +:+ json_escape_all s +:+ dq.

(** [json.dumps({"user_confirmed_query": q}, ensure_ascii=False)] *)
Definition dumps_confirmed_query (search_query : string) : string :=
  "{" +:+ dq +:+ "user_confirmed_query" +:+ dq +:+ ": "
    +:+ json_string search_query +:+ "}".

(** The number of code points of a string that starts at a code point. *)
Definition code_points (s : string) : nat := length (chars s).

(** What [search_papers_with_keywords] returns. *)
Record ConfirmedSearchResult := {
  confirmed_search_record_id : string;
  confirmed_papers : list Paper;
  confirmed_query : string;
  confirmed_keywords : string;
}.

(** ** The service *)

(** [sorted(chunks, key=position_int)]: a stable insertion sort. *)
Definition position_key (c : Chunk) : Z := get_or (position_int c) 0%Z.

Fixpoint insert_by_position (c : Chunk) (l : list Chunk) : list Chunk :=
  match l with
  | [] => [c]
  | d :: rest =>
      if (position_key d <=? position_key c)%Z
      then d :: insert_by_position c rest
      else c :: l
  end.

Definition sorted_by_position (l : list Chunk) : list Chunk :=
  fold_left (fun acc c => insert_by_position c acc) l [].

(** A brief handed to the synthesis prompt. *)
Record Brief := { brief_title : string; brief_summary : string }.

Module PaperSearchService.
Section Service.
Variable env : Env.

Definition _get_full_document_content (doc_id tenant_id : string)
    (kb_ids : list string) : M string :=
  try_except
    (let* all_chunks := lift (chunk_list env doc_id tenant_id kb_ids) in
     let sorted_chunks := sorted_by_position all_chunks in
     let full_content_parts :=
       filter (fun s => truthy s = true)
         (map (fun c => get_or (content_with_weight c) EmptyString)
            sorted_chunks) in
     ret (join nl full_content_parts))
    (fun _ => ret EmptyString).

Definition summary_prompt (title content_ : string) : string :=
  summary_prompt_text_1 +:+ title +:+ summary_prompt_text_2
    +:+ take_chars 4000 content_ +:+ summary_prompt_text_3.

Definition generate_paper_summary (paper : Paper) (tenant_id : string)
    : M string :=
  try_except
    (let* chat_mdl := LLMBundle env tenant_id CHAT None in
     let title := get_or (paper_title paper) "未知标题" in
     let content_ :=
       py_or (get_or (paper_full_content paper) EmptyString)
             (get_or (paper_abstract paper) EmptyString) in
     let history :=
       [ {| role := "user"; content := summary_prompt title content_ |} ] in
     let chat_params :=
       {| temperature := 5 # 10; max_tokens := 1024;
          enable_thinking := false |} in
     let* summary_content := chat env chat_mdl EmptyString history chat_params in
     ret summary_content)
    (fun _ =>
       let title := get_or (paper_title paper) "未知标题" in
       let abstract := get_or (paper_abstract paper) EmptyString in
       ret ("标题: " +:+ title +:+ nl +:+ "摘要: " +:+ abstract)).

Definition summary_text (i : nat) (b : Brief) : string :=
  summary_text_1 +:+ str (Z.of_nat i) +:+ summary_text_2 +:+ brief_title b
    +:+ summary_text_3 +:+ take_chars 2000 (brief_summary b)
    +:+ summary_text_4.

Definition _build_survey_prompt_from_summaries (paper_summaries : list Brief)
    : string :=
  let summaries_info := imap (fun i b => summary_text (S i) b) paper_summaries in
  let titles := map brief_title paper_summaries in
  let summaries_detail := join nl summaries_info in
  let count := str (Z.of_nat (length paper_summaries)) in
  survey_prompt_text_1 +:+ count +:+ survey_prompt_text_2
    +:+ summaries_detail +:+ survey_prompt_text_3 +:+ count
    +:+ survey_prompt_text_4 +:+ count +:+ survey_prompt_text_5
    +:+ join nl
          (imap (fun i title =>
                   "##" +:+ str (Z.of_nat i + 1) +:+ "$$ - " +:+ title)
             titles)
    +:+ survey_prompt_text_6.

Definition generate_survey (survey_record : SurveyRow) (papers : list Paper)
    : M SurveyResult :=
  let* survey_obj := PaperSurveyRecord.create survey_record in
  try_except
    (let tenant_id := survey_tenant_id survey_record in
     let* updated_papers :=
       for_each
         (fun paper =>
            if truthy (get_or (paper_full_content paper) EmptyString)
            then ret paper
            else
              let* full_content :=
                _get_full_document_content
                  (get_or (paper_doc_id paper) EmptyString) tenant_id
                  [get_or (paper_kb_id paper) EmptyString] in
              if truthy full_content
              then ret (set_full_content full_content paper)
              else ret paper)
         papers in
     let* paper_summaries :=
       for_each
         (fun paper =>
            let* summary := generate_paper_summary paper tenant_id in
            ret {| brief_title := get_or (paper_title paper) "未知标题";
                   brief_summary := summary |})
         updated_papers in
     let survey_prompt := _build_survey_prompt_from_summaries paper_summaries in
     let* chat_mdl := LLMBundle env tenant_id CHAT None in
     let history := [ {| role := "user"; content := survey_prompt |} ] in
     let chat_params :=
       {| temperature := 7 # 10; max_tokens := 2048;
          enable_thinking := false |} in
     let* survey_content_ := chat env chat_mdl EmptyString history chat_params in
     exec PaperSurveyRecord.update (survey_id survey_record)
            [set_survey_content survey_content_; set_status "completed"] in
     ret {| result_survey_id := survey_id survey_obj;
            result_survey_content := survey_content_;
            result_status := "completed" |})
    (fun e =>
       exec PaperSurveyRecord.update (survey_id survey_record)
              [set_status "failed"] in
       raise e).

Definition get_uuid : M string :=
  fun w => (Returns (uuid env (uuids_drawn w)), with_uuid_drawn w).

(** [bulk_insert_into_db(Task, [task], True)]: a stored row with the
    same [id] is replaced. *)
Definition bulk_insert_task (task : TaskRow) : M unit :=
  fun w => (Returns tt, with_tasks <[task_row_id task := task]> w).

(** [REDIS_CONN.queue_product(queue, message)] *)
Definition REDIS_CONN_queue_product (queue : string) (message : TaskMessage)
    : M bool :=
  fun w =>
    if queue_product env queue message
    then (Returns true,
          with_queues
            (fun qs => <[queue := (get_or (qs !! queue) [] ++ [message])%list]> qs)
            w)
    else (Returns false, w).

Definition queue_survey_task (survey_record : SurveyRow) (papers : list Paper)
    (priority_ : Z) : M string :=
  let* id_ := get_uuid in
  let task :=
    {| task_row_id := id_;
       task_doc_id := survey_id survey_record;
       from_page := 0;
       to_page := Z.of_nat (length papers);
       task_type := "paper_survey";
       priority := priority_;
       task_progress := 0;
       task_progress_msg :=
         strftime env "%H:%M:%S" (now env) +:+ " 任务已创建，等待处理";
       begin_at := now env |} in
  exec bulk_insert_task task in
  exec PaperSurveyRecord.update (survey_id survey_record)
         [set_task_id (task_row_id task); set_status "pending";
          set_progress 0; set_progress_msg "等待处理";
          set_process_begin_at (now env)] in
  let task_message :=
    {| message_task := task;
       message_survey_record := survey_record;
       message_papers := papers;
       message_tenant_id := survey_tenant_id survey_record |} in
  let* success :=
    REDIS_CONN_queue_product (get_svr_queue_name env priority_) task_message in
  if negb success
  then raise (Exception "无法访问 Redis，请检查 Redis 状态")
  else ret (task_row_id task).

Definition get_survey (survey_id_ : string) : M (option SurveyDetail) :=
  try_except
    (let* survey := PaperSurveyRecord.get survey_id_ (fun _ => true) in
     ret (Some {| detail_id := survey_id survey;
                  detail_tenant_id := survey_tenant_id survey;
                  detail_user_id := survey_user_id survey;
                  detail_search_record_id := search_record_id survey;
                  detail_survey_content := survey_content survey;
                  detail_survey_title := survey_title survey;
                  detail_status := status survey;
                  detail_created_at := created_at survey |}))
    (fun _ => ret None).

Definition delete_survey_record (survey_id_ user_id tenant_id : string)
    : M bool :=
  try_except
    (let* survey :=
       PaperSurveyRecord.get survey_id_
         (fun r => String.eqb (survey_user_id r) user_id
                   && String.eqb (survey_tenant_id r) tenant_id) in
     exec PaperSurveyRecord.delete_instance survey in
     ret true)
    (fun _ => ret false).

(** *** Keyword extraction *)

Definition extract_prompt (keywords_num query_num : Z) : string :=
  extract_prompt_text_1 +:+ str keywords_num +:+ extract_prompt_text_2
    +:+ str keywords_num +:+ extract_prompt_text_3 +:+ str query_num
    +:+ extract_prompt_text_4.

(** One match of ["field":\s*\[([^\]]+)\]] at the head of [s]: the
    group and the length of the match. *)
Fixpoint until_bracket (s : string) : option (string * string) :=
  match s with
  | EmptyString => None
  | String c rest =>
      if Ascii.eqb c close_bracket then Some (EmptyString, rest)
      else match until_bracket rest with
           | Some (g, after) => Some (String c g, after)
           | None => None
           end
  end.

Definition match_field (field s : string) : option (string * nat) :=
  let key := dq +:+ field +:+ dq +:+ ":" in
  if startswith key s then
    let rest := lstrip (drop_bytes (String.length key) s) in
    match rest with
    | String c body =>
        if Ascii.eqb c open_bracket then
          match until_bracket body with
          | Some (g, after) =>
              if truthy g
              then Some (g, (String.length s - String.length after)%nat)
              else None
          | None => None
          end
        else None
    | EmptyString => None
    end
  else None.

(** [re.findall(pattern_of(field), s)] *)
Fixpoint findall_from (field : string) (skip : nat) (s : string) : list string :=
  match s with
  | EmptyString => []
  | String _ rest =>
      match skip with
      | S k => findall_from field k rest
      | O =>
          match match_field field s with
          | Some (g, len) => g :: findall_from field (len - 1) rest
          | None => findall_from field 0 rest
          end
      end
  end.

Definition findall (field s : string) : list string := findall_from field 0 s.

Definition parse_list_str (list_str : list string) : list string :=
  match list_str with
  | first :: _ =>
      let items :=
        map (fun item => strip_of (fun ch => member ch [dq; "'"]) (strip item))
          (split_on comma first) in
      filter (fun item => truthy item = true) items
  | [] => []
  end.

(** [result.get] on a decoded answer that is no [dict]. *)
Definition AttributeError : Exn :=
  Failure "AttributeError: object has no attribute 'get'".

Definition _parse_keyword_response (response : string) : Exn + KeywordBundle :=
  let cleaned_response := strip response in
  let cleaned_response :=
    if startswith "```json" cleaned_response
    then lstrip (drop_bytes 7 cleaned_response)
    else cleaned_response in
  let cleaned_response :=
    replace_all
      ("```" +:+ nl +:+ nl +:+ "    @classmethod" +:+ nl
         +:+ "    def _build_survey_prompt")
      ("    @classmethod" +:+ nl +:+ "    def _build_survey_prompt")
      cleaned_response in
  let cleaned_response := replace_all "```" EmptyString cleaned_response in
  match loads_keywords env cleaned_response with
  | decoded (py_dict result) =>
      inr {| keyword_en := dict_get result "keyword_en" (py_list []);
             keyword_cn := dict_get result "keyword_cn" (py_list []);
             searchquery_en := dict_get result "searchquery_en" (py_list []);
             searchquery_cn := dict_get result "searchquery_cn" (py_list []);
             time_range := dict_get result "time_range" (py_list []) |}
  | decoded _ => inl AttributeError
  | decode_raises e => inl e
  | JSONDecodeError =>
      inr {| keyword_en :=
               py_strings
                 (parse_list_str (findall "keyword_en" cleaned_response));
             keyword_cn :=
               py_strings
                 (parse_list_str (findall "keyword_cn" cleaned_response));
             searchquery_en :=
               py_strings
                 (parse_list_str (findall "searchquery_en" cleaned_response));
             searchquery_cn :=
               py_strings
                 (parse_list_str (findall "searchquery_cn" cleaned_response));
             time_range :=
               py_strings
                 (parse_list_str (findall "time_range" cleaned_response)) |}
  end.

(** [keywords_num if 12 >= keywords_num > 1 else 5] *)
Definition effective_keywords_num (keywords_num : Z) : Z :=
  if (keywords_num <=? 12)%Z && (1 <? keywords_num)%Z then keywords_num else 5%Z.

(** [query_num if query_num else keywords_num] *)
Definition effective_query_num (query_num keywords_num : Z) : Z :=
  if (query_num =? 0)%Z then keywords_num else query_num.

Definition extract_keywords (question tenant_id : string)
    (keywords_num query_num : Z) : M KeywordBundle :=
  let keywords_num := effective_keywords_num keywords_num in
  let query_num := effective_query_num query_num keywords_num in
  let prompt := extract_prompt keywords_num query_num in
  let system_prompt := prompt in
  let history := [ {| role := "user"; content := question |} ] in
  try_except
    (let* chat_mdl := LLMBundle env tenant_id CHAT None in
     let chat_params :=
       {| temperature := 6 # 10; max_tokens := 512;
          enable_thinking := false |} in
     let* response := chat env chat_mdl system_prompt history chat_params in
     let* result := lift (_parse_keyword_response response) in
     ret result)
    (fun _ =>
       let words := split_whitespace question in
       let en_keywords :=
         if (keywords_num <=? Z.of_nat (length words))%Z
         then take (Z.to_nat keywords_num) words else words in
       let cn_keywords :=
         if (keywords_num <=? Z.of_nat (length words))%Z
         then take (Z.to_nat keywords_num) words else words in
       ret {| keyword_en := py_strings en_keywords;
              keyword_cn := py_strings cn_keywords;
              searchquery_en := py_strings [question];
              searchquery_cn := py_strings [question];
              time_range := py_strings [] |}).

(** *** Retrieval *)

(** [cls.model.update(fields).where(cls.model.id == id_).execute()] *)
Definition PaperSearchRecord_update (id_ : string) (f : SearchRow → SearchRow)
    : M unit :=
  fun w => (Returns tt, with_searches (alter f id_) w).

Definition set_keywords (v : string) (r : SearchRow) : SearchRow :=
  {| search_id := search_id r; search_tenant_id := search_tenant_id r;
     search_user_id := search_user_id r;
     search_query_text := search_query_text r;
     keywords := v; search_results := search_results r;
     result_count := result_count r |}.

Definition set_search_results (v : string) (n : Z) (r : SearchRow) : SearchRow :=
  {| search_id := search_id r; search_tenant_id := search_tenant_id r;
     search_user_id := search_user_id r;
     search_query_text := search_query_text r;
     keywords := keywords r; search_results := v; result_count := n |}.

(** The loop over the retrieved chunks: one paper per document, the first
    chunk of a document wins, a document that cannot be looked up is
    skipped. *)
Fixpoint papers_of_chunks (chunks : list Chunk) (processed_docs : list string)
    (papers : list Paper) : M (list Paper) :=
  match chunks with
  | [] => ret papers
  | chunk :: rest =>
      let doc_id := get_or (chunk_doc_id chunk) EmptyString in
      if member doc_id processed_docs
      then papers_of_chunks rest processed_docs papers
      else
        let processed_docs := doc_id :: processed_docs in
        let* doc_info := lift (document_by_id env doc_id) in
        match doc_info with
        | (true, Some doc) =>
            let paper :=
              {| paper_uid := Some (document_id doc);
                 paper_title := Some (document_name doc);
                 paper_abstract :=
                   Some (take_chars 500
                           (get_or (content_with_weight chunk) EmptyString));
                 paper_source := Some "RAGFlow知识库";
                 paper_selected := Some true;
                 paper_similarity := Some (get_or (chunk_similarity chunk) 0%Q);
                 paper_doc_id := Some doc_id;
                 paper_kb_id := Some (get_or (chunk_kb_id chunk) EmptyString);
                 paper_full_content := None |} in
            papers_of_chunks rest processed_docs (papers ++ [paper])%list
        | _ => papers_of_chunks rest processed_docs papers
        end
  end.

(** What a [for] loop over a value goes through: the items of a list, the
    code points of a string, the keys of a dictionary; any other value is
    not iterable. *)
Definition not_iterable : Exn := Failure "TypeError: object is not iterable".

Definition iterate (v : Value) : Exn + list Value :=
  match v with
  | py_list items => inr items
  | py_str s => inr (map py_str (chars s))
  | py_dict members => inr (map (fun member => py_str (fst member)) members)
  | py_none | py_bool _ | py_number _ => inl not_iterable
  end.

(** [l.extend(v)] *)
Definition extend (l : list Value) (v : Value) : Exn + list Value :=
  match iterate v with
  | inl e => inl e
  | inr items => inr (l ++ items)%list
  end.

(** [sep.join(l)]: every item has to be a string. *)
Definition expected_str : Exn :=
  Failure "TypeError: sequence item: expected str instance".

Fixpoint strings_of (l : list Value) : option (list string) :=
  match l with
  | [] => Some []
  | py_str s :: rest =>
      match strings_of rest with
      | Some ss => Some (s :: ss)
      | None => None
      end
  | _ :: _ => None
  end.

Definition join_values (sep : string) (l : list Value) : Exn + string :=
  match strings_of l with
  | Some ss => inr (join sep ss)
  | None => inl expected_str
  end.

(** The search query of [search_papers]: the four [extend]s and the
    [join], which stand outside every [try]. *)
Definition search_query_of (keywords_response : KeywordBundle) : Exn + string :=
  match extend [] (keyword_en keywords_response) with
  | inl e => inl e
  | inr all_keywords =>
      match extend all_keywords (keyword_cn keywords_response) with
      | inl e => inl e
      | inr all_keywords =>
          match extend all_keywords (searchquery_en keywords_response) with
          | inl e => inl e
          | inr all_keywords =>
              match extend all_keywords (searchquery_cn keywords_response) with
              | inl e => inl e
              | inr all_keywords => join_values " " all_keywords
              end
          end
      end
  end.

Definition search_papers (search_record_id_ query tenant_id : string)
    (keywords_num query_num : Z) (use_fuzzy : bool) : M SearchResult :=
  let* keywords_response :=
    extract_keywords query tenant_id keywords_num query_num in
  exec PaperSearchRecord_update search_record_id_
         (set_keywords (dumps_keywords env keywords_response)) in
  let* search_query := lift (search_query_of keywords_response) in
  let user_kbs := kbs_of_tenant env tenant_id in
  let all_kbs := (user_kbs ++ public_kbs env)%list in
  let kb_ids := map kb_id all_kbs in
  let* papers :=
    match kb_ids with
    | _ :: _ =>
        try_except
          (match all_kbs with
           | [] => ret []
           | first_kb :: _ =>
               let* embd_mdl :=
                 LLMBundle env (kb_tenant_id first_kb) EMBEDDING
                   (Some (embd_id first_kb)) in
               let* chunks :=
                 lift (retrieval env search_query embd_mdl
                         (kb_tenant_id first_kb) kb_ids
                         {| page := 1; page_size := 30;
                            similarity_threshold := 2 # 10;
                            vector_similarity_weight := 3 # 10;
                            top := 1024; aggs := true |}) in
               papers_of_chunks chunks [] []
           end)
          (fun _ => ret [])
    | [] => ret []
    end in
  exec PaperSearchRecord_update search_record_id_
         (set_search_results (dumps_papers env papers)
            (Z.of_nat (length papers))) in
  ret {| result_search_record_id := search_record_id_;
         result_papers := papers;
         result_keywords := keywords_response |}.

(** *** The Word document *)

(** The digits at the head of a list of code points, as their values. *)
Fixpoint leading_digits (l : list string) : list Z * list string :=
  match l with
  | [] => ([], [])
  | ch :: rest =>
      match unicode_decimal env ch with
      | Some d => let '(ds, after) := leading_digits rest in (d :: ds, after)
      | None => ([], l)
      end
  end.

(** One match of [##(\d+)\$\$] at the head of [l]: the digits matched,
    their number, and what follows the match. *)
Definition match_citation (l : list string)
    : option (list string * list Z * list string) :=
  match l with
  | "#" :: "#" :: rest =>
      match leading_digits rest with
      | (d :: ds, "$" :: "$" :: after) =>
          Some (take (length (d :: ds)) rest, d :: ds, after)
      | _ => None
      end
  | _ => None
  end.

(** [int(digits)] *)
Definition int_of_digits (ds : list Z) : Z :=
  fold_left (fun acc d => (10 * acc + d)%Z) ds 0%Z.

(** The matches of [citation_pattern.finditer(text)], left to right:
    for each, the text since the previous match, the digits and their
    number. *)
Fixpoint finditer_from (skip : nat) (before : string) (l : list string)
    : list (string * string * Z) * string :=
  match l with
  | [] => ([], before)
  | ch :: rest =>
      match skip with
      | S k => finditer_from k before rest
      | O =>
          match match_citation l with
          | Some (digits, ds, _) =>
              let '(ms, tail) :=
                finditer_from (length digits + 3) EmptyString rest in
              ((before, String.concat EmptyString digits, int_of_digits ds) :: ms,
               tail)
          | None => finditer_from 0 (before +:+ ch) rest
          end
      end
  end.

Definition finditer (text : string) : list (string * string * Z) * string :=
  finditer_from 0 EmptyString (chars text).

(** [set.add] followed, at the end, by [sorted(set)]. *)
Fixpoint insert_sorted (n : Z) (l : list Z) : list Z :=
  match l with
  | [] => [n]
  | m :: rest =>
      if (n <? m)%Z then n :: l
      else if (n =? m)%Z then l
      else m :: insert_sorted n rest
  end.

Definition sorted_cited_indices (content_ : string) : list Z :=
  fold_left (fun acc m => insert_sorted (snd m) acc) (fst (finditer content_)) [].

Definition _add_paragraph_with_citations (text : string) : list Run :=
  let '(ms, tail) := finditer text in
  (flat_map
     (fun m : string * string * Z =>
        let '(before, digits, _) := m in
        (if truthy before then [text_run before] else [])
          ++ [citation_run ("[" +:+ digits +:+ "]")])
     ms
   ++ (if truthy tail then [text_run tail] else []))%list.

Definition block_of_line (line : string) : list Block :=
  let line := strip line in
  if negb (truthy line) then []
  else if startswith "# " line then [heading (drop_bytes 2 line) 1]
  else if startswith "## " line then [heading (drop_bytes 3 line) 2]
  else if startswith "### " line then [heading (drop_bytes 4 line) 3]
  else if startswith "- " line
       then [styled_paragraph (drop_bytes 2 line) "List Bullet"]
  else [run_paragraph (_add_paragraph_with_citations line)].

Definition reference_blocks (cited_indices : list Z) (papers : list Paper)
    : list Block :=
  match papers, cited_indices with
  | _ :: _, _ :: _ =>
      [paragraph EmptyString; paragraph (repeat_string "─" 50);
       paragraph EmptyString; heading "参考文献" 2]
      ++ flat_map
           (fun idx =>
              let paper_idx := (idx - 1)%Z in
              if (0 <=? paper_idx)%Z && (paper_idx <? Z.of_nat (length papers))%Z
              then match papers !! Z.to_nat paper_idx with
                   | Some paper =>
                       [reference_paragraph ("[" +:+ str idx +:+ "] ")
                          (get_or (paper_title paper) "未知标题")]
                   | None => []
                   end
              else [])
           cited_indices
  | _, _ => []
  end%list.

(** The document the [try] block describes to python-docx. *)
Definition word_document (content_ title : string) (papers : list Paper)
    : list Block :=
  ([centered_heading title 0;
    centered_paragraph
      ("生成时间: " +:+ strftime env "%Y-%m-%d %H:%M:%S" (now env));
    paragraph EmptyString]
   ++ flat_map block_of_line (split_on newline content_)
   ++ reference_blocks (sorted_cited_indices content_) papers)%list.

Definition _generate_word_document (content_ title : string)
    (papers : list Paper) : list Byte.byte :=
  match docx_save env (word_document content_ title papers) with
  | inr file_bytes => file_bytes
  | inl _ =>
      let text_content :=
        title +:+ nl +:+ nl +:+ content_ +:+ nl +:+ nl +:+ "生成时间: "
          +:+ strftime env "%Y-%m-%d %H:%M:%S" (now env) in
      encode_utf8 text_content
  end.

(** *** Retrieval with confirmed keywords *)

(** The results of [KnowledgebaseService.query] are lists of model objects:
    a list offers no [dicts], and every object has an [id], so the two
    filters on [user_kbs] and [public_kbs] keep every knowledge base. *)
Definition search_papers_with_keywords (search_record_id_ query search_query
    tenant_id : string) (use_fuzzy : bool) : M ConfirmedSearchResult :=
  exec PaperSearchRecord_update search_record_id_
         (set_keywords (dumps_confirmed_query search_query)) in
  let user_kbs := kbs_of_tenant env tenant_id in
  let public_kbs_ := public_kbs env in
  let all_kbs := (user_kbs ++ public_kbs_)%list in
  let kb_ids := map kb_id all_kbs in
  let* papers :=
    match kb_ids with
    | _ :: _ =>
        try_except
          (match all_kbs with
           | [] => ret []
           | first_kb :: _ =>
               let* embd_mdl :=
                 LLMBundle env (kb_tenant_id first_kb) EMBEDDING
                   (Some (embd_id first_kb)) in
               let* chunks :=
                 lift (retrieval env search_query embd_mdl
                         (kb_tenant_id first_kb) kb_ids
                         {| page := 1; page_size := 30;
                            similarity_threshold := 2 # 10;
                            vector_similarity_weight := 3 # 10;
                            top := 1024; aggs := true |}) in
               papers_of_chunks chunks [] []
           end)
          (fun _ => ret [])
    | [] => ret []
    end in
  exec PaperSearchRecord_update search_record_id_
         (set_search_results (dumps_papers env papers)
            (Z.of_nat (length papers))) in
  ret {| confirmed_search_record_id := search_record_id_;
         confirmed_papers := papers;
         confirmed_query := query;
         confirmed_keywords := search_query |}.

End Service.
End PaperSearchService.

(** ** Requests of the search handlers *)

(** Built-in exceptions of Python. *)
Definition IndexError : Exn := Failure "IndexError: list index out of range".
Definition TypeError : Exn :=
  Failure "TypeError: '<' not supported between instances of 'NoneType' and 'int'".

(** [l[i]]: an index below zero counts from the end. *)
Definition py_index {A} (l : list A) (i : Z) : Exn + A :=
  let n := Z.of_nat (length l) in
  let j := if (i <? 0)%Z then (n + i)%Z else i in
  if (j <? 0)%Z then inl IndexError
  else match l !! Z.to_nat j with
       | Some x => inr x
       | None => inl IndexError
       end.

(** One entry of [selected_keyword_indices]: the truth value of
    [selected], and [type] and [index], which may be missing. *)
Record Selection := {
  selection_selected : bool;
  selection_type : option string;
  selection_index : option Z;
}.

(** The loop of [paper_search_with_keywords] over the selections. *)
Fixpoint selected_keywords (all_keywords : gmap string (list string))
    (selections : list Selection) (search_query_parts : list string)
    : Exn + list string :=
  match selections with
  | [] => inr search_query_parts
  | selected :: rest =>
      if selection_selected selected then
        match selection_type selected ≫= (fun category => all_keywords !! category) with
        | Some category_keywords =>
            match selection_index selected with
            | None => inl TypeError
            | Some index =>
                if (index <? Z.of_nat (length category_keywords))%Z
                then match py_index category_keywords index with
                     | inl e => inl e
                     | inr keyword =>
                         selected_keywords all_keywords rest
                           (search_query_parts ++ [keyword])
                     end
                else selected_keywords all_keywords rest search_query_parts
            end
        | None => selected_keywords all_keywords rest search_query_parts
        end
      else selected_keywords all_keywords rest search_query_parts
  end.

(** The answers of a handler whose data is an [A]. *)
Inductive Reply (A : Type) :=
| reply_json_result (data : A)
| reply_data_error_result (message : string)
| reply_server_error_response (e : Exn).
Arguments reply_json_result {A} data.
Arguments reply_data_error_result {A} message.
Arguments reply_server_error_response {A} e.

(** ** The request handlers of [paper_search_app.py] *)

Section App.
Variable env : Env.

(** The tenant of the logged-in user: the first tenant the user owns,
    else the first tenant the user belongs to. *)
Definition tenant_of (current_user : string) : option string :=
  match tenant_info_by env current_user with
  | t :: _ => Some t
  | [] =>
      match tenants_by_user_id env current_user with
      | t :: _ => Some t
      | [] => None
      end
  end.

(** [POST /paper_survey] *)
Definition paper_survey (current_user search_record_id_ : string)
    (papers : list Paper) (title : string) : M Response :=
  try_except
    (match tenant_of current_user with
     | None => ret (get_data_error_result "用户未关联任何租户")
     | Some tenant_id =>
         let* id_ := PaperSearchService.get_uuid env in
         let survey_record :=
           {| survey_id := id_;
              survey_tenant_id := tenant_id;
              survey_user_id := current_user;
              search_record_id := search_record_id_;
              survey_content := EmptyString;
              survey_title := title;
              status := "pending";
              progress := 0;
              progress_msg := "等待处理";
              task_id := None; survey_papers := None;
              process_begin_at := None; process_duration := None;
              created_at := None; updated_at := None |} in
         exec PaperSurveyRecord.create survey_record in
         let* task_id_ :=
           PaperSearchService.queue_survey_task env survey_record papers 0 in
         ret (get_json_result
                (data_submitted (survey_id survey_record) task_id_ "pending" 0
                   "综述生成任务已提交，正在处理中"))
     end)
    (fun e => ret (server_error_response e)).

(** [GET /paper_survey/<survey_id>] *)
Definition get_survey (current_user survey_id_ : string) : M Response :=
  try_except
    (let* result := PaperSearchService.get_survey survey_id_ in
     match result with
     | Some d => ret (get_json_result (data_survey d))
     | None => ret (get_data_error_result "综述不存在或无权限访问")
     end)
    (fun e => ret (server_error_response e)).

(** [PaperSearchRecord.get_or_none(id == id_)] *)
Definition PaperSearchRecord_get_or_none (id_ : string) : M (option SearchRow) :=
  fun w => (Returns (searches w !! id_), w).

(** [GET /paper_survey/<survey_id>/progress] *)
Definition get_survey_progress (current_user survey_id_ : string)
    : M Response :=
  try_except
    (let* survey :=
       PaperSurveyRecord.get survey_id_
         (fun r => String.eqb (survey_user_id r) current_user) in
     let progress_data (content_ : option string) (papers : option (list Paper)) :=
       {| progress_survey_id := survey_id survey;
          progress_status := status survey;
          progress_value := progress survey;
          progress_message := progress_msg survey;
          progress_survey_title := survey_title survey;
          progress_process_duration := process_duration survey;
          progress_created_at := created_at survey;
          progress_updated_at := updated_at survey;
          progress_survey_content := content_;
          progress_papers := papers |} in
     if String.eqb (status survey) "completed"
     then
       let* papers :=
         try_except
           (if truthy (get_or (survey_papers survey) EmptyString)
            then lift (loads_papers env (get_or (survey_papers survey) EmptyString))
            else
              let* search_record :=
                PaperSearchRecord_get_or_none (search_record_id survey) in
              match search_record with
              | Some r =>
                  if truthy (search_results r)
                  then lift (loads_papers env (search_results r))
                  else ret []
              | None => ret []
              end)
           (fun _ => ret []) in
       ret (get_json_result
              (data_progress
                 (progress_data (Some (survey_content survey)) (Some papers))))
     else ret (get_json_result (data_progress (progress_data None None))))
    (fun e =>
       match e with
       | DoesNotExist => ret (get_data_error_result "综述不存在或无权限访问")
       | _ => ret (server_error_response e)
       end).

(** [DELETE /paper_survey_record/<survey_id>] *)
Definition delete_survey_record (current_user survey_id_ : string)
    : M Response :=
  try_except
    (match tenant_of current_user with
     | None => ret (get_data_error_result "用户未关联任何租户")
     | Some tenant_id =>
         let* result :=
           PaperSearchService.delete_survey_record survey_id_ current_user
             tenant_id in
         if result
         then ret (get_json_result data_true)
         else ret (get_data_error_result "删除失败或无权限删除")
     end)
    (fun e => ret (server_error_response e)).

(** [POST /extract_keywords] *)
Definition extract_keywords (current_user query : string)
    (keywords_num query_num : Z) : M Response :=
  try_except
    (match tenant_of current_user with
     | None => ret (get_data_error_result "用户未关联任何租户")
     | Some tenant_id =>
         let* result :=
           PaperSearchService.extract_keywords env query tenant_id keywords_num
             query_num in
         ret (get_json_result (data_keywords result))
     end)
    (fun e => ret (server_error_response e)).

(** [POST /paper_search]: the search record is a dictionary of the
    handler; no statement inserts it. *)
Definition paper_search (current_user query : string)
    (keywords_num query_num : Z) (use_fuzzy : bool) : M Response :=
  try_except
    (match tenant_of current_user with
     | None => ret (get_data_error_result "用户未关联任何租户")
     | Some tenant_id =>
         let* id_ := PaperSearchService.get_uuid env in
         let* result :=
           PaperSearchService.search_papers env id_ query tenant_id
             keywords_num query_num use_fuzzy in
         ret (get_json_result (data_search result))
     end)
    (fun e => ret (server_error_response e)).

(** [POST /paper_search_with_keywords] *)
Definition paper_search_with_keywords (current_user query : string)
    (all_keywords : gmap string (list string))
    (selected_keyword_indices : list Selection) (use_fuzzy : bool)
    : M (Reply ConfirmedSearchResult) :=
  try_except
    (match tenant_of current_user with
     | None => ret (reply_data_error_result "用户未关联任何租户")
     | Some tenant_id =>
         let* id_ := PaperSearchService.get_uuid env in
         let* search_query_parts :=
           lift (selected_keywords all_keywords selected_keyword_indices []) in
         let final_search_query := join " " search_query_parts in
         let* result :=
           PaperSearchService.search_papers_with_keywords env id_ query
             final_search_query tenant_id use_fuzzy in
         ret (reply_json_result result)
     end)
    (fun e => ret (reply_server_error_response e)).

End App.

(** ** Scenarios

    Concrete collaborators, records and worlds on which the service is run. *)

(** The value of an ASCII digit. *)
Definition ascii_decimal (ch : string) : option Z :=
  match ch with
  | String c EmptyString =>
      let n := Ascii.nat_of_ascii c in
      if (48 <=? n)%nat && (n <=? 57)%nat then Some (Z.of_nat (n - 48)) else None
  | _ => None
  end.

(** Collaborators that vary in the model's answers, in the requests that
    arrive during model calls, in whether Redis takes a push, in the
    knowledge bases and in the retrieval answer; python-docx fails. *)
Definition scenario_env
    (reply : Model → string → list Message → ChatParams → Exn + string)
    (arriving : nat → list Request) (push_ok : bool)
    (kbs : list Knowledgebase) (retrieved : Exn + list Chunk) : Env :=
  {| now := 1700000000;
     strftime := fun _ _ => "2023-11-14 22:13:20";
     uuid := fun n => "uuid-" +:+ str (Z.of_nat n);
     bundle_error := fun _ _ _ => None;
     chat_reply := reply;
     arrivals := arriving;
     chunk_list := fun _ _ _ => inr [];
     retrieval := fun _ _ _ _ _ => retrieved;
     kbs_of_tenant := fun _ => kbs;
     public_kbs := [];
     document_by_id := fun _ => inr (false, None);
     queue_product := fun _ _ => push_ok;
     get_svr_queue_name := fun _ => "rag_flow_svr_queue";
     tenant_info_by := fun u => ["tenant-of-" +:+ u];
     tenants_by_user_id := fun _ => [];
     task_update_progress := fun _ _ _ t => t;
     dumps_keywords := fun _ => "{}";
     dumps_papers := fun _ => "[]";
     loads_papers := fun _ => inr [];
     loads_keywords := fun _ => JSONDecodeError;
     unicode_decimal := ascii_decimal;
     docx_save := fun _ => inl (Failure "python-docx") |}.

(** The model answers every prompt, nobody interferes, Redis is up. *)
Definition calm_env : Env :=
  scenario_env (fun _ _ _ _ => inr "answer") (fun _ => []) true [] (inr []).

(** The model is unreachable. *)
Definition model_down_env : Env :=
  scenario_env (fun _ _ _ _ => inl (Failure "model backend unreachable"))
    (fun _ => []) true [] (inr []).

(** The owner cancels job [s1] while the second model call, the synthesis
    of a one-paper survey, is in flight. *)
Definition cancel_during_synthesis_env : Env :=
  scenario_env (fun _ _ _ _ => inr "answer")
    (fun n => if (n =? 1)%nat then [cancel_request "u1" "s1"] else [])
    true [] (inr []).

(** Redis refuses every push. *)
Definition redis_down_env : Env :=
  scenario_env (fun _ _ _ _ => inr "answer") (fun _ => []) false [] (inr []).

Definition kb_one : Knowledgebase :=
  {| kb_id := "kb1"; kb_tenant_id := "t1"; embd_id := "embedding-model" |}.

(** One knowledge base, and a retrieval engine that fails. *)
Definition retrieval_down_env : Env :=
  scenario_env (fun _ _ _ _ => inr "answer") (fun _ => []) true [kb_one]
    (inl (Failure "retrieval backend")).

Definition empty_world : World :=
  {| surveys := ∅; searches := ∅; tasks := ∅; queues := ∅; llm_calls := [];
     survey_writes := []; uuids_drawn := 0 |}.

(** Job [s1] of user [u1], tenant [tenant-of-u1], as submitted. *)
Definition job (st : string) : SurveyRow :=
  {| survey_id := "s1"; survey_tenant_id := "tenant-of-u1";
     survey_user_id := "u1"; search_record_id := "q1";
     survey_content := EmptyString; survey_title := "文献综述";
     status := st; progress := 0; progress_msg := "等待处理";
     task_id := None; survey_papers := None; process_begin_at := None;
     process_duration := None; created_at := None; updated_at := None |}.

(** A world in which job [s1] is stored with status [st]. *)
Definition world_with_job (st : string) : World :=
  {| surveys := {[ "s1" := job st ]}; searches := ∅; tasks := ∅; queues := ∅;
     llm_calls := []; survey_writes := []; uuids_drawn := 0 |}.

Definition paper_one : Paper :=
  {| paper_uid := Some "d1"; paper_title := Some "Attention Is All You Need";
     paper_abstract := Some "We propose the Transformer.";
     paper_source := Some "RAGFlow知识库"; paper_selected := Some true;
     paper_similarity := Some (9 # 10); paper_doc_id := Some "d1";
     paper_kb_id := Some "kb1"; paper_full_content := None |}.

Definition search_row : SearchRow :=
  {| search_id := "q1"; search_tenant_id := "t1"; search_user_id := "u1";
     search_query_text := "transformers"; keywords := "{}";
     search_results := "[]"; result_count := 0 |}.

Definition world_with_search : World :=
  {| surveys := ∅; searches := {[ "q1" := search_row ]}; tasks := ∅;
     queues := ∅; llm_calls := []; survey_writes := []; uuids_drawn := 0 |}.

(** Nobody has a tenant. *)
Definition no_tenant_env : Env :=
  {| now := 0; strftime := fun _ _ => EmptyString; uuid := fun _ => EmptyString;
     bundle_error := fun _ _ _ => None;
     chat_reply := fun _ _ _ _ => inr EmptyString;
     arrivals := fun _ => []; chunk_list := fun _ _ _ => inr [];
     retrieval := fun _ _ _ _ _ => inr []; kbs_of_tenant := fun _ => [];
     public_kbs := []; document_by_id := fun _ => inr (false, None);
     queue_product := fun _ _ => true; get_svr_queue_name := fun _ => "q";
     tenant_info_by := fun _ => []; tenants_by_user_id := fun _ => [];
     task_update_progress := fun _ _ _ t => t;
     dumps_keywords := fun _ => "{}"; dumps_papers := fun _ => "[]";
     loads_papers := fun _ => inr []; loads_keywords := fun _ => JSONDecodeError;
     unicode_decimal := ascii_decimal;
     docx_save := fun _ => inl (Failure "python-docx") |}.

(** No tenant has a model. *)
Definition no_model_env : Env :=
  {| now := 0; strftime := fun _ _ => EmptyString; uuid := fun _ => EmptyString;
     bundle_error := fun _ _ _ => Some (Failure "no chat model for the tenant");
     chat_reply := fun _ _ _ _ => inr EmptyString;
     arrivals := fun _ => []; chunk_list := fun _ _ _ => inr [];
     retrieval := fun _ _ _ _ _ => inr []; kbs_of_tenant := fun _ => [];
     public_kbs := []; document_by_id := fun _ => inr (false, None);
     queue_product := fun _ _ => true; get_svr_queue_name := fun _ => "q";
     tenant_info_by := fun u => [u]; tenants_by_user_id := fun _ => [];
     task_update_progress := fun _ _ _ t => t;
     dumps_keywords := fun _ => "{}"; dumps_papers := fun _ => "[]";
     loads_papers := fun _ => inr []; loads_keywords := fun _ => JSONDecodeError;
     unicode_decimal := ascii_decimal;
     docx_save := fun _ => inl (Failure "python-docx") |}.


(** The searches of one tenant. The model's reply is [reply], [decode]
    stands for [json.loads], and the dumps are kept apart from what a
    search record holds at first. Every document can be looked up. *)
Definition search_env (reply : Exn + string) (decode : string → Decoded)
    (kbs : list Knowledgebase) (retrieved : Exn + list Chunk) : Env :=
  {| now := 1700000000;
     strftime := fun _ _ => "2023-11-14 22:13:20";
     uuid := fun n => "uuid-" +:+ str (Z.of_nat n);
     bundle_error := fun _ _ _ => None;
     chat_reply := fun _ _ _ _ => reply;
     arrivals := fun _ => [];
     chunk_list := fun _ _ _ => inr [];
     retrieval := fun _ _ _ _ _ => retrieved;
     kbs_of_tenant := fun _ => kbs;
     public_kbs := [];
     document_by_id :=
       fun doc_id =>
         inr (true, Some {| document_id := doc_id;
                            document_name := "paper " +:+ doc_id |});
     queue_product := fun _ _ => true;
     get_svr_queue_name := fun _ => "rag_flow_svr_queue";
     tenant_info_by := fun u => ["tenant-of-" +:+ u];
     tenants_by_user_id := fun _ => [];
     task_update_progress := fun _ _ _ t => t;
     dumps_keywords := fun _ => "<keywords>";
     dumps_papers :=
       fun papers => "<" +:+ str (Z.of_nat (length papers)) +:+ " papers>";
     loads_papers := fun _ => inr [];
     loads_keywords := decode;
     unicode_decimal := ascii_decimal;
     docx_save := fun _ => inl (Failure "python-docx") |}.



(** The model answers with a JSON object whose [keyword_en] is [null]. *)
Definition null_keywords_reply : string :=
  "{" +:+ dq +:+ "keyword_en" +:+ dq +:+ ": null}".

Definition null_keywords_env : Env :=
  search_env (inr null_keywords_reply)
    (fun text =>
       if String.eqb text null_keywords_reply
       then decoded (py_dict [("keyword_en", py_none)])
       else JSONDecodeError)
    [] (inr []).

Definition chunk_of (doc_id text : string) : Chunk :=
  {| chunk_doc_id := Some doc_id; chunk_kb_id := Some "kb1";
     content_with_weight := Some text; chunk_similarity := Some (8 # 10);
     position_int := None |}.

(** One knowledge base; the engine finds two chunks of document [d1] and
    one of [d2]. *)
Definition library_env : Env :=
  search_env (inr "answer") (fun _ => JSONDecodeError) [kb_one]
    (inr [chunk_of "d1" "first"; chunk_of "d2" "second";
          chunk_of "d1" "third"]).

(** ** Properties of computations *)

(** No request arrives while a model call is in flight. *)
Definition quiet (env : Env) : Prop := ∀ n, arrivals env n = [].

(** [m] takes every world to one that [R] relates to it. *)
Definition respects (R : World → World → Prop) {A} (m : M A) : Prop :=
  ∀ w, R w (snd (m w)).

(** The survey table and the trace of its statements are as before. *)
Definition same_surveys (w w' : World) : Prop :=
  surveys w' = surveys w ∧ survey_writes w' = survey_writes w.

(** The search table is as before. *)
Definition same_searches (w w' : World) : Prop := searches w' = searches w.

(** No model call was made. *)
Definition same_llm_calls (w w' : World) : Prop := llm_calls w' = llm_calls w.

(** * Properties *)

(** ** The Python helpers on concrete inputs *)

Example take_chars_counts_code_points :
  take_chars 2 "深度学习" = "深度" ∧ take_chars 3 "ab" = "ab".
Proof. split; reflexivity. Qed.

Example split_whitespace_example :
  split_whitespace ("  深度 学习　for" +:+ nl +:+ " medical ")
  = ["深度"; "学习"; "for"; "medical"].
Proof. reflexivity. Qed.

Example strip_example : strip ("　 a b " +:+ nl) = "a b".
Proof. reflexivity. Qed.

Example replace_all_example : replace_all "```" EmptyString "```x```y``" = "xy``".
Proof. reflexivity. Qed.

Example str_example : str 12 = "12" ∧ str (-1) = "-1" ∧ str 0 = "0".
Proof. repeat split; reflexivity. Qed.

Example sorted_by_position_is_stable :
  map content_with_weight
    (sorted_by_position
       [ {| chunk_doc_id := None; chunk_kb_id := None;
            content_with_weight := Some "b"; chunk_similarity := None;
            position_int := Some 2%Z |};
         {| chunk_doc_id := None; chunk_kb_id := None;
            content_with_weight := Some "a1"; chunk_similarity := None;
            position_int := Some 1%Z |};
         {| chunk_doc_id := None; chunk_kb_id := None;
            content_with_weight := Some "a2"; chunk_similarity := None;
            position_int := Some 1%Z |};
         {| chunk_doc_id := None; chunk_kb_id := None;
            content_with_weight := Some "z"; chunk_similarity := None;
            position_int := None |} ])
  = [Some "z"; Some "a1"; Some "a2"; Some "b"].
Proof. reflexivity. Qed.

Example parse_keyword_response_salvages_fields :
  PaperSearchService._parse_keyword_response calm_env
    ("```json" +:+ nl +:+ "{" +:+ dq +:+ "keyword_en" +:+ dq +:+ ": ["
       +:+ dq +:+ "a b" +:+ dq +:+ ", 'c' ,,x], " +:+ dq +:+ "keyword_cn"
       +:+ dq +:+ ":[]}```")
  = inr {| keyword_en := py_strings ["a b"; "c"; "x"];
           keyword_cn := py_strings []; searchquery_en := py_strings [];
           searchquery_cn := py_strings []; time_range := py_strings [] |}.
Proof. reflexivity. Qed.

Example word_document_example :
  PaperSearchService.word_document calm_env
    ("# Title" +:+ nl +:+ " text ##12$$ and ##3$$ more ###1$$" +:+ nl
       +:+ "- item" +:+ nl +:+ nl +:+ "## H2 　")
    "Doc" [paper_one]
  = [centered_heading "Doc" 0;
     centered_paragraph "生成时间: 2023-11-14 22:13:20";
     paragraph EmptyString;
     heading "Title" 1;
     run_paragraph
       [text_run "text "; citation_run "[12]"; text_run " and ";
        citation_run "[3]"; text_run " more #"; citation_run "[1]"];
     styled_paragraph "item" "List Bullet";
     heading "H2" 2;
     paragraph EmptyString;
     paragraph (repeat_string "─" 50);
     paragraph EmptyString;
     heading "参考文献" 2;
     reference_paragraph "[1] " "Attention Is All You Need"].
Proof. reflexivity. Qed.

(** ** Running the monad *)

Lemma bind_returns {A B} (m : M A) (k : A → M B) w a w1 :
  m w = (Returns a, w1) → bind m k w = k a w1.
Proof. intros H. unfold bind. by rewrite H. Qed.

Lemma bind_raises {A B} (m : M A) (k : A → M B) w e w1 :
  m w = (Raises e, w1) → bind m k w = (Raises e, w1).
Proof. intros H. unfold bind. by rewrite H. Qed.

Lemma try_returns {A} (m : M A) (handler : Exn → M A) w a w1 :
  m w = (Returns a, w1) → try_except m handler w = (Returns a, w1).
Proof. intros H. unfold try_except. by rewrite H. Qed.

Lemma try_raises {A} (m : M A) (handler : Exn → M A) w e w1 :
  m w = (Raises e, w1) → try_except m handler w = handler e w1.
Proof. intros H. unfold try_except. by rewrite H. Qed.

Section Respects.
Variable R : World → World → Prop.
Hypothesis R_refl : ∀ w, R w w.
Hypothesis R_trans : ∀ w1 w2 w3, R w1 w2 → R w2 w3 → R w1 w3.

Lemma respects_ret {A} (a : A) : respects R (ret a).
Proof. intros w. apply R_refl. Qed.

Lemma respects_raise {A} (e : Exn) : respects R (@raise A e).
Proof. intros w. apply R_refl. Qed.

Lemma respects_lift {A} (r : Exn + A) : respects R (lift r).
Proof. destruct r; [apply respects_raise | apply respects_ret]. Qed.

Lemma respects_bind {A B} (m : M A) (k : A → M B) :
  respects R m → (∀ a, respects R (k a)) → respects R (bind m k).
Proof.
  intros Hm Hk w. unfold bind. specialize (Hm w).
  destruct (m w) as [[a | e] w1]; simpl in *.
  - eapply R_trans; [exact Hm | apply Hk].
  - exact Hm.
Qed.

Lemma respects_try_except {A} (m : M A) (handler : Exn → M A) :
  respects R m → (∀ e, respects R (handler e)) → respects R (try_except m handler).
Proof.
  intros Hm Hh w. unfold try_except. specialize (Hm w).
  destruct (m w) as [[a | e] w1]; simpl in *.
  - exact Hm.
  - eapply R_trans; [exact Hm | apply Hh].
Qed.

Lemma respects_for_each {A B} (f : A → M B) (l : list A) :
  (∀ x, respects R (f x)) → respects R (for_each f l).
Proof.
  intros Hf. induction l as [| x rest IH]; simpl.
  - apply respects_ret.
  - apply respects_bind; [apply Hf |]. intros y.
    apply respects_bind; [exact IH |]. intros ys. apply respects_ret.
Qed.

Lemma respects_get id_ where_ : respects R (PaperSurveyRecord.get id_ where_).
Proof.
  intros w. unfold PaperSurveyRecord.get.
  destruct (surveys w !! id_) as [r |]; [destruct (where_ r) |]; apply R_refl.
Qed.

Lemma respects_LLMBundle env tenant ty llm_name :
  respects R (LLMBundle env tenant ty llm_name).
Proof.
  unfold LLMBundle. destruct (bundle_error env tenant ty llm_name);
    [apply respects_raise | apply respects_ret].
Qed.

Lemma respects_full_document_content env doc_id tenant_id kb_ids :
  respects R (PaperSearchService._get_full_document_content env doc_id tenant_id kb_ids).
Proof.
  unfold PaperSearchService._get_full_document_content.
  apply respects_try_except; [| intros e; apply respects_ret].
  apply respects_bind; [apply respects_lift | intros cs; apply respects_ret].
Qed.

(** What is left to show of a handler or a pipeline stage once the model
    call is known to respect [R]. *)
Hypothesis R_write : ∀ wr w, R w (with_write wr w).
Hypothesis R_tasks : ∀ f w, R w (with_tasks f w).
Hypothesis R_llm_call : ∀ c w, R w (with_llm_call c w).

Lemma respects_update id_ fs : respects R (PaperSurveyRecord.update id_ fs).
Proof. intros w. apply R_write. Qed.

Lemma respects_cancel_survey env current_user survey_id_ :
  respects R (cancel_survey env current_user survey_id_).
Proof.
  unfold cancel_survey.
  apply respects_try_except.
  - apply respects_bind; [apply respects_get |]. intros survey.
    destruct (negb _); [apply respects_ret |].
    apply respects_bind.
    + destruct (truthy _); [| apply respects_ret].
      intros w. apply R_tasks.
    + intros _. apply respects_bind; [apply respects_update |].
      intros _. apply respects_ret.
  - intros e. destruct e; apply respects_ret.
Qed.

Lemma respects_serve env (rs : list Request) w :
  R w (fold_left (fun w r => serve env r w) rs w).
Proof.
  revert w. induction rs as [| r rest IH]; intros w; simpl.
  - apply R_refl.
  - eapply R_trans; [| apply IH].
    destruct r as [u s]. apply (respects_cancel_survey env u s w).
Qed.

Lemma respects_chat env mdl system history gen_conf :
  respects R (chat env mdl system history gen_conf).
Proof.
  intros w. unfold chat.
  destruct (chat_reply env mdl system history gen_conf); simpl;
    (eapply R_trans; [apply R_llm_call | apply respects_serve]).
Qed.
End Respects.

Lemma chat_quiet env mdl system history gen_conf w :
  quiet env →
  chat env mdl system history gen_conf w
  = (match chat_reply env mdl system history gen_conf with
     | inl e => Raises e
     | inr answer => Returns answer
     end,
     with_llm_call {| call_model := mdl; call_system := system;
                      call_history := history; call_params := gen_conf |} w).
Proof.
  intros Hq. unfold chat. rewrite Hq. simpl.
  by destruct (chat_reply env mdl system history gen_conf).
Qed.

Lemma same_surveys_refl w : same_surveys w w.
Proof. by split. Qed.

Lemma same_surveys_trans w1 w2 w3 :
  same_surveys w1 w2 → same_surveys w2 w3 → same_surveys w1 w3.
Proof. intros [H1 H2] [H3 H4]. split; congruence. Qed.

Lemma chat_same_surveys env mdl system history gen_conf :
  quiet env → respects same_surveys (chat env mdl system history gen_conf).
Proof. intros Hq w. rewrite chat_quiet by done. by split. Qed.

Section Pipeline.
Variable R : World → World → Prop.
Hypothesis R_refl : ∀ w, R w w.
Hypothesis R_trans : ∀ w1 w2 w3, R w1 w2 → R w2 w3 → R w1 w3.
Variable env : Env.
Hypothesis R_chat :
  ∀ mdl system history gen_conf, respects R (chat env mdl system history gen_conf).

Lemma respects_generate_paper_summary paper tenant_id :
  respects R (PaperSearchService.generate_paper_summary env paper tenant_id).
Proof.
  unfold PaperSearchService.generate_paper_summary.
  apply (respects_try_except R R_trans); [| intros e; by apply respects_ret].
  apply (respects_bind R R_trans); [by apply respects_LLMBundle |].
  intros mdl. apply (respects_bind R R_trans); [apply R_chat |].
  intros s. by apply respects_ret.
Qed.

Lemma respects_extract_keywords question tenant_id keywords_num query_num :
  respects R
    (PaperSearchService.extract_keywords env question tenant_id keywords_num
       query_num).
Proof.
  unfold PaperSearchService.extract_keywords.
  apply (respects_try_except R R_trans); [| intros e; by apply respects_ret].
  apply (respects_bind R R_trans); [by apply respects_LLMBundle |].
  intros mdl. apply (respects_bind R R_trans); [apply R_chat |].
  intros s. apply (respects_bind R R_trans); [by apply respects_lift |].
  intros k. by apply respects_ret.
Qed.

(** A fresh job: the record is inserted, the stages run, and one last
    statement sets the status, [completed] with the content on return and
    [failed] on an exception. *)
Lemma generate_survey_fresh survey_record papers w :
  surveys w !! survey_id survey_record = None →
  ∃ w1, R (with_write (Insert survey_record) w) w1 ∧
    ((∃ c,
        PaperSearchService.generate_survey env survey_record papers w
        = (Returns {| result_survey_id := survey_id survey_record;
                      result_survey_content := c;
                      result_status := "completed" |},
           with_write
             (Update (survey_id survey_record)
                [set_survey_content c; set_status "completed"]) w1))
     ∨ (∃ e,
          PaperSearchService.generate_survey env survey_record papers w
          = (Raises e,
             with_write (Update (survey_id survey_record) [set_status "failed"])
               w1))).
Proof.
  intros Hfresh.
  unfold PaperSearchService.generate_survey.
  set (w0 := with_write (Insert survey_record) w).
  assert (Hcreate : PaperSurveyRecord.create survey_record w
                    = (Returns survey_record, w0)).
  { unfold PaperSurveyRecord.create. by rewrite Hfresh. }
  rewrite (bind_returns _ _ _ _ _ Hcreate). clear Hcreate.
  cbv beta zeta. unfold try_except.
  match goal with
  | |- context [ bind (for_each ?f papers) ?k ] => set (F1 := f); set (K1 := k)
  end.
  assert (HF1 : ∀ x, respects R (F1 x)).
  { intros paper. unfold F1. destruct (truthy _); [by apply respects_ret |].
    apply (respects_bind R R_trans); [by apply respects_full_document_content |].
    intros fc. destruct (truthy fc); by apply respects_ret. }
  pose proof (respects_for_each R R_refl R_trans F1 papers HF1 w0) as H1.
  destruct (for_each F1 papers w0) as [[updated_papers | e] wa] eqn:E1;
    simpl in H1.
  2: { rewrite (bind_raises _ _ _ _ _ E1).
       exists wa. split; [done |]. right. by exists e. }
  rewrite (bind_returns _ _ _ _ _ E1). unfold K1. clear K1. cbv beta.
  match goal with
  | |- context [ bind (for_each ?f updated_papers) ?k ] =>
      set (F2 := f); set (K2 := k)
  end.
  assert (HF2 : ∀ x, respects R (F2 x)).
  { intros paper. unfold F2.
    apply (respects_bind R R_trans); [apply respects_generate_paper_summary |].
    intros s. by apply respects_ret. }
  pose proof (respects_for_each R R_refl R_trans F2 updated_papers HF2 wa) as H2.
  destruct (for_each F2 updated_papers wa) as [[paper_summaries | e] wb] eqn:E2;
    simpl in H2.
  2: { rewrite (bind_raises _ _ _ _ _ E2).
       exists wb. split; [by eapply R_trans |]. right. by exists e. }
  rewrite (bind_returns _ _ _ _ _ E2). unfold K2. clear K2. cbv beta.
  pose proof (respects_LLMBundle R R_refl env (survey_tenant_id survey_record)
                CHAT None wb) as H3.
  destruct (LLMBundle env (survey_tenant_id survey_record) CHAT None wb)
    as [[mdl | e] wc] eqn:E3; simpl in H3.
  2: { rewrite (bind_raises _ _ _ _ _ E3).
       exists wc. split; [eauto |]. right. by exists e. }
  rewrite (bind_returns _ _ _ _ _ E3). cbv beta.
  match goal with
  | |- context [ chat env mdl ?s ?h ?p ] =>
      pose proof (R_chat mdl s h p wc) as H4;
      destruct (chat env mdl s h p wc) as [[c | e] wd] eqn:E4; simpl in H4
  end.
  - rewrite (bind_returns _ _ _ _ _ E4).
    exists wd. split; [eauto |]. left. by exists c.
  - rewrite (bind_raises _ _ _ _ _ E4).
    exists wd. split; [eauto |]. right. by exists e.
Qed.
End Pipeline.

(** ** Relations the stages respect *)

Lemma same_searches_refl w : same_searches w w.
Proof. done. Qed.

Lemma same_searches_trans w1 w2 w3 :
  same_searches w1 w2 → same_searches w2 w3 → same_searches w1 w3.
Proof. unfold same_searches. congruence. Qed.

Lemma same_llm_calls_refl w : same_llm_calls w w.
Proof. done. Qed.

Lemma same_llm_calls_trans w1 w2 w3 :
  same_llm_calls w1 w2 → same_llm_calls w2 w3 → same_llm_calls w1 w3.
Proof. unfold same_llm_calls. congruence. Qed.

(** Serving cancellations during a model call never touches the search
    table. *)
Lemma chat_same_searches env mdl system history gen_conf :
  respects same_searches (chat env mdl system history gen_conf).
Proof.
  apply (respects_chat same_searches same_searches_refl same_searches_trans);
    done.
Qed.

(** One model call is one entry of the log, whatever arrives meanwhile. *)
Lemma chat_logs_one_call env mdl system history gen_conf w :
  llm_calls (snd (chat env mdl system history gen_conf w))
  = (llm_calls w
     ++ [{| call_model := mdl; call_system := system;
            call_history := history; call_params := gen_conf |}])%list.
Proof.
  unfold chat.
  set (w1 := with_llm_call _ w).
  pose proof (respects_serve same_llm_calls same_llm_calls_refl
                same_llm_calls_trans (fun _ _ => eq_refl) (fun _ _ => eq_refl)
                env (arrivals env (length (llm_calls w))) w1) as Hs.
  destruct (chat_reply env mdl system history gen_conf); simpl; by rewrite Hs.
Qed.

Lemma try_except_ret {A} (m : M A) (f : Exn → A) w :
  ∃ a, try_except m (fun e => ret (f e)) w = (Returns a, snd (m w)).
Proof. unfold try_except. destruct (m w) as [[a | e] w1]; simpl; eauto. Qed.

(** Keyword extraction degrades, it never raises; and it leaves the search
    table alone. *)
Lemma extract_keywords_returns env question tenant_id keywords_num query_num w :
  ∃ kw w1,
    PaperSearchService.extract_keywords env question tenant_id keywords_num
      query_num w = (Returns kw, w1)
    ∧ searches w1 = searches w.
Proof.
  pose proof (respects_extract_keywords same_searches same_searches_refl
                same_searches_trans env (chat_same_searches env) question
                tenant_id keywords_num query_num w) as Hs.
  revert Hs. unfold PaperSearchService.extract_keywords. cbv zeta.
  match goal with
  | |- context [ try_except ?m ?h ] =>
      destruct (try_except_ret m
                  (fun _ =>
                     let keywords_num :=
                       PaperSearchService.effective_keywords_num keywords_num in
                     let words := split_whitespace question in
                     let kws :=
                       if (keywords_num <=? Z.of_nat (length words))%Z
                       then take (Z.to_nat keywords_num) words else words in
                     {| keyword_en := py_strings kws;
                        keyword_cn := py_strings kws;
                        searchquery_en := py_strings [question];
                        searchquery_cn := py_strings [question];
                        time_range := py_strings [] |}) w)
        as [kw Hkw]
  end.
  cbv zeta in Hkw. rewrite Hkw. simpl. intros Hs.
  eexists kw, _. split; [reflexivity | exact Hs].
Qed.

(** The loop over the chunks only reads. *)
Lemma papers_of_chunks_reads env chunks processed_docs papers :
  respects eq (PaperSearchService.papers_of_chunks env chunks processed_docs papers).
Proof.
  revert processed_docs papers.
  induction chunks as [| chunk rest IH]; intros processed_docs papers; simpl.
  - by apply respects_ret.
  - destruct (member _ processed_docs); [apply IH |].
    apply (respects_bind eq (@eq_trans World)); [by apply respects_lift |].
    intros [found doc]. destruct found, doc; apply IH.
Qed.

(** ** [generate_survey] *)

(** A job that is stored already is rejected by the insert: nothing is
    written and no model is called. *)
Lemma generate_survey_stored_job env survey_record papers w r :
  surveys w !! survey_id survey_record = Some r →
  PaperSearchService.generate_survey env survey_record papers w
  = (Raises IntegrityError, w).
Proof.
  intros Hr.
  unfold PaperSearchService.generate_survey, bind, PaperSurveyRecord.create.
  by rewrite Hr.
Qed.

(** Without interference, the stages between the insert and the last
    statement leave the survey table alone. *)
Lemma generate_survey_quiet env survey_record papers w :
  quiet env →
  surveys w !! survey_id survey_record = None →
  ∃ w1, same_surveys (with_write (Insert survey_record) w) w1 ∧
    ((∃ c,
        PaperSearchService.generate_survey env survey_record papers w
        = (Returns {| result_survey_id := survey_id survey_record;
                      result_survey_content := c;
                      result_status := "completed" |},
           with_write
             (Update (survey_id survey_record)
                [set_survey_content c; set_status "completed"]) w1))
     ∨ (∃ e,
          PaperSearchService.generate_survey env survey_record papers w
          = (Raises e,
             with_write (Update (survey_id survey_record) [set_status "failed"])
               w1))).
Proof.
  intros Hq Hfresh.
  apply (generate_survey_fresh same_surveys same_surveys_refl same_surveys_trans);
    [| done].
  intros mdl s h p. by apply chat_same_surveys.
Qed.

Lemma length_append (a b : string) :
  String.length (a +:+ b) = (String.length a + String.length b)%nat.
Proof. induction a as [| c a IH]; simpl; [done | by rewrite IH]. Qed.

(** ** The searches *)

(** Computations that only read: the outcome does not depend on the world
    and the world is left as it was. *)
Lemma reads_bind {A B} (m : M A) (k : A → M B) :
  (∃ out, ∀ w, m w = (out, w)) →
  (∀ a, ∃ out, ∀ w, k a w = (out, w)) →
  ∃ out, ∀ w, bind m k w = (out, w).
Proof.
  intros [[a | e] Hm] Hk.
  - destruct (Hk a) as [out Hout]. exists out. intros w.
    unfold bind. rewrite Hm. apply Hout.
  - exists (Raises e). intros w. unfold bind. by rewrite Hm.
Qed.

Lemma reads_lift {A} (r : Exn + A) : ∃ out, ∀ w, lift r w = (out, w).
Proof. destruct r; eexists; intros w; reflexivity. Qed.

Lemma reads_LLMBundle env tenant ty llm_name :
  ∃ out, ∀ w, LLMBundle env tenant ty llm_name w = (out, w).
Proof.
  unfold LLMBundle. destruct (bundle_error env tenant ty llm_name);
    eexists; intros w; reflexivity.
Qed.

Lemma papers_of_chunks_pure env chunks :
  ∀ processed_docs papers,
    ∃ out, ∀ w,
      PaperSearchService.papers_of_chunks env chunks processed_docs papers w
      = (out, w).
Proof.
  induction chunks as [| chunk rest IH]; intros processed_docs papers;
    cbn [PaperSearchService.papers_of_chunks].
  - eexists. intros w. reflexivity.
  - cbv zeta. destruct (member _ processed_docs); [apply IH |].
    apply reads_bind; [apply reads_lift |].
    intros [found doc]. destruct found, doc; apply IH.
Qed.

Lemma member_true x l : member x l = true ↔ x ∈ l.
Proof.
  unfold member. rewrite existsb_exists. split.
  - intros (y & Hy & Heq). apply String.eqb_eq in Heq as ->.
    by apply list_elem_of_In.
  - intros Hx. exists x. split; [by apply list_elem_of_In | apply String.eqb_refl].
Qed.

(** The loop keeps one paper per document; every paper it builds is
    selected, comes from the knowledge base and carries no full content. *)
Lemma papers_of_chunks_one_per_document env chunks :
  ∀ processed_docs papers w ps w',
    NoDup (map paper_doc_id papers) →
    (∀ p, p ∈ papers → ∃ d, paper_doc_id p = Some d ∧ d ∈ processed_docs) →
    Forall (fun p => paper_selected p = Some true
                     ∧ paper_source p = Some "RAGFlow知识库"
                     ∧ paper_full_content p = None) papers →
    PaperSearchService.papers_of_chunks env chunks processed_docs papers w
    = (Returns ps, w') →
    NoDup (map paper_doc_id ps)
    ∧ Forall (fun p => paper_selected p = Some true
                       ∧ paper_source p = Some "RAGFlow知识库"
                       ∧ paper_full_content p = None) ps
    ∧ (length ps ≤ length papers + length chunks)%nat.
Proof.
  induction chunks as [| chunk rest IH];
    intros processed_docs papers w ps w' Hnodup Hseen Hgood;
    cbn [PaperSearchService.papers_of_chunks].
  - intros [= <- <-]. repeat split; [done | done | lia].
  - cbv zeta.
    set (doc_id := get_or (chunk_doc_id chunk) EmptyString).
    destruct (member doc_id processed_docs) eqn:Hmem.
    { intros Hrun. destruct (IH _ _ _ _ _ Hnodup Hseen Hgood Hrun)
        as (H1 & H2 & H3).
      repeat split; [done | done | simpl; lia]. }
    assert (Hnew : doc_id ∉ processed_docs).
    { intros Hin. apply member_true in Hin. congruence. }
    assert (Hseen' : ∀ p, p ∈ papers →
              ∃ d, paper_doc_id p = Some d ∧ d ∈ doc_id :: processed_docs).
    { intros p Hp. destruct (Hseen p Hp) as (d & Hd & Hin).
      exists d. split; [done | apply elem_of_cons; by right]. }
    unfold bind. destruct (document_by_id env doc_id) as [e | [found doc]];
      [discriminate |].
    cbn [lift ret].
    destruct found, doc as [doc |].
    2-4: intros Hrun;
         destruct (IH _ _ _ _ _ Hnodup Hseen' Hgood Hrun) as (H1 & H2 & H3);
         repeat split; [done | done | simpl; lia].
    intros Hrun. eapply IH in Hrun.
    + destruct Hrun as (H1 & H2 & H3).
      repeat split; [done | done |].
      rewrite length_app in H3. simpl in *. lia.
    + rewrite map_app. simpl. apply NoDup_app. split; [done |]. split.
      * intros d Hd Hd'. apply list_elem_of_singleton in Hd' as ->.
        apply list_elem_of_fmap in Hd as (p & Hp & Hin).
        destruct (Hseen p Hin) as (d & Hd & Hseen_d).
        rewrite Hd in Hp. injection Hp as ->. contradiction.
      * apply NoDup_singleton.
    + intros p Hp. apply elem_of_app in Hp as [Hp | Hp]; [by apply Hseen' |].
      apply list_elem_of_singleton in Hp as ->.
      exists doc_id. split; [done | apply elem_of_cons; by left].
    + apply Forall_app. split; [done |]. by repeat constructor.
Qed.

(** The retrieval stage both searches share: it only reads, it never
    raises, and its papers are one per document; without a knowledge
    base, and behind an engine that raises, they are none. *)
Lemma retrieval_stage_reads env search_query tenant_id :
  ∃ papers,
    (∀ w,
       match map kb_id (kbs_of_tenant env tenant_id ++ public_kbs env)%list with
       | _ :: _ =>
           try_except
             (match (kbs_of_tenant env tenant_id ++ public_kbs env)%list with
              | [] => ret []
              | first_kb :: _ =>
                  let* embd_mdl :=
                    LLMBundle env (kb_tenant_id first_kb) EMBEDDING
                      (Some (embd_id first_kb)) in
                  let* chunks :=
                    lift (retrieval env search_query embd_mdl
                            (kb_tenant_id first_kb)
                            (map kb_id
                               (kbs_of_tenant env tenant_id ++ public_kbs env)%list)
                            {| page := 1; page_size := 30;
                               similarity_threshold := 2 # 10;
                               vector_similarity_weight := 3 # 10;
                               top := 1024; aggs := true |}) in
                  PaperSearchService.papers_of_chunks env chunks [] []
              end)
             (fun _ => ret [])
       | [] => ret []
       end w = (Returns papers, w))
    ∧ NoDup (map paper_doc_id papers)
    ∧ Forall (fun p => paper_selected p = Some true
                       ∧ paper_source p = Some "RAGFlow知识库"
                       ∧ paper_full_content p = None) papers
    ∧ (((kbs_of_tenant env tenant_id ++ public_kbs env)%list = []
        ∨ ∀ question mdl tenant kb_ids params,
            ∃ e, retrieval env question mdl tenant kb_ids params = inl e) →
       papers = []).
Proof.
  destruct (kbs_of_tenant env tenant_id ++ public_kbs env)%list
    as [| first_kb rest] eqn:Hkbs.
  { exists []. repeat split; [constructor | constructor]. }
  change (map kb_id (first_kb :: rest)) with (kb_id first_kb :: map kb_id rest).
  cbv iota.
  match goal with
  | |- context [ try_except ?b ?h ] => set (body := b)
  end.
  assert (Hpure : ∃ out, ∀ w, body w = (out, w)).
  { unfold body. apply reads_bind; [apply reads_LLMBundle |].
    intros embd_mdl. apply reads_bind; [apply reads_lift |].
    intros chunks. apply papers_of_chunks_pure. }
  destruct Hpure as [[papers | e] Hout].
  - exists papers. split.
    + intros w. unfold try_except. by rewrite Hout.
    + pose proof (Hout empty_world) as Hrun. revert Hrun.
      unfold body, bind.
      destruct (LLMBundle env _ _ _ empty_world) as [[embd_mdl | e] w1];
        [| discriminate].
      match goal with
      | |- context [ retrieval env ?a ?b ?c ?d ?e ] =>
          destruct (retrieval env a b c d e) as [e' | chunks] eqn:Hretrieval
      end; [discriminate |].
      cbn [lift ret]. intros Hrun.
      destruct (papers_of_chunks_one_per_document env chunks [] [] w1 papers
                  empty_world) as (H1 & H2 & _); try done.
      * constructor.
      * intros p Hp. by apply elem_of_nil in Hp.
      * split; [exact H1 |]. split; [exact H2 |].
        intros [Hnone | Hfail]; [discriminate |].
        match type of Hretrieval with
        | retrieval env ?a ?b ?c ?d ?e = _ =>
            destruct (Hfail a b c d e) as [e' He']
        end.
        congruence.
  - exists []. split.
    + intros w. unfold try_except. by rewrite Hout.
    + repeat split; constructor.
Qed.

Lemma alter_absent (f : SearchRow → SearchRow) (k : string)
    (m : gmap string SearchRow) :
  m !! k = None → alter f k m = m.
Proof.
  intros Hk. apply map_eq. intros j. destruct (decide (j = k)) as [-> | Hne].
  - by rewrite lookup_alter_eq, Hk.
  - by rewrite lookup_alter_ne.
Qed.

(** What the two updates of a search leave in the table: the keywords,
    the results and their number in the record with the given id, when one
    is stored; every other column and every other record as before. *)
Lemma search_record_after_updates (m : gmap string SearchRow) id_ kws results n :
  alter (PaperSearchService.set_search_results results n) id_
    (alter (PaperSearchService.set_keywords kws) id_ m) !! id_
  = (fun r =>
       {| search_id := search_id r; search_tenant_id := search_tenant_id r;
          search_user_id := search_user_id r;
          search_query_text := search_query_text r;
          keywords := kws; search_results := results; result_count := n |})
      <$> m !! id_
  ∧ ∀ k, k ≠ id_ →
      alter (PaperSearchService.set_search_results results n) id_
        (alter (PaperSearchService.set_keywords kws) id_ m) !! k
      = m !! k.
Proof.
  split.
  - rewrite !lookup_alter_eq. by destruct (m !! id_).
  - intros k Hk. by rewrite !lookup_alter_ne.
Qed.


(** How [search_papers] runs: the extraction, the update of the keywords,
    the search query, which may raise, and then a retrieval that only
    reads and the update of the results. *)
Lemma search_papers_runs env search_record_id_ query tenant_id keywords_num
    query_num use_fuzzy w :
  ∃ kw w1,
    PaperSearchService.extract_keywords env query tenant_id keywords_num
      query_num w = (Returns kw, w1)
    ∧ searches w1 = searches w
    ∧ match PaperSearchService.search_query_of kw with
      | inl e =>
          PaperSearchService.search_papers env search_record_id_ query
            tenant_id keywords_num query_num use_fuzzy w
          = (Raises e,
             with_searches
               (alter (PaperSearchService.set_keywords (dumps_keywords env kw))
                  search_record_id_) w1)
      | inr search_query =>
          ∃ papers,
            PaperSearchService.search_papers env search_record_id_ query
              tenant_id keywords_num query_num use_fuzzy w
            = (Returns {| result_search_record_id := search_record_id_;
                          result_papers := papers;
                          result_keywords := kw |},
               with_searches
                 (alter (PaperSearchService.set_search_results
                           (dumps_papers env papers)
                           (Z.of_nat (length papers))) search_record_id_)
                 (with_searches
                    (alter (PaperSearchService.set_keywords
                              (dumps_keywords env kw))
                       search_record_id_) w1))
            ∧ (∀ id2 fuzzy2 w2,
                 PaperSearchService.search_papers_with_keywords env id2 query
                   search_query tenant_id fuzzy2 w2
                 = (Returns {| confirmed_search_record_id := id2;
                               confirmed_papers := papers;
                               confirmed_query := query;
                               confirmed_keywords := search_query |},
                    with_searches
                      (alter (PaperSearchService.set_search_results
                                (dumps_papers env papers)
                                (Z.of_nat (length papers))) id2)
                      (with_searches
                         (alter (PaperSearchService.set_keywords
                                   (dumps_confirmed_query search_query))
                            id2) w2)))
            ∧ NoDup (map paper_doc_id papers)
            ∧ Forall (fun p => paper_selected p = Some true
                               ∧ paper_source p = Some "RAGFlow知识库"
                               ∧ paper_full_content p = None) papers
            ∧ (((kbs_of_tenant env tenant_id ++ public_kbs env)%list = []
                ∨ ∀ question mdl tenant kb_ids params,
                    ∃ e, retrieval env question mdl tenant kb_ids params
                         = inl e) →
               papers = [])
      end.
Proof.
  destruct (extract_keywords_returns env query tenant_id keywords_num query_num w)
    as (kw & w1 & Hkw & Hs).
  exists kw, w1. split; [exact Hkw |]. split; [exact Hs |].
  destruct (PaperSearchService.search_query_of kw) as [e | search_query]
    eqn:Hquery.
  { unfold PaperSearchService.search_papers.
    rewrite (bind_returns _ _ _ _ _ Hkw). cbv beta zeta.
    unfold PaperSearchService.PaperSearchRecord_update.
    unfold bind at 1. cbv beta iota. rewrite Hquery. reflexivity. }
  destruct (retrieval_stage_reads env search_query tenant_id)
    as (papers & Hstage & Hnodup & Hgood & Hempty).
  exists papers. split; [| split; [| by repeat split]].
  - unfold PaperSearchService.search_papers.
    rewrite (bind_returns _ _ _ _ _ Hkw). cbv beta zeta.
    unfold PaperSearchService.PaperSearchRecord_update.
    unfold bind at 1. cbv beta iota. rewrite Hquery.
    unfold bind at 1. cbn [lift ret].
    rewrite (bind_returns _ _ _ _ _ (Hstage _)). cbv beta.
    reflexivity.
  - intros id2 fuzzy2 w2.
    unfold PaperSearchService.search_papers_with_keywords.
    unfold PaperSearchService.PaperSearchRecord_update.
    unfold bind at 1. cbv beta iota zeta.
    rewrite (bind_returns _ _ _ _ _ (Hstage _)). cbv beta.
    reflexivity.
Qed.

(** How [search_papers_with_keywords] runs. *)
Lemma confirmed_search_runs env search_record_id_ query search_query tenant_id
    use_fuzzy :
  ∃ papers,
    (∀ w,
       PaperSearchService.search_papers_with_keywords env search_record_id_
         query search_query tenant_id use_fuzzy w
       = (Returns {| confirmed_search_record_id := search_record_id_;
                     confirmed_papers := papers;
                     confirmed_query := query;
                     confirmed_keywords := search_query |},
          with_searches
            (alter (PaperSearchService.set_search_results
                      (dumps_papers env papers) (Z.of_nat (length papers)))
               search_record_id_)
            (with_searches
               (alter (PaperSearchService.set_keywords
                         (dumps_confirmed_query search_query))
                  search_record_id_) w)))
    ∧ (((kbs_of_tenant env tenant_id ++ public_kbs env)%list = []
        ∨ ∀ question mdl tenant kb_ids params,
            ∃ e, retrieval env question mdl tenant kb_ids params = inl e) →
       papers = []).
Proof.
  destruct (retrieval_stage_reads env search_query tenant_id)
    as (papers & Hstage & _ & _ & Hempty).
  exists papers. split; [| exact Hempty].
  intros w.
  unfold PaperSearchService.search_papers_with_keywords.
  unfold PaperSearchService.PaperSearchRecord_update.
  unfold bind at 1. cbv beta iota zeta.
  rewrite (bind_returns _ _ _ _ _ (Hstage _)). cbv beta.
  reflexivity.
Qed.



(** ** The specified behaviour *)

(** C1, as the code has it: [generate_survey] has no cancellation
    checkpoint. A job that is stored as cancelled when [generate_survey] is
    called stays cancelled, because the insert raises on the stored id
    before any work and nothing is written. A job that is not stored yet is
    inserted, and whatever requests are served while the model calls are in
    flight, a cancellation included, the last statement of the run sets the
    status: [completed] with the content when the run returns, [failed]
    when it raises. *)
Theorem generate_survey_has_no_cancellation_checkpoint env survey_record
    papers w :
  (∀ r, surveys w !! survey_id survey_record = Some r →
        status r = "cancelled" →
        PaperSearchService.generate_survey env survey_record papers w
        = (Raises IntegrityError, w))
  ∧ (surveys w !! survey_id survey_record = None →
     ∀ out w',
       PaperSearchService.generate_survey env survey_record papers w = (out, w') →
       ∃ w1,
         w' = with_write
                (Update (survey_id survey_record)
                   match out with
                   | Returns res =>
                       [set_survey_content (result_survey_content res);
                        set_status "completed"]
                   | Raises _ => [set_status "failed"]
                   end) w1
         ∧ ∀ r, surveys w' !! survey_id survey_record = Some r →
                status r = match out with
                           | Returns _ => "completed"
                           | Raises _ => "failed"
                           end).
Proof.
  split.
  - intros r Hr _. by eapply generate_survey_stored_job.
  - intros Hfresh out w' Hrun.
    destruct (generate_survey_fresh (fun _ _ => True) (fun _ => I)
                (fun _ _ _ _ _ => I) env (fun _ _ _ _ _ => I)
                survey_record papers w Hfresh)
      as (w1 & _ & [[c Hc] | [e He]]).
    + rewrite Hc in Hrun. injection Hrun as <- <-.
      exists w1. split; [reflexivity |].
      intros r. simpl. rewrite lookup_alter_eq.
      destruct (surveys w1 !! survey_id survey_record); simpl; [| done].
      by intros [= <-].
    + rewrite He in Hrun. injection Hrun as <- <-.
      exists w1. split; [reflexivity |].
      intros r. simpl. rewrite lookup_alter_eq.
      destruct (surveys w1 !! survey_id survey_record); simpl; [| done].
      by intros [= <-].
Qed.

(** A job stored as cancelled is left alone; a job cancelled during the
    synthesis call ends as completed. *)
Lemma generate_survey_has_no_cancellation_checkpoint_witness :
  (surveys (world_with_job "cancelled") !! "s1" = Some (job "cancelled")
   ∧ PaperSearchService.generate_survey calm_env (job "pending") [paper_one]
       (world_with_job "cancelled")
     = (Raises IntegrityError, world_with_job "cancelled"))
  ∧ (surveys empty_world !! "s1" = None
     ∧ ∀ r, surveys
              (snd (PaperSearchService.generate_survey
                      cancel_during_synthesis_env (job "pending") [paper_one]
                      empty_world)) !! "s1" = Some r →
            status r = "completed").
Proof.
  split; (split; [reflexivity |]).
  - apply (proj1 (generate_survey_has_no_cancellation_checkpoint calm_env
                    (job "pending") [paper_one] (world_with_job "cancelled"))
             (job "cancelled")); reflexivity.
  - destruct (PaperSearchService.generate_survey cancel_during_synthesis_env
                (job "pending") [paper_one] empty_world)
      as [[res | e] w'] eqn:Hrun; [| vm_compute in Hrun; discriminate].
    destruct (proj2 (generate_survey_has_no_cancellation_checkpoint
                       cancel_during_synthesis_env (job "pending") [paper_one]
                       empty_world) eq_refl (Returns res) w' Hrun)
      as (w1 & _ & Hstatus).
    exact Hstatus.
Defined.

(** C1 as stated fails: the owner cancels job [s1] while the synthesis call
    is in flight; the job is stored as cancelled, and the last statement of
    [generate_survey] overwrites it with completed. *)
Lemma cancelled_job_is_overwritten :
  let '(outcome, w') :=
    PaperSearchService.generate_survey cancel_during_synthesis_env
      (job "pending") [paper_one] empty_world in
  status_history "s1" ∅ (survey_writes w')
  = [Some "pending"; Some "cancelled"; Some "completed"]
  ∧ survey_writes w'
    = [Insert (job "pending");
       Update "s1"
         [set_status "cancelled"; set_progress (-1);
          set_progress_msg "任务已取消"; set_updated_at 1700000000];
       Update "s1" [set_survey_content "answer"; set_status "completed"]]
  ∧ (status <$> surveys w' !! "s1") = Some "completed"
  ∧ outcome = Returns {| result_survey_id := "s1";
                         result_survey_content := "answer";
                         result_status := "completed" |}.
Proof. vm_compute. repeat split; reflexivity. Qed.

(** C2, as the code has it: when the job of a re-delivered work item is
    stored as completed, [generate_survey] changes no record and calls no
    model, but it does not return: its first step, the insert, raises
    [IntegrityError] on the stored id before any work begins, and the world
    it leaves is the world it found. *)
Theorem completed_job_redelivery_changes_nothing env survey_record papers w r :
  surveys w !! survey_id survey_record = Some r →
  status r = "completed" →
  ∃ w',
    PaperSearchService.generate_survey env survey_record papers w
    = (Raises IntegrityError, w')
    ∧ w' = w
    ∧ surveys w' = surveys w
    ∧ survey_writes w' = survey_writes w
    ∧ llm_calls w' = llm_calls w.
Proof.
  intros Hr _. exists w.
  split; [by eapply generate_survey_stored_job | done].
Qed.

Lemma completed_job_redelivery_witness :
  (surveys (world_with_job "completed") !! "s1" = Some (job "completed")
   ∧ status (job "completed") = "completed")
  ∧ ∃ w',
      PaperSearchService.generate_survey calm_env (job "pending") [paper_one]
        (world_with_job "completed") = (Raises IntegrityError, w')
      ∧ w' = world_with_job "completed"
      ∧ surveys w' = surveys (world_with_job "completed")
      ∧ survey_writes w' = survey_writes (world_with_job "completed")
      ∧ llm_calls w' = llm_calls (world_with_job "completed").
Proof.
  split; [split; reflexivity |].
  apply (completed_job_redelivery_changes_nothing calm_env (job "pending")
           [paper_one] (world_with_job "completed") (job "completed"));
    reflexivity.
Defined.

(** C2 as stated fails: the work item of the completed job [s1] is
    delivered again; the call is no silent no-op, it raises the
    [IntegrityError] of the insert. The stored status is not what is
    checked: the same delivery for a job stored as pending, which no worker
    has run yet, is rejected in the same way. *)
Lemma completed_job_redelivery_raises :
  (status <$> surveys (world_with_job "completed") !! "s1") = Some "completed"
  ∧ PaperSearchService.generate_survey calm_env (job "pending") [paper_one]
      (world_with_job "completed")
    = (Raises IntegrityError, world_with_job "completed")
  ∧ (¬ ∃ res w',
         PaperSearchService.generate_survey calm_env (job "pending")
           [paper_one] (world_with_job "completed") = (Returns res, w'))
  ∧ PaperSearchService.generate_survey calm_env (job "pending") [paper_one]
      (world_with_job "pending")
    = (Raises IntegrityError, world_with_job "pending").
Proof.
  split; [reflexivity |]. split; [reflexivity |]. split; [| reflexivity].
  intros (res & w' & Hrun).
  assert (Hraises :
    PaperSearchService.generate_survey calm_env (job "pending") [paper_one]
      (world_with_job "completed")
    = (Raises IntegrityError, world_with_job "completed")) by reflexivity.
  rewrite Hraises in Hrun. discriminate.
Qed.

(** C3, as the code has it: when Redis refuses the push,
    [queue_survey_task] raises and [paper_survey] answers with a server
    error; nothing is rolled back. The queues are as before, the survey
    record stays stored with status [pending] and progress 0 and points to
    the task, and the task row stays stored. *)
Theorem failed_enqueue_leaves_pending_job env current_user search_record_id_
    papers title tenant w :
  tenant_of env current_user = Some tenant →
  surveys w !! uuid env (uuids_drawn w) = None →
  (∀ queue message, queue_product env queue message = false) →
  ∃ w',
    paper_survey env current_user search_record_id_ papers title w
    = (Returns (server_error_response
                  (Exception "无法访问 Redis，请检查 Redis 状态")), w')
    ∧ queues w' = queues w
    ∧ (∃ r, surveys w' !! uuid env (uuids_drawn w) = Some r
            ∧ status r = "pending"
            ∧ progress r = 0%Q
            ∧ task_id r = Some (uuid env (S (uuids_drawn w))))
    ∧ (∃ t, tasks w' !! uuid env (S (uuids_drawn w)) = Some t
            ∧ task_doc_id t = uuid env (uuids_drawn w)).
Proof.
  intros Ht Hfresh Hdown.
  unfold paper_survey, try_except, bind. rewrite Ht.
  unfold PaperSearchService.get_uuid at 1. cbv beta iota.
  unfold PaperSurveyRecord.create. simpl. rewrite Hfresh.
  unfold PaperSearchService.queue_survey_task, bind,
    PaperSearchService.get_uuid, PaperSearchService.bulk_insert_task,
    PaperSurveyRecord.update, PaperSearchService.REDIS_CONN_queue_product.
  simpl. rewrite Hdown. simpl.
  eexists. split; [reflexivity |]. simpl. split; [done |]. split.
  - eexists. rewrite lookup_alter_eq, lookup_insert_eq. simpl. done.
  - eexists. rewrite lookup_insert_eq. done.
Qed.

Lemma failed_enqueue_witness :
  (tenant_of redis_down_env "u1" = Some "tenant-of-u1"
   ∧ surveys empty_world !! uuid redis_down_env (uuids_drawn empty_world) = None
   ∧ ∀ queue message, queue_product redis_down_env queue message = false)
  ∧ ∃ w',
      paper_survey redis_down_env "u1" "q1" [paper_one] "文献综述" empty_world
      = (Returns (server_error_response
                    (Exception "无法访问 Redis，请检查 Redis 状态")), w')
      ∧ queues w' = ∅
      ∧ ∃ r, surveys w' !! "uuid-0" = Some r ∧ status r = "pending".
Proof.
  split; [repeat split; reflexivity |].
  destruct (failed_enqueue_leaves_pending_job redis_down_env "u1" "q1"
              [paper_one] "文献综述" "tenant-of-u1" empty_world)
    as (w' & Hrun & Hq & (r & Hr & Hst & _) & _).
  - reflexivity.
  - reflexivity.
  - intros queue message. reflexivity.
  - exists w'. split; [exact Hrun |]. split; [exact Hq |].
    exists r. split; [exact Hr | exact Hst].
Defined.

(** C3 as stated fails: Redis refuses the push; the caller gets the error,
    and the survey record is left stored as pending with no work item on
    any queue. *)
Lemma failed_enqueue_orphans_pending_job :
  let '(answer, w') :=
    paper_survey redis_down_env "u1" "q1" [paper_one] "文献综述" empty_world in
  answer = Returns (server_error_response
                      (Exception "无法访问 Redis，请检查 Redis 状态"))
  ∧ (status <$> surveys w' !! "uuid-0") = Some "pending"
  ∧ (task_id <$> surveys w' !! "uuid-0") = Some (Some "uuid-1")
  ∧ (task_doc_id <$> tasks w' !! "uuid-1") = Some "uuid-0"
  ∧ queues w' = ∅.
Proof. vm_compute. repeat split; reflexivity. Qed.

(** C4: when an exception leaves the [try] block of [generate_survey], the
    failure of the synthesis call for one, the job ends as the submitted
    record with status [failed]: the only statements are its insert and the
    update of the status, and [survey_content] is what was submitted, the
    empty string for a record submitted empty. *)
Theorem failed_job_keeps_no_content env survey_record papers w e w' :
  quiet env →
  surveys w !! survey_id survey_record = None →
  PaperSearchService.generate_survey env survey_record papers w = (Raises e, w') →
  surveys w'
  = <[survey_id survey_record := assign (set_status "failed") survey_record]>
      (surveys w)
  ∧ survey_writes w'
    = (survey_writes w
       ++ [Insert survey_record;
           Update (survey_id survey_record) [set_status "failed"]])%list
  ∧ ∃ r, surveys w' !! survey_id survey_record = Some r
         ∧ status r = "failed"
         ∧ survey_content r = survey_content survey_record
         ∧ (survey_content survey_record = EmptyString →
            survey_content r = EmptyString).
Proof.
  intros Hq Hfresh Hrun.
  destruct (generate_survey_quiet env survey_record papers w Hq Hfresh)
    as (w1 & [Hs Hw] & [[c Hc] | [e' He]]); [congruence |].
  rewrite He in Hrun. injection Hrun as -> <-.
  assert (Htable : surveys (with_write
                      (Update (survey_id survey_record) [set_status "failed"]) w1)
                   = <[survey_id survey_record :=
                         assign (set_status "failed") survey_record]> (surveys w)).
  { simpl. rewrite Hs. simpl. by rewrite alter_insert_eq. }
  split; [exact Htable |]. split.
  - simpl. rewrite Hw. simpl. by rewrite <- app_assoc.
  - exists (assign (set_status "failed") survey_record).
    rewrite Htable, lookup_insert_eq. done.
Qed.

(** The model backend is unreachable: the briefs degrade, the synthesis
    call raises, and the job ends failed with empty content. *)
Lemma failed_job_witness :
  (quiet model_down_env ∧ surveys empty_world !! "s1" = None)
  ∧ ∃ w',
      PaperSearchService.generate_survey model_down_env (job "pending")
        [paper_one] empty_world
      = (Raises (Failure "model backend unreachable"), w')
      ∧ ∃ r, surveys w' !! "s1" = Some r ∧ status r = "failed"
             ∧ survey_content r = EmptyString.
Proof.
  split; [split; [intros n |]; reflexivity |].
  destruct (PaperSearchService.generate_survey model_down_env (job "pending")
              [paper_one] empty_world) as [[res | e] w'] eqn:Hrun;
    [vm_compute in Hrun; discriminate |].
  assert (He : e = Failure "model backend unreachable").
  { vm_compute in Hrun. by injection Hrun as <- _. }
  exists w'. split; [by rewrite He |].
  destruct (failed_job_keeps_no_content model_down_env (job "pending")
              [paper_one] empty_world e w') as (_ & _ & r & Hr & Hst & _ & Hc).
  - intros n. reflexivity.
  - reflexivity.
  - exact Hrun.
  - exists r. split; [exact Hr |]. split; [exact Hst |]. apply Hc. reflexivity.
Defined.




(** C6 on the code: user [u2] asks for job [s1] of user [u1] and is given
    the whole job, where an id that is not stored yields the not-found
    answer; the sibling handler [get_survey_progress] gives [u2] that
    not-found answer for [s1]. *)
Lemma get_survey_shows_job_to_other_user :
  get_survey "u2" "s1" (world_with_job "completed")
  = (Returns (get_json_result (data_survey
       {| detail_id := "s1"; detail_tenant_id := "tenant-of-u1";
          detail_user_id := "u1"; detail_search_record_id := "q1";
          detail_survey_content := EmptyString;
          detail_survey_title := "文献综述"; detail_status := "completed";
          detail_created_at := None |})),
     world_with_job "completed")
  ∧ get_survey "u2" "s2" (world_with_job "completed")
    = (Returns (get_data_error_result "综述不存在或无权限访问"),
       world_with_job "completed")
  ∧ get_survey_progress calm_env "u2" "s1" (world_with_job "completed")
    = (Returns (get_data_error_result "综述不存在或无权限访问"),
       world_with_job "completed").
Proof. repeat split; reflexivity. Qed.

(** The lookup never reads who asks. *)
Lemma get_survey_ignores_user user1 user2 survey_id_ w :
  get_survey user1 survey_id_ w = get_survey user2 survey_id_ w.
Proof. reflexivity. Qed.

(** C7, as the code has it: a delete request succeeds exactly when a record
    with that id belongs to the requesting user and tenant, whatever its
    status, [processing] included; the record is then gone. Any other
    request is rejected and leaves the world as it was. *)
Theorem delete_ignores_status env current_user survey_id_ tenant w :
  tenant_of env current_user = Some tenant →
  (∀ r, surveys w !! survey_id_ = Some r →
        survey_id r = survey_id_ →
        survey_user_id r = current_user →
        survey_tenant_id r = tenant →
        delete_survey_record env current_user survey_id_ w
        = (Returns (get_json_result data_true), with_write (Delete survey_id_) w)
        ∧ surveys (with_write (Delete survey_id_) w) !! survey_id_ = None)
  ∧ ((∀ r, surveys w !! survey_id_ = Some r →
           survey_user_id r ≠ current_user ∨ survey_tenant_id r ≠ tenant) →
     delete_survey_record env current_user survey_id_ w
     = (Returns (get_data_error_result "删除失败或无权限删除"), w)).
Proof.
  intros Ht. split.
  - intros r Hr Hid Hu Htn. split; [| simpl; apply lookup_delete_eq].
    unfold delete_survey_record, try_except, bind. rewrite Ht.
    unfold PaperSearchService.delete_survey_record, try_except, bind,
      PaperSurveyRecord.get.
    rewrite Hr, Hu, Htn, !String.eqb_refl. simpl.
    unfold PaperSurveyRecord.delete_instance. by rewrite Hid.
  - intros Hno.
    unfold delete_survey_record, try_except, bind. rewrite Ht.
    unfold PaperSearchService.delete_survey_record, try_except, bind,
      PaperSurveyRecord.get.
    destruct (surveys w !! survey_id_) as [r |] eqn:Hr; [| done].
    destruct (Hno r eq_refl) as [Hu | Htn].
    + apply String.eqb_neq in Hu. by rewrite Hu.
    + apply String.eqb_neq in Htn. rewrite Htn, andb_false_r. done.
Qed.

Lemma delete_ignores_status_witness :
  (tenant_of calm_env "u1" = Some "tenant-of-u1"
   ∧ surveys (world_with_job "processing") !! "s1" = Some (job "processing"))
  ∧ delete_survey_record calm_env "u1" "s1" (world_with_job "processing")
    = (Returns (get_json_result data_true),
       with_write (Delete "s1") (world_with_job "processing"))
  ∧ delete_survey_record calm_env "u2" "s1" (world_with_job "processing")
    = (Returns (get_data_error_result "删除失败或无权限删除"),
       world_with_job "processing").
Proof.
  split; [split; reflexivity |]. split.
  - apply (proj1 (delete_ignores_status calm_env "u1" "s1" "tenant-of-u1"
                    (world_with_job "processing") eq_refl)
             (job "processing")); reflexivity.
  - apply (proj2 (delete_ignores_status calm_env "u2" "s1" "tenant-of-u2"
                    (world_with_job "processing") eq_refl)).
    intros r Hr. vm_compute in Hr. injection Hr as <-. left. discriminate.
Defined.

(** C7 as stated fails: the owner deletes job [s1] while it is processing;
    the request succeeds and the record is gone. *)
Lemma processing_job_is_deleted :
  let '(answer, w') :=
    delete_survey_record calm_env "u1" "s1" (world_with_job "processing") in
  (status <$> surveys (world_with_job "processing") !! "s1") = Some "processing"
  ∧ answer = Returns (get_json_result data_true)
  ∧ surveys w' !! "s1" = None
  ∧ survey_writes w' = [Delete "s1"].
Proof. vm_compute. repeat split; reflexivity. Qed.




(** C9: when the tenant has a chat model, [extract_keywords] makes one
    model call, with the question as the user message; for a keyword count
    k with 1 < k ≤ 12 the system prompt asks for k keywords, twice, and for
    any other k it asks for 5. *)
Theorem extract_keywords_requests_k env question tenant_id keywords_num
    query_num w :
  bundle_error env tenant_id CHAT None = None →
  ∃ call,
    llm_calls
      (snd (PaperSearchService.extract_keywords env question tenant_id
              keywords_num query_num w))
    = (llm_calls w ++ [call])%list
    ∧ call_history call = [ {| role := "user"; content := question |} ]
    ∧ ((1 < keywords_num ≤ 12)%Z →
       PaperSearchService.effective_keywords_num keywords_num = keywords_num
       ∧ call_system call
         = extract_prompt_text_1 +:+ str keywords_num +:+ extract_prompt_text_2
             +:+ str keywords_num +:+ extract_prompt_text_3
             +:+ str (PaperSearchService.effective_query_num query_num
                        keywords_num)
             +:+ extract_prompt_text_4)
    ∧ ((keywords_num ≤ 1 ∨ 12 < keywords_num)%Z →
       PaperSearchService.effective_keywords_num keywords_num = 5%Z
       ∧ call_system call
         = extract_prompt_text_1 +:+ str 5 +:+ extract_prompt_text_2
             +:+ str 5 +:+ extract_prompt_text_3
             +:+ str (PaperSearchService.effective_query_num query_num 5)
             +:+ extract_prompt_text_4).
Proof.
  intros Hbundle.
  unfold PaperSearchService.extract_keywords. cbv zeta.
  unfold try_except, bind at 1, LLMBundle. rewrite Hbundle.
  unfold ret at 1. cbv beta iota.
  set (mdl := {| model_tenant := tenant_id; model_type := CHAT;
                 model_name := None |}).
  match goal with
  | |- context [ chat env mdl ?s ?h ?p ] =>
      pose proof (chat_logs_one_call env mdl s h p w) as Hlog;
      exists {| call_model := mdl; call_system := s; call_history := h;
                call_params := p |}
  end.
  split.
  - unfold bind at 1.
    destruct (chat env mdl _ _ _ w) as [[response | e] w1]; simpl in *;
      [| exact Hlog].
    unfold bind, lift.
    destruct (PaperSearchService._parse_keyword_response env response);
      simpl; exact Hlog.
  - split; [reflexivity |]. simpl call_system.
    unfold PaperSearchService.extract_prompt,
      PaperSearchService.effective_keywords_num.
    split.
    + intros [Hlo Hhi].
      apply Z.ltb_lt in Hlo. apply Z.leb_le in Hhi. by rewrite Hlo, Hhi.
    + intros [Hlo | Hhi].
      * assert ((1 <? keywords_num)%Z = false) as -> by by apply Z.ltb_ge.
        by rewrite andb_false_r.
      * assert ((keywords_num <=? 12)%Z = false) as -> by by apply Z.leb_gt.
        done.
Qed.

(** Seven keywords are asked for when 7 are requested, five when 13 or 1
    are. *)
Lemma extract_keywords_requests_k_witness :
  bundle_error calm_env "t1" CHAT None = None
  ∧ (∃ call,
       llm_calls
         (snd (PaperSearchService.extract_keywords calm_env
                 "graph neural networks" "t1" 7 0 empty_world)) = [call]
       ∧ call_system call = PaperSearchService.extract_prompt 7 7)
  ∧ (∃ call,
       llm_calls
         (snd (PaperSearchService.extract_keywords calm_env
                 "graph neural networks" "t1" 13 3 empty_world)) = [call]
       ∧ call_system call = PaperSearchService.extract_prompt 5 3)
  ∧ (∃ call,
       llm_calls
         (snd (PaperSearchService.extract_keywords calm_env
                 "graph neural networks" "t1" 1 3 empty_world)) = [call]
       ∧ call_system call = PaperSearchService.extract_prompt 5 3).
Proof.
  split; [reflexivity |]. split; [| split].
  - destruct (extract_keywords_requests_k calm_env "graph neural networks" "t1"
                7 0 empty_world eq_refl) as (call & Hlog & _ & Hin & _).
    exists call. split; [exact Hlog |]. apply Hin. lia.
  - destruct (extract_keywords_requests_k calm_env "graph neural networks" "t1"
                13 3 empty_world eq_refl) as (call & Hlog & _ & _ & Hout).
    exists call. split; [exact Hlog |]. apply Hout. lia.
  - destruct (extract_keywords_requests_k calm_env "graph neural networks" "t1"
                1 3 empty_world eq_refl) as (call & Hlog & _ & _ & Hout).
    exists call. split; [exact Hlog |]. apply Hout. lia.
Defined.

(** C10: [_generate_word_document] is a total function to bytes. When
    python-docx raises while the document is built or saved, the result is
    the UTF-8 encoding of the title, the raw content and the time stamp,
    which is never empty; when it does not, the result is the saved file. *)
Theorem word_document_falls_back_to_text env content_ title papers :
  (∀ e,
     docx_save env (PaperSearchService.word_document env content_ title papers)
     = inl e →
     PaperSearchService._generate_word_document env content_ title papers
     = encode_utf8
         (title +:+ nl +:+ nl +:+ content_ +:+ nl +:+ nl +:+ "生成时间: "
            +:+ strftime env "%Y-%m-%d %H:%M:%S" (now env))
     ∧ PaperSearchService._generate_word_document env content_ title papers ≠ [])
  ∧ (∀ file_bytes,
       docx_save env (PaperSearchService.word_document env content_ title papers)
       = inr file_bytes →
       PaperSearchService._generate_word_document env content_ title papers
       = file_bytes).
Proof.
  unfold PaperSearchService._generate_word_document. split.
  - intros e Hsave. rewrite Hsave. split; [done |].
    unfold encode_utf8. intros Hnil.
    apply (f_equal String.string_of_list_byte) in Hnil.
    rewrite String.string_of_list_byte_of_string in Hnil. simpl in Hnil.
    apply (f_equal String.length) in Hnil.
    rewrite !length_append in Hnil. simpl in Hnil. lia.
  - intros file_bytes Hsave. by rewrite Hsave.
Qed.

Lemma word_document_falls_back_to_text_witness :
  docx_save calm_env
    (PaperSearchService.word_document calm_env "# 综述 ##1$$" "文献综述"
       [paper_one])
  = inl (Failure "python-docx")
  ∧ PaperSearchService._generate_word_document calm_env "# 综述 ##1$$"
      "文献综述" [paper_one]
    = encode_utf8
        ("文献综述" +:+ nl +:+ nl +:+ "# 综述 ##1$$" +:+ nl +:+ nl
           +:+ "生成时间: 2023-11-14 22:13:20").
Proof.
  split; [reflexivity |].
  apply (proj1 (word_document_falls_back_to_text calm_env "# 综述 ##1$$"
                  "文献综述" [paper_one]) (Failure "python-docx")).
  reflexivity.
Defined.


(** * More of the code *)

(** ** Cancellation *)

(** X1: [cancel_survey] on a job of the requesting user that is pending or
    processing answers that the task is cancelled and stores the job with
    status [cancelled] and progress -1. The content, the owner, the tenant
    and the task id of the job are kept; the task row is touched only when
    the job names a task; the queue and the model are not touched. *)
Theorem cancel_survey_marks_job_cancelled env current_user survey_id_ w r :
  surveys w !! survey_id_ = Some r →
  survey_user_id r = current_user →
  status r = "pending" ∨ status r = "processing" →
  ∃ w',
    cancel_survey env current_user survey_id_ w
    = (Returns (get_json_result (data_message "任务已取消")), w')
    ∧ surveys w'
      = <[survey_id_ :=
            assign_all
              [set_status "cancelled"; set_progress (-1);
               set_progress_msg "任务已取消"; set_updated_at (now env)] r]>
          (surveys w)
    ∧ (∃ r', surveys w' !! survey_id_ = Some r'
             ∧ status r' = "cancelled"
             ∧ progress r' = (-1)%Q
             ∧ survey_content r' = survey_content r
             ∧ survey_user_id r' = survey_user_id r
             ∧ survey_tenant_id r' = survey_tenant_id r
             ∧ task_id r' = task_id r)
    ∧ tasks w'
      = (if truthy (get_or (task_id r) EmptyString)
         then task_update_progress env (get_or (task_id r) EmptyString) (-1)
                "任务已取消" (tasks w)
         else tasks w)
    ∧ queues w' = queues w
    ∧ llm_calls w' = llm_calls w.
Proof.
  intros Hr Hu Hst.
  unfold cancel_survey, try_except, bind, PaperSurveyRecord.get.
  rewrite Hr, Hu, String.eqb_refl.
  assert (Hopen : negb (String.eqb (status r) "pending"
                        || String.eqb (status r) "processing") = false).
  { destruct Hst as [-> | ->]; reflexivity. }
  rewrite Hopen.
  assert (Htable :
    alter
      (assign_all
         [set_status "cancelled"; set_progress (-1);
          set_progress_msg "任务已取消"; set_updated_at (now env)])
      survey_id_ (surveys w)
    = <[survey_id_ :=
          assign_all
            [set_status "cancelled"; set_progress (-1);
             set_progress_msg "任务已取消"; set_updated_at (now env)] r]>
        (surveys w)).
  { apply map_eq. intros k. destruct (decide (k = survey_id_)) as [-> | Hk].
    - by rewrite lookup_alter_eq, lookup_insert_eq, Hr.
    - by rewrite lookup_alter_ne, lookup_insert_ne. }
  destruct (truthy (get_or (task_id r) EmptyString)); simpl;
    (eexists; split; [reflexivity |]; simpl; split; [exact Htable |];
     split; [| done];
     eexists; split; [rewrite Htable; apply lookup_insert_eq | done]).
Qed.

Lemma cancel_survey_marks_job_cancelled_witness :
  (surveys (world_with_job "processing") !! "s1" = Some (job "processing")
   ∧ survey_user_id (job "processing") = "u1")
  ∧ ∃ w',
      cancel_survey calm_env "u1" "s1" (world_with_job "processing")
      = (Returns (get_json_result (data_message "任务已取消")), w')
      ∧ ∃ r', surveys w' !! "s1" = Some r' ∧ status r' = "cancelled"
              ∧ progress r' = (-1)%Q.
Proof.
  split; [split; reflexivity |].
  destruct (cancel_survey_marks_job_cancelled calm_env "u1" "s1"
              (world_with_job "processing") (job "processing"))
    as (w' & Hrun & _ & (r' & Hr' & Hst & Hp & _) & _).
  - reflexivity.
  - reflexivity.
  - right. reflexivity.
  - exists w'. split; [exact Hrun |]. exists r'. auto.
Defined.

(** X2: [cancel_survey] on a job of the requesting user whose status is
    neither [pending] nor [processing] is rejected with that status in the
    message, and nothing is changed. *)
Theorem cancel_survey_rejects_finished_job env current_user survey_id_ w r :
  surveys w !! survey_id_ = Some r →
  survey_user_id r = current_user →
  status r ≠ "pending" →
  status r ≠ "processing" →
  cancel_survey env current_user survey_id_ w
  = (Returns (get_data_error_result
                ("任务状态为 " +:+ status r +:+ "，无法取消")), w).
Proof.
  intros Hr Hu Hp Hq.
  unfold cancel_survey, try_except, bind, PaperSurveyRecord.get.
  rewrite Hr, Hu, String.eqb_refl.
  apply String.eqb_neq in Hp. apply String.eqb_neq in Hq.
  by rewrite Hp, Hq.
Qed.

Lemma cancel_survey_rejects_finished_job_witness :
  (surveys (world_with_job "cancelled") !! "s1" = Some (job "cancelled")
   ∧ status (job "cancelled") ≠ "pending"
   ∧ status (job "cancelled") ≠ "processing")
  ∧ cancel_survey calm_env "u1" "s1" (world_with_job "cancelled")
    = (Returns (get_data_error_result "任务状态为 cancelled，无法取消"),
       world_with_job "cancelled").
Proof.
  split; [repeat split; discriminate |].
  apply (cancel_survey_rejects_finished_job calm_env "u1" "s1"
           (world_with_job "cancelled") (job "cancelled"));
    [reflexivity | reflexivity | discriminate | discriminate].
Defined.

(** X3: [cancel_survey] on a job that is not stored, or that belongs to
    another user, answers that the survey does not exist or may not be
    accessed, and nothing is changed. *)
Theorem cancel_survey_hides_foreign_jobs env current_user survey_id_ w :
  (∀ r, surveys w !! survey_id_ = Some r → survey_user_id r ≠ current_user) →
  cancel_survey env current_user survey_id_ w
  = (Returns (get_data_error_result "综述不存在或无权限访问"), w).
Proof.
  intros Hforeign.
  unfold cancel_survey, try_except, bind, PaperSurveyRecord.get.
  destruct (surveys w !! survey_id_) as [r |] eqn:Hr; [| reflexivity].
  specialize (Hforeign r eq_refl). apply String.eqb_neq in Hforeign.
  by rewrite Hforeign.
Qed.

Lemma cancel_survey_hides_foreign_jobs_witness :
  cancel_survey calm_env "u2" "s1" (world_with_job "pending")
  = (Returns (get_data_error_result "综述不存在或无权限访问"),
     world_with_job "pending")
  ∧ cancel_survey calm_env "u2" "s2" (world_with_job "pending")
    = (Returns (get_data_error_result "综述不存在或无权限访问"),
       world_with_job "pending").
Proof.
  split.
  - apply (cancel_survey_hides_foreign_jobs calm_env "u2" "s1"
             (world_with_job "pending")).
    intros r Hr. vm_compute in Hr. injection Hr as <-. discriminate.
  - apply (cancel_survey_hides_foreign_jobs calm_env "u2" "s2"
             (world_with_job "pending")).
    intros r Hr. vm_compute in Hr. discriminate.
Defined.

(** ** Progress *)

Lemma respects_get_or_none id_ : respects eq (PaperSearchRecord_get_or_none id_).
Proof. intros w. reflexivity. Qed.

(** X4: the two lookups, [get_survey] and [get_survey_progress], never
    change the world, whatever they answer. *)
Theorem lookups_never_write env current_user survey_id_ w :
  snd (get_survey current_user survey_id_ w) = w
  ∧ snd (get_survey_progress env current_user survey_id_ w) = w.
Proof.
  split; symmetry.
  - apply (respects_try_except eq (@eq_trans World));
      [| intros e; by apply respects_ret].
    apply (respects_bind eq (@eq_trans World)).
    + apply (respects_try_except eq (@eq_trans World));
        [| intros e; by apply respects_ret].
      apply (respects_bind eq (@eq_trans World)); [by apply respects_get |].
      intros r. by apply respects_ret.
    + intros [d |]; by apply respects_ret.
  - apply (respects_try_except eq (@eq_trans World));
      [| intros e; destruct e; by apply respects_ret].
    apply (respects_bind eq (@eq_trans World)); [by apply respects_get |].
    intros survey. destruct (String.eqb (status survey) "completed");
      [| by apply respects_ret].
    apply (respects_bind eq (@eq_trans World));
      [| intros papers; by apply respects_ret].
    apply (respects_try_except eq (@eq_trans World));
      [| intros e; by apply respects_ret].
    destruct (truthy _); [by apply respects_lift |].
    apply (respects_bind eq (@eq_trans World)); [apply respects_get_or_none |].
    intros [row |]; [| by apply respects_ret].
    destruct (truthy _); [by apply respects_lift | by apply respects_ret].
Qed.

(** X5: [get_survey_progress] answers the owner of a stored job with the
    stored status, progress and message. The content and the papers are
    part of the answer when the status is [completed], and are absent in
    every other status. *)
Theorem progress_shows_content_only_when_completed env current_user
    survey_id_ w r :
  surveys w !! survey_id_ = Some r →
  survey_user_id r = current_user →
  ∃ d,
    fst (get_survey_progress env current_user survey_id_ w)
    = Returns (get_json_result (data_progress d))
    ∧ progress_status d = status r
    ∧ progress_value d = progress r
    ∧ progress_message d = progress_msg r
    ∧ (status r = "completed" →
       progress_survey_content d = Some (survey_content r)
       ∧ is_Some (progress_papers d))
    ∧ (status r ≠ "completed" →
       progress_survey_content d = None ∧ progress_papers d = None).
Proof.
  intros Hr Hu.
  unfold get_survey_progress, try_except at 1, bind at 1, PaperSurveyRecord.get.
  rewrite Hr, Hu, String.eqb_refl.
  destruct (String.eqb (status r) "completed") eqn:Hst.
  - apply String.eqb_eq in Hst.
    match goal with
    | |- context [ bind (try_except ?m ?h) ?k w ] =>
        destruct (try_except_ret m (fun _ => []) w) as [papers Hpapers];
        rewrite (bind_returns _ _ _ _ _ Hpapers)
    end.
    eexists. split; [reflexivity |]. simpl.
    repeat split; done.
  - apply String.eqb_neq in Hst.
    eexists. split; [reflexivity |]. simpl. repeat split; done.
Qed.

Lemma progress_shows_content_only_when_completed_witness :
  (surveys (world_with_job "processing") !! "s1" = Some (job "processing")
   ∧ survey_user_id (job "processing") = "u1")
  ∧ ∃ d,
      fst (get_survey_progress calm_env "u1" "s1" (world_with_job "processing"))
      = Returns (get_json_result (data_progress d))
      ∧ progress_status d = "processing"
      ∧ progress_survey_content d = None.
Proof.
  split; [split; reflexivity |].
  destruct (progress_shows_content_only_when_completed calm_env "u1" "s1"
              (world_with_job "processing") (job "processing") eq_refl eq_refl)
    as (d & Hrun & Hst & _ & _ & _ & Hnot).
  exists d. split; [exact Hrun |]. split; [exact Hst |].
  apply Hnot. discriminate.
Defined.

(** ** Submission *)

(** X6: a submission through [paper_survey], by a user with a tenant, with
    a fresh identifier and a queue that accepts the push, answers with the
    job id, the task id and status [pending]. Exactly one message is
    appended to the queue; it carries that job, the submitted papers, the
    tenant, and a task that is stored under the task id and counts the
    papers. The job is stored as pending with progress 0, empty content and
    the task id, and no model call is made. *)
Theorem submission_enqueues_one_work_item env current_user search_record_id_
    papers title tenant w :
  tenant_of env current_user = Some tenant →
  surveys w !! uuid env (uuids_drawn w) = None →
  (∀ queue message, queue_product env queue message = true) →
  let id_ := uuid env (uuids_drawn w) in
  let task_id_ := uuid env (S (uuids_drawn w)) in
  ∃ w' message,
    paper_survey env current_user search_record_id_ papers title w
    = (Returns (get_json_result
                  (data_submitted id_ task_id_ "pending" 0
                     "综述生成任务已提交，正在处理中")), w')
    ∧ queues w' !! get_svr_queue_name env 0
      = Some (get_or (queues w !! get_svr_queue_name env 0) [] ++ [message])%list
    ∧ survey_id (message_survey_record message) = id_
    ∧ message_papers message = papers
    ∧ message_tenant_id message = tenant
    ∧ task_row_id (message_task message) = task_id_
    ∧ to_page (message_task message) = Z.of_nat (length papers)
    ∧ tasks w' !! task_id_ = Some (message_task message)
    ∧ (∃ r, surveys w' !! id_ = Some r
            ∧ status r = "pending" ∧ progress r = 0%Q
            ∧ survey_user_id r = current_user ∧ survey_tenant_id r = tenant
            ∧ survey_title r = title ∧ survey_content r = EmptyString
            ∧ task_id r = Some task_id_)
    ∧ llm_calls w' = llm_calls w.
Proof.
  intros Ht Hfresh Hup id_ task_id_. subst id_ task_id_.
  unfold paper_survey, try_except, bind. rewrite Ht.
  unfold PaperSearchService.get_uuid at 1. cbv beta iota.
  unfold PaperSurveyRecord.create. simpl. rewrite Hfresh.
  unfold PaperSearchService.queue_survey_task, bind,
    PaperSearchService.get_uuid, PaperSearchService.bulk_insert_task,
    PaperSurveyRecord.update, PaperSearchService.REDIS_CONN_queue_product.
  simpl. rewrite Hup. simpl.
  eexists _, _. split; [reflexivity |]. simpl.
  split; [by rewrite lookup_insert_eq |].
  do 5 (split; [reflexivity |]).
  split; [by rewrite lookup_insert_eq |].
  split; [| reflexivity].
  eexists. rewrite lookup_alter_eq, lookup_insert_eq. simpl. done.
Qed.

Lemma submission_enqueues_one_work_item_witness :
  (tenant_of calm_env "u1" = Some "tenant-of-u1"
   ∧ surveys empty_world !! uuid calm_env (uuids_drawn empty_world) = None
   ∧ ∀ queue message, queue_product calm_env queue message = true)
  ∧ ∃ w' message,
      paper_survey calm_env "u1" "q1" [paper_one] "文献综述" empty_world
      = (Returns (get_json_result
                    (data_submitted "uuid-0" "uuid-1" "pending" 0
                       "综述生成任务已提交，正在处理中")), w')
      ∧ queues w' !! "rag_flow_svr_queue" = Some [message]
      ∧ message_papers message = [paper_one].
Proof.
  split; [repeat split; reflexivity |].
  destruct (submission_enqueues_one_work_item calm_env "u1" "q1" [paper_one]
              "文献综述" "tenant-of-u1" empty_world)
    as (w' & message & Hrun & Hq & _ & Hp & _).
  - reflexivity.
  - reflexivity.
  - intros queue message. reflexivity.
  - exists w', message. split; [exact Hrun |]. split; [exact Hq | exact Hp].
Defined.

(** A submission that Redis accepts leaves the job stored as pending, owned
    by the submitting user. *)
Lemma paper_survey_stores_job env current_user search_record_id_ papers title
    tenant w :
  tenant_of env current_user = Some tenant →
  surveys w !! uuid env (uuids_drawn w) = None →
  (∀ queue message, queue_product env queue message = true) →
  ∃ r,
    surveys (snd (paper_survey env current_user search_record_id_ papers title w))
      !! uuid env (uuids_drawn w) = Some r
    ∧ status r = "pending"
    ∧ survey_user_id r = current_user.
Proof.
  intros Ht Hfresh Hup.
  unfold paper_survey, try_except, bind. rewrite Ht.
  unfold PaperSearchService.get_uuid at 1. cbv beta iota.
  unfold PaperSurveyRecord.create. simpl. rewrite Hfresh.
  unfold PaperSearchService.queue_survey_task, bind,
    PaperSearchService.get_uuid, PaperSearchService.bulk_insert_task,
    PaperSurveyRecord.update, PaperSearchService.REDIS_CONN_queue_product.
  simpl. rewrite Hup. simpl.
  eexists. rewrite lookup_alter_eq, lookup_insert_eq. simpl. done.
Qed.

(** Cancelling one's own pending job succeeds and stores it as cancelled. *)
Lemma cancel_pending_job env current_user survey_id_ w r :
  surveys w !! survey_id_ = Some r →
  survey_user_id r = current_user →
  status r = "pending" →
  fst (cancel_survey env current_user survey_id_ w)
  = Returns (get_json_result (data_message "任务已取消"))
  ∧ ∃ r', surveys (snd (cancel_survey env current_user survey_id_ w))
            !! survey_id_ = Some r'
          ∧ status r' = "cancelled" ∧ progress r' = (-1)%Q.
Proof.
  intros Hr Hu Hst.
  unfold cancel_survey, try_except, bind, PaperSurveyRecord.get.
  rewrite Hr, Hu, String.eqb_refl, Hst. simpl.
  destruct (truthy (get_or (task_id r) EmptyString)); simpl;
    (split; [reflexivity |]; eexists;
     rewrite lookup_alter_eq, Hr; simpl; done).
Qed.

(** X7: a job that its owner cancels right after the submission is stored
    as cancelled, and stays so when the worker picks the message up:
    [generate_survey] on a record with that id raises on the insert and
    leaves the world as it is. *)
Theorem cancel_after_submission_stays_cancelled env current_user
    search_record_id_ papers title tenant w :
  tenant_of env current_user = Some tenant →
  surveys w !! uuid env (uuids_drawn w) = None →
  (∀ queue message, queue_product env queue message = true) →
  let id_ := uuid env (uuids_drawn w) in
  let w1 := snd (paper_survey env current_user search_record_id_ papers title w) in
  let w2 := snd (cancel_survey env current_user id_ w1) in
  fst (cancel_survey env current_user id_ w1)
  = Returns (get_json_result (data_message "任务已取消"))
  ∧ (∃ r, surveys w2 !! id_ = Some r ∧ status r = "cancelled"
          ∧ progress r = (-1)%Q)
  ∧ ∀ survey_record papers',
      survey_id survey_record = id_ →
      PaperSearchService.generate_survey env survey_record papers' w2
      = (Raises IntegrityError, w2).
Proof.
  intros Ht Hfresh Hup id_ w1 w2.
  destruct (paper_survey_stores_job env current_user search_record_id_ papers
              title tenant w Ht Hfresh Hup) as (r & Hr & Hst & Hu).
  destruct (cancel_pending_job env current_user id_ w1 r Hr Hu Hst)
    as (Hanswer & r' & Hr' & Hst' & Hp').
  split; [exact Hanswer |]. split; [by exists r' |].
  intros survey_record papers' Hid.
  eapply generate_survey_stored_job. rewrite Hid. exact Hr'.
Qed.

Lemma cancel_after_submission_stays_cancelled_witness :
  (tenant_of calm_env "u1" = Some "tenant-of-u1"
   ∧ surveys empty_world !! uuid calm_env (uuids_drawn empty_world) = None
   ∧ ∀ queue message, queue_product calm_env queue message = true)
  ∧ ∃ r,
      surveys
        (snd (cancel_survey calm_env "u1" "uuid-0"
                (snd (paper_survey calm_env "u1" "q1" [paper_one] "文献综述"
                        empty_world)))) !! "uuid-0" = Some r
      ∧ status r = "cancelled".
Proof.
  split; [repeat split; reflexivity |].
  destruct (cancel_after_submission_stays_cancelled calm_env "u1" "q1"
              [paper_one] "文献综述" "tenant-of-u1" empty_world)
    as (_ & (r & Hr & Hst & _) & _).
  - reflexivity.
  - reflexivity.
  - intros queue message. reflexivity.
  - exists r. split; [exact Hr | exact Hst].
Defined.

(** X8: a user without a tenant is turned away by [paper_survey],
    [paper_search], [extract_keywords], [paper_search_with_keywords] and
    [delete_survey_record] alike, with the same data error and without any
    change of the world. *)
Theorem user_without_tenant_is_turned_away env current_user w :
  tenant_of env current_user = None →
  (∀ search_record_id_ papers title,
     paper_survey env current_user search_record_id_ papers title w
     = (Returns (get_data_error_result "用户未关联任何租户"), w))
  ∧ (∀ query keywords_num query_num use_fuzzy,
       paper_search env current_user query keywords_num query_num use_fuzzy w
       = (Returns (get_data_error_result "用户未关联任何租户"), w))
  ∧ (∀ query keywords_num query_num,
       extract_keywords env current_user query keywords_num query_num w
       = (Returns (get_data_error_result "用户未关联任何租户"), w))
  ∧ (∀ query all_keywords selections use_fuzzy,
       paper_search_with_keywords env current_user query all_keywords
         selections use_fuzzy w
       = (Returns (reply_data_error_result "用户未关联任何租户"), w))
  ∧ (∀ survey_id_,
       delete_survey_record env current_user survey_id_ w
       = (Returns (get_data_error_result "用户未关联任何租户"), w)).
Proof.
  intros Ht.
  unfold paper_survey, paper_search, extract_keywords,
    paper_search_with_keywords, delete_survey_record, try_except.
  rewrite Ht. repeat split.
Qed.

Lemma user_without_tenant_is_turned_away_witness :
  tenant_of no_tenant_env "u1" = None
  ∧ paper_survey no_tenant_env "u1" "q1" [paper_one] "文献综述" empty_world
    = (Returns (get_data_error_result "用户未关联任何租户"), empty_world).
Proof.
  split; [reflexivity |].
  apply (proj1 (user_without_tenant_is_turned_away no_tenant_env "u1"
                  empty_world eq_refl)).
Defined.

(** ** Stages that degrade *)

(** X9: [generate_paper_summary] never raises, for a paper whose title,
    abstract and content, where present, are strings. For a tenant without
    a chat model it makes no model call and returns the title and the
    abstract of the paper. Otherwise it makes exactly one model call, with
    an empty system prompt, the summary prompt of the paper as the one user
    message and the parameters of the source; it returns the answer to
    this call, and the title and the abstract when this call fails. *)
Theorem generate_paper_summary_never_raises env paper tenant_id w :
  let fallback :=
    "标题: " +:+ get_or (paper_title paper) "未知标题" +:+ nl
      +:+ "摘要: " +:+ get_or (paper_abstract paper) EmptyString in
  let call :=
    {| call_model :=
         {| model_tenant := tenant_id; model_type := CHAT;
            model_name := None |};
       call_system := EmptyString;
       call_history :=
         [ {| role := "user";
              content :=
                PaperSearchService.summary_prompt
                  (get_or (paper_title paper) "未知标题")
                  (py_or (get_or (paper_full_content paper) EmptyString)
                         (get_or (paper_abstract paper) EmptyString)) |} ];
       call_params :=
         {| temperature := 5 # 10; max_tokens := 1024;
            enable_thinking := false |} |} in
  ∃ summary w',
    PaperSearchService.generate_paper_summary env paper tenant_id w
    = (Returns summary, w')
    ∧ match bundle_error env tenant_id CHAT None with
      | Some _ => summary = fallback ∧ w' = w
      | None =>
          llm_calls w' = (llm_calls w ++ [call])%list
          ∧ summary
            = match chat_reply env (call_model call) (call_system call)
                      (call_history call) (call_params call) with
              | inr answer => answer
              | inl _ => fallback
              end
      end.
Proof.
  intros fallback call.
  unfold PaperSearchService.generate_paper_summary, try_except, bind, LLMBundle.
  destruct (bundle_error env tenant_id CHAT None) as [e |].
  - eexists _, w. split; [reflexivity |]. by split.
  - unfold ret at 1. cbv beta iota zeta.
    pose proof (chat_logs_one_call env (call_model call) (call_system call)
                  (call_history call) (call_params call) w) as Hlog.
    assert (Hreply :
      fst (chat env (call_model call) (call_system call) (call_history call)
             (call_params call) w)
      = match chat_reply env (call_model call) (call_system call)
                (call_history call) (call_params call) with
        | inl e => Raises e
        | inr a => Returns a
        end).
    { unfold chat. by destruct (chat_reply env _ _ _ _). }
    cbn [call_model call_system call_history call_params call] in Hlog, Hreply.
    unfold call in Hlog, Hreply. cbn [call_model call_system call_history
                                      call_params] in Hlog, Hreply |- *.
    match goal with
    | |- context [ chat env ?mdl ?s ?h ?p w ] =>
        destruct (chat env mdl s h p w) as [[answer | e] w1]
    end; cbn [fst snd] in Hlog, Hreply.
    + eexists _, w1. split; [reflexivity |]. split; [exact Hlog |].
      destruct (chat_reply env _ _ _ _); [discriminate | by injection Hreply].
    + eexists _, w1. split; [reflexivity |]. split; [exact Hlog |].
      by destruct (chat_reply env _ _ _ _).
Qed.

(** Reading a document's chunks returns a text and leaves the world alone. *)
Lemma full_document_content_reads env doc_id tenant_id kb_ids w :
  ∃ text,
    PaperSearchService._get_full_document_content env doc_id tenant_id kb_ids w
    = (Returns text, w).
Proof.
  unfold PaperSearchService._get_full_document_content, try_except, bind, lift.
  destruct (chunk_list env doc_id tenant_id kb_ids); by eexists.
Qed.

(** X10: [_get_full_document_content] never raises and never writes. When
    the chunk listing raises, and when the document has no chunk, the
    content is the empty string. *)
Theorem full_document_content_never_raises env doc_id tenant_id kb_ids w :
  ∃ text,
    PaperSearchService._get_full_document_content env doc_id tenant_id kb_ids w
    = (Returns text, w)
    ∧ (∀ e, chunk_list env doc_id tenant_id kb_ids = inl e → text = EmptyString)
    ∧ (chunk_list env doc_id tenant_id kb_ids = inr [] → text = EmptyString).
Proof.
  unfold PaperSearchService._get_full_document_content, try_except, bind, lift.
  destruct (chunk_list env doc_id tenant_id kb_ids) as [e | chunks].
  - exists EmptyString. split; [reflexivity |]. split; [done | discriminate].
  - eexists. split; [reflexivity |]. split; [discriminate |].
    by intros [= ->].
Qed.

Lemma full_document_content_never_raises_witness :
  chunk_list calm_env "d1" "t1" ["kb1"] = inr []
  ∧ PaperSearchService._get_full_document_content calm_env "d1" "t1" ["kb1"]
      empty_world
    = (Returns EmptyString, empty_world).
Proof.
  split; [reflexivity |].
  destruct (full_document_content_never_raises calm_env "d1" "t1" ["kb1"]
              empty_world) as (text & Hrun & _ & Hnone).
  rewrite Hrun, Hnone; reflexivity.
Defined.

Lemma insert_by_position_Permutation c l :
  insert_by_position c l ≡ₚ c :: l.
Proof.
  induction l as [| d rest IH]; simpl; [done |].
  destruct (position_key d <=? position_key c)%Z; [| done].
  rewrite IH. apply Permutation_swap.
Qed.

Lemma insert_by_position_sorted c l :
  StronglySorted (fun a b => (position_key a ≤ position_key b)%Z) l →
  StronglySorted (fun a b => (position_key a ≤ position_key b)%Z)
    (insert_by_position c l).
Proof.
  induction 1 as [| d rest Hs IH Hd]; simpl.
  - by repeat constructor.
  - destruct (position_key d <=? position_key c)%Z eqn:Hle.
    + apply Z.leb_le in Hle. constructor; [exact IH |].
      rewrite insert_by_position_Permutation. by constructor.
    + apply Z.leb_gt in Hle. constructor; [by constructor |].
      constructor; [lia |].
      eapply Forall_impl; [exact Hd |]. simpl. intros x Hx. lia.
Qed.

(** X11: the chunks of a document are joined in the order of their
    positions: [sorted_by_position] gives a permutation of the chunks that
    is sorted by [position_int], a missing position counting as 0. *)
Theorem sorted_by_position_sorts chunks :
  sorted_by_position chunks ≡ₚ chunks
  ∧ StronglySorted (fun a b => (position_key a ≤ position_key b)%Z)
      (sorted_by_position chunks).
Proof.
  unfold sorted_by_position.
  assert (Hgen : ∀ acc,
    StronglySorted (fun a b => (position_key a ≤ position_key b)%Z) acc →
    fold_left (fun acc c => insert_by_position c acc) chunks acc ≡ₚ acc ++ chunks
    ∧ StronglySorted (fun a b => (position_key a ≤ position_key b)%Z)
        (fold_left (fun acc c => insert_by_position c acc) chunks acc)).
  { induction chunks as [| c rest IH]; intros acc Hacc; simpl.
    - by rewrite app_nil_r.
    - destruct (IH (insert_by_position c acc)
                  (insert_by_position_sorted c acc Hacc)) as [Hp Hs].
      split; [| exact Hs].
      rewrite Hp, insert_by_position_Permutation. simpl.
      apply Permutation_middle. }
  destruct (Hgen [] (SSorted_nil _)) as [Hp Hs]. by split.
Qed.

Lemma split_runs_nonempty cur l :
  Forall (fun word => truthy word = true) (split_runs cur l).
Proof.
  revert cur. induction l as [| ch rest IH]; intros cur; simpl.
  - destruct (truthy cur) eqn:Hc; by repeat constructor.
  - destruct (isspace ch); [| apply IH].
    destruct (truthy cur) eqn:Hc; [constructor; [done | apply IH] | apply IH].
Qed.

(** X12: [extract_keywords] never raises. When the tenant has no chat
    model, it makes no model call and degrades to the question: the
    keywords, the same for both languages, are the leading words of the
    question, none empty and not more than the effective keyword count; both
    search sentences are the question itself and the time range is
    empty. *)
Theorem extract_keywords_degrades env question tenant_id keywords_num
    query_num w :
  ∃ kw w',
    PaperSearchService.extract_keywords env question tenant_id keywords_num
      query_num w = (Returns kw, w')
    ∧ (∀ e, bundle_error env tenant_id CHAT None = Some e →
         w' = w
         ∧ ∃ words,
             keyword_en kw = py_strings words
             ∧ keyword_cn kw = py_strings words
             ∧ words `prefix_of` split_whitespace question
             ∧ (Z.of_nat (length words)
                ≤ PaperSearchService.effective_keywords_num keywords_num)%Z
             ∧ Forall (fun word => truthy word = true) words
             ∧ searchquery_en kw = py_strings [question]
             ∧ searchquery_cn kw = py_strings [question]
             ∧ time_range kw = py_strings []).
Proof.
  destruct (extract_keywords_returns env question tenant_id keywords_num
              query_num w) as (kw & w' & Hrun & _).
  exists kw, w'. split; [exact Hrun |].
  intros e He. revert Hrun.
  unfold PaperSearchService.extract_keywords, try_except, bind, LLMBundle.
  rewrite He. unfold raise, ret. cbv zeta.
  intros [= <- <-]. cbn [keyword_en keyword_cn searchquery_en searchquery_cn
                         time_range].
  assert (Hn : (1 < PaperSearchService.effective_keywords_num keywords_num)%Z).
  { unfold PaperSearchService.effective_keywords_num.
    destruct (_ <=? 12)%Z; simpl; [| lia].
    destruct (1 <? keywords_num)%Z eqn:H1; [by apply Z.ltb_lt | lia]. }
  split; [done |].
  destruct (_ <=? _)%Z eqn:Hle.
  - eexists. split; [reflexivity |]. split; [reflexivity |].
    split; [apply prefix_take |].
    split; [rewrite length_take; lia |].
    split; [apply Forall_take, split_runs_nonempty | done].
  - apply Z.leb_gt in Hle.
    eexists. split; [reflexivity |]. split; [reflexivity |].
    split; [done |]. split; [lia |]. split; [apply split_runs_nonempty | done].
Qed.

Lemma extract_keywords_degrades_witness :
  bundle_error no_model_env "t1" CHAT None
  = Some (Failure "no chat model for the tenant")
  ∧ ∃ w',
      PaperSearchService.extract_keywords no_model_env
        "graph  neural networks for molecules" "t1" 3 3 empty_world
      = (Returns {| keyword_en := py_strings ["graph"; "neural"; "networks"];
                    keyword_cn := py_strings ["graph"; "neural"; "networks"];
                    searchquery_en :=
                      py_strings ["graph  neural networks for molecules"];
                    searchquery_cn :=
                      py_strings ["graph  neural networks for molecules"];
                    time_range := py_strings [] |}, w')
      ∧ w' = empty_world.
Proof.
  split; [reflexivity |].
  destruct (extract_keywords_degrades no_model_env
              "graph  neural networks for molecules" "t1" 3 3 empty_world)
    as (kw & w' & Hrun & Hshape).
  destruct (Hshape _ eq_refl) as (Hw & _).
  exists w'. split; [| exact Hw].
  rewrite Hrun. f_equal. f_equal.
  vm_compute in Hrun. by injection Hrun as <- _.
Defined.

(** ** Model calls of a survey *)

Lemma for_each_reads {A B} (f : A → M B) (l : list A) w :
  (∀ x w, ∃ y, f x w = (Returns y, w)) →
  ∃ ys, for_each f l w = (Returns ys, w) ∧ length ys = length l.
Proof.
  intros Hf. induction l as [| x rest (ys & IH & Hlen)]; simpl.
  - by exists [].
  - destruct (Hf x w) as [y Hy].
    exists (y :: ys).
    rewrite (bind_returns _ _ _ _ _ Hy), (bind_returns _ _ _ _ _ IH).
    split; [reflexivity | simpl; by rewrite Hlen].
Qed.

(** A cancellation only updates: every stored job stays stored. *)
Lemma cancel_survey_keeps_jobs env current_user survey_id_ w k :
  is_Some (surveys w !! k) →
  is_Some (surveys (snd (cancel_survey env current_user survey_id_ w)) !! k).
Proof.
  intros Hk. unfold cancel_survey, try_except, bind, PaperSurveyRecord.get.
  destruct (surveys w !! survey_id_) as [r |]; [| done].
  destruct (String.eqb (survey_user_id r) current_user); [| done].
  destruct (negb _); [done |].
  destruct (truthy _); simpl; by rewrite lookup_alter_is_Some.
Qed.

Lemma chat_keeps_jobs env mdl system history gen_conf w k :
  is_Some (surveys w !! k) →
  is_Some (surveys (snd (chat env mdl system history gen_conf w)) !! k).
Proof.
  intros Hk. unfold chat.
  set (w1 := with_llm_call _ w).
  assert (H1 : is_Some (surveys w1 !! k)) by done.
  assert (Hserve : ∀ rs w0,
    is_Some (surveys w0 !! k) →
    is_Some (surveys (fold_left (fun w r => serve env r w) rs w0) !! k)).
  { induction rs as [| r rest IH]; intros w0 H0; simpl; [done |].
    apply IH. destruct r as [u s]. by apply cancel_survey_keeps_jobs. }
  destruct (chat_reply env mdl system history gen_conf); simpl;
    by apply Hserve.
Qed.

Lemma for_each_one_call_each {A B} (P : World → Prop) (f : A → M B)
    (l : list A) w :
  (∀ x w, P w →
     ∃ y w',
       f x w = (Returns y, w')
       ∧ length (llm_calls w') = S (length (llm_calls w)) ∧ P w') →
  P w →
  ∃ ys w',
    for_each f l w = (Returns ys, w')
    ∧ length (llm_calls w') = (length (llm_calls w) + length l)%nat ∧ P w'.
Proof.
  intros Hf. revert w. induction l as [| x rest IH]; intros w Hw; simpl.
  - exists [], w. split; [reflexivity |]. split; [lia | done].
  - destruct (Hf x w Hw) as (y & w1 & Hy & Hn & Hw1).
    destruct (IH w1 Hw1) as (ys & w2 & Hys & Hm & Hw2).
    exists (y :: ys), w2.
    rewrite (bind_returns _ _ _ _ _ Hy), (bind_returns _ _ _ _ _ Hys).
    split; [reflexivity |]. split; [lia | done].
Qed.

(** With a chat model, a brief is one model call and never an exception. *)
Lemma generate_paper_summary_one_call env paper tenant_id w :
  bundle_error env tenant_id CHAT None = None →
  ∃ summary w',
    PaperSearchService.generate_paper_summary env paper tenant_id w
    = (Returns summary, w')
    ∧ length (llm_calls w') = S (length (llm_calls w))
    ∧ ∀ k, is_Some (surveys w !! k) → is_Some (surveys w' !! k).
Proof.
  intros Hb.
  unfold PaperSearchService.generate_paper_summary, try_except, bind, LLMBundle.
  rewrite Hb. unfold ret at 1. cbv beta iota zeta.
  match goal with
  | |- context [ chat env ?mdl ?s ?h ?p w ] =>
      pose proof (chat_logs_one_call env mdl s h p w) as Hlog;
      pose proof (fun k => chat_keeps_jobs env mdl s h p w k) as Hkeep;
      destruct (chat env mdl s h p w) as [[answer | e] w1]; simpl in Hlog, Hkeep
  end;
    (eexists _, w1; split; [reflexivity |]; split; [| exact Hkeep];
     rewrite Hlog, length_app; simpl; lia).
Qed.

(** The stages of a survey up to the synthesis call, for a tenant with a
    chat model: the papers are completed and briefed without an exception,
    with one model call for each paper. *)
Lemma survey_stages_before_synthesis env survey_record papers w :
  surveys w !! survey_id survey_record = None →
  bundle_error env (survey_tenant_id survey_record) CHAT None = None →
  ∃ paper_summaries w2,
    length (llm_calls w2) = (length (llm_calls w) + length papers)%nat
    ∧ is_Some (surveys w2 !! survey_id survey_record)
    ∧ PaperSearchService.generate_survey env survey_record papers w
      = try_except
          (let* survey_content_ :=
             chat env
               {| model_tenant := survey_tenant_id survey_record;
                  model_type := CHAT; model_name := None |}
               EmptyString
               [ {| role := "user";
                    content :=
                      PaperSearchService._build_survey_prompt_from_summaries
                        paper_summaries |} ]
               {| temperature := 7 # 10; max_tokens := 2048;
                  enable_thinking := false |} in
           exec PaperSurveyRecord.update (survey_id survey_record)
                  [set_survey_content survey_content_; set_status "completed"] in
           ret {| result_survey_id := survey_id survey_record;
                  result_survey_content := survey_content_;
                  result_status := "completed" |})
          (fun e =>
             exec PaperSurveyRecord.update (survey_id survey_record)
                    [set_status "failed"] in
             raise e) w2.
Proof.
  intros Hfresh Hb.
  unfold PaperSearchService.generate_survey.
  assert (Hcreate : PaperSurveyRecord.create survey_record w
                    = (Returns survey_record, with_write (Insert survey_record) w)).
  { unfold PaperSurveyRecord.create. by rewrite Hfresh. }
  rewrite (bind_returns _ _ _ _ _ Hcreate). cbv beta zeta.
  set (w0 := with_write (Insert survey_record) w).
  unfold try_except at 1.
  match goal with
  | |- context [ bind (for_each ?f papers) ?k ] => set (F1 := f); set (K1 := k)
  end.
  destruct (for_each_reads F1 papers w0) as (updated_papers & H1 & Hlen).
  { intros paper w'. unfold F1. destruct (truthy _); [by eexists |].
    destruct (full_document_content_reads env
                (get_or (paper_doc_id paper) EmptyString)
                (survey_tenant_id survey_record)
                [get_or (paper_kb_id paper) EmptyString] w') as [text Ht].
    rewrite (bind_returns _ _ _ _ _ Ht). destruct (truthy text); by eexists. }
  rewrite (bind_returns _ _ _ _ _ H1). unfold K1. clear K1. cbv beta.
  match goal with
  | |- context [ bind (for_each ?f updated_papers) ?k ] =>
      set (F2 := f); set (K2 := k)
  end.
  destruct (for_each_one_call_each
              (fun w' => is_Some (surveys w' !! survey_id survey_record))
              F2 updated_papers w0)
    as (paper_summaries & w2 & H2 & Hcount & Hstored).
  { intros paper w' Hw'. unfold F2.
    destruct (generate_paper_summary_one_call env paper
                (survey_tenant_id survey_record) w' Hb)
      as (s & w'' & Hs & Hn & Hkeep).
    exists {| brief_title := get_or (paper_title paper) "未知标题";
              brief_summary := s |}, w''.
    rewrite (bind_returns _ _ _ _ _ Hs). split; [done |]. split; [done |].
    by apply Hkeep. }
  { unfold w0. simpl. rewrite lookup_insert_eq. by eexists. }
  rewrite (bind_returns _ _ _ _ _ H2). unfold K2. clear K2. cbv beta.
  exists paper_summaries, w2. split; [rewrite Hcount, Hlen; reflexivity |].
  split; [exact Hstored |].
  unfold try_except, bind at 1, LLMBundle. rewrite Hb. reflexivity.
Qed.

(** X13: for a fresh job of a tenant with a chat model, [generate_survey]
    makes one model call for each paper and one more for the synthesis,
    whether the calls answer or fail and whatever is served meanwhile. *)
Theorem survey_makes_one_call_per_paper_and_one_more env survey_record papers w :
  surveys w !! survey_id survey_record = None →
  bundle_error env (survey_tenant_id survey_record) CHAT None = None →
  length
    (llm_calls (snd (PaperSearchService.generate_survey env survey_record
                       papers w)))
  = (length (llm_calls w) + length papers + 1)%nat.
Proof.
  intros Hfresh Hb.
  destruct (survey_stages_before_synthesis env survey_record papers w Hfresh Hb)
    as (paper_summaries & w2 & Hcount & _ & ->).
  unfold try_except, bind at 1.
  match goal with
  | |- context [ chat env ?mdl ?s ?h ?p w2 ] =>
      pose proof (chat_logs_one_call env mdl s h p w2) as Hlog;
      destruct (chat env mdl s h p w2) as [[answer | e] w3]; simpl in Hlog
  end; simpl; rewrite Hlog, length_app; simpl; lia.
Qed.

Lemma survey_makes_one_call_per_paper_and_one_more_witness :
  (surveys empty_world !! "s1" = None
   ∧ bundle_error model_down_env "tenant-of-u1" CHAT None = None)
  ∧ length
      (llm_calls
         (snd (PaperSearchService.generate_survey model_down_env
                 (job "pending") [paper_one; paper_one] empty_world))) = 3%nat.
Proof.
  split; [split; reflexivity |].
  apply (survey_makes_one_call_per_paper_and_one_more model_down_env
           (job "pending") [paper_one; paper_one] empty_world);
    reflexivity.
Defined.



(** ** Strings and slices *)

Lemma append_cons c (a b : string) : String c a +:+ b = String c (a +:+ b).
Proof. reflexivity. Qed.

Lemma append_nil_l (b : string) : EmptyString +:+ b = b.
Proof. reflexivity. Qed.

Ltac simpl_append := repeat (rewrite append_cons || rewrite append_nil_l).

Lemma append_nil_r (s : string) : s +:+ EmptyString = s.
Proof. induction s as [| c s IH]; simpl_append; [done | by f_equal]. Qed.

Lemma append_assoc (a b c : string) : (a +:+ b) +:+ c = a +:+ (b +:+ c).
Proof. induction a as [| x a IH]; simpl_append; [done | by f_equal]. Qed.

Lemma concat_cons (x : string) (xs : list string) :
  String.concat EmptyString (x :: xs) = x +:+ String.concat EmptyString xs.
Proof. destruct xs; simpl; [by rewrite append_nil_r | done]. Qed.

Lemma concat_app (xs ys : list string) :
  String.concat EmptyString (xs ++ ys)
  = String.concat EmptyString xs +:+ String.concat EmptyString ys.
Proof.
  induction xs as [| x xs IH]; [done |].
  change ((x :: xs) ++ ys)%list with (x :: (xs ++ ys))%list.
  by rewrite !concat_cons, IH, append_assoc.
Qed.

Lemma split_chars_concat s :
  fst (split_chars s) +:+ String.concat EmptyString (snd (split_chars s)) = s.
Proof.
  induction s as [| c rest IH]; [done |].
  cbn [split_chars].
  destruct (split_chars rest) as [front l]. cbn [fst snd] in IH.
  destruct (is_continuation c); cbn [fst snd].
  - simpl_append. by f_equal.
  - rewrite concat_cons. simpl_append. by f_equal.
Qed.

(** A string is the concatenation of its code points. *)
Lemma chars_concat s : String.concat EmptyString (chars s) = s.
Proof.
  pose proof (split_chars_concat s) as H. unfold chars.
  destruct (split_chars s) as [front l]. cbn [fst snd] in H.
  destruct front as [| c front]; cbn [truthy]; [exact H |].
  change (truthy (String c front)) with true. cbv iota.
  rewrite concat_cons. exact H.
Qed.

Lemma take_chars_split n s :
  take_chars n s
  = fst (split_chars s)
      +:+ String.concat EmptyString (take n (snd (split_chars s))).
Proof.
  revert n. induction s as [| c rest IH]; intros n.
  - by destruct n.
  - cbn [take_chars split_chars].
    destruct (split_chars rest) as [front l] eqn:Hrest. cbn [fst snd] in IH.
    destruct (is_continuation c); cbn [fst snd].
    + rewrite IH. by simpl_append.
    + destruct n as [| n']; [done |].
      cbn [take]. rewrite IH, concat_cons. by simpl_append.
Qed.

Lemma split_chars_take_chars n s :
  split_chars (take_chars n s)
  = (fst (split_chars s), take n (snd (split_chars s))).
Proof.
  revert n. induction s as [| c rest IH]; intros n.
  - by destruct n.
  - cbn [take_chars split_chars].
    destruct (split_chars rest) as [front l] eqn:Hrest. cbn [fst snd] in IH.
    destruct (is_continuation c) eqn:Hc; cbn [fst snd].
    + cbn [split_chars]. by rewrite IH, Hc.
    + destruct n as [| n']; [done |].
      cbn [split_chars take]. by rewrite IH, Hc.
Qed.

(** X15: the slices of the prompts and of the abstract, [s[:n]], keep the
    leading code points: for a text that starts at a code point, the code
    points of the slice are the first [n] code points of the text, so the
    slice has [min n (len s)] code points, is a prefix of the text, and is
    the text itself when the text is not longer than [n]. *)
Theorem slice_keeps_leading_code_points n s :
  fst (split_chars s) = EmptyString →
  chars (take_chars n s) = take n (chars s)
  ∧ code_points (take_chars n s) = (n `min` code_points s)%nat
  ∧ (∃ rest, s = take_chars n s +:+ rest)
  ∧ ((code_points s ≤ n)%nat → take_chars n s = s).
Proof.
  intros Hstart.
  assert (Hchars : chars s = snd (split_chars s)).
  { unfold chars. destruct (split_chars s) as [front l]. cbn [fst snd] in *.
    by rewrite Hstart. }
  assert (Htaken : chars (take_chars n s) = take n (chars s)).
  { unfold chars at 1. rewrite split_chars_take_chars, Hstart, Hchars. done. }
  assert (Hslice : take_chars n s = String.concat EmptyString (take n (chars s))).
  { rewrite take_chars_split, Hstart, Hchars. done. }
  split; [exact Htaken |]. split; [| split].
  - unfold code_points. by rewrite Htaken, length_take.
  - exists (String.concat EmptyString (drop n (chars s))).
    rewrite Hslice, <- concat_app, take_drop. symmetry. apply chars_concat.
  - intros Hle. rewrite Hslice, take_ge by exact Hle. apply chars_concat.
Qed.

Lemma slice_keeps_leading_code_points_witness :
  fst (split_chars "深度学习 survey") = EmptyString
  ∧ code_points (take_chars 3 "深度学习 survey") = 3%nat
  ∧ take_chars 40 "深度学习 survey" = "深度学习 survey".
Proof.
  split; [reflexivity |].
  destruct (slice_keeps_leading_code_points 3 "深度学习 survey" eq_refl)
    as (_ & H3 & _ & _).
  destruct (slice_keeps_leading_code_points 40 "深度学习 survey" eq_refl)
    as (_ & _ & _ & H40).
  split; [rewrite H3; reflexivity |].
  apply H40. vm_compute. lia.
Defined.

(** ** Citations *)

Lemma leading_digits_split env l :
  ∃ digits,
    l = (digits ++ snd (PaperSearchService.leading_digits env l))%list
    ∧ length digits = length (fst (PaperSearchService.leading_digits env l))
    ∧ digits = take (length (fst (PaperSearchService.leading_digits env l))) l.
Proof.
  induction l as [| ch rest (digits & Hl & Hn & Ht)]; simpl.
  - by exists [].
  - destruct (unicode_decimal env ch) as [d |]; [| by exists []].
    destruct (PaperSearchService.leading_digits env rest) as [ds after].
    simpl in *. exists (ch :: digits). simpl.
    split; [by rewrite <- Hl |]. split; [by rewrite Hn | by rewrite <- Ht].
Qed.

(** What a match of the citation pattern at the head of a text is. *)
Lemma match_citation_Some env l digits ds after :
  PaperSearchService.match_citation env l = Some (digits, ds, after) →
  l = ("#" :: "#" :: digits ++ "$" :: "$" :: after)%list
  ∧ ds ≠ [] ∧ length digits = length ds.
Proof.
  unfold PaperSearchService.match_citation.
  destruct l as [| a l]; [discriminate |].
  destruct a as [| [[] [] [] [] [] [] [] []] [| ? ?]]; try discriminate.
  destruct l as [| b l]; [discriminate |].
  destruct b as [| [[] [] [] [] [] [] [] []] [| ? ?]]; try discriminate.
  destruct (leading_digits_split env l) as (pre & Hl & Hn & Ht).
  destruct (PaperSearchService.leading_digits env l) as [[| d ds'] rest];
    [discriminate |].
  simpl in Hl, Hn, Ht.
  destruct rest as [| c rest]; [discriminate |].
  destruct c as [| [[] [] [] [] [] [] [] []] [| ? ?]]; try discriminate.
  destruct rest as [| c2 rest]; [discriminate |].
  destruct c2 as [| [[] [] [] [] [] [] [] []] [| ? ?]]; try discriminate.
  intros [= <- <- <-].
  split; [| split; [done |]].
  - rewrite Hl at 1. by rewrite <- Ht.
  - rewrite <- Ht. exact Hn.
Qed.

Lemma finditer_from_skip env k before l :
  PaperSearchService.finditer_from env k before l
  = PaperSearchService.finditer_from env 0 before (drop k l).
Proof.
  revert k. induction l as [| ch rest IH]; intros k.
  - by destruct k.
  - destruct k as [| k]; [done |]. simpl. apply IH.
Qed.

(** The text between, in and after the matches, put together again. *)
Lemma finditer_from_keeps_text env n :
  ∀ l before,
    (length l ≤ n)%nat →
    foldr (fun m acc => fst (fst m) +:+ "##" +:+ snd (fst m) +:+ "$$" +:+ acc)
      (snd (PaperSearchService.finditer_from env 0 before l))
      (fst (PaperSearchService.finditer_from env 0 before l))
    = before +:+ String.concat EmptyString l.
Proof.
  induction n as [| n IH]; intros l before Hlen.
  - destruct l; [| simpl in Hlen; lia]. simpl. by rewrite append_nil_r.
  - destruct l as [| ch rest]; [simpl; by rewrite append_nil_r |].
    simpl in Hlen.
    cbn [PaperSearchService.finditer_from].
    destruct (PaperSearchService.match_citation env (ch :: rest))
      as [[[digits ds] after] |] eqn:Hm.
    + apply match_citation_Some in Hm as (Hl & _ & Hn).
      injection Hl as -> ->.
      rewrite finditer_from_skip.
      replace (drop (length digits + 3)
                 ("#" :: digits ++ "$" :: "$" :: after))%list with after.
      2: { replace (length digits + 3)%nat with (S (length digits + 2))%nat by lia.
           simpl. rewrite drop_app_add'; [done | lia]. }
      specialize (IH after EmptyString). rewrite append_nil_l in IH.
      destruct (PaperSearchService.finditer_from env 0 EmptyString after)
        as [ms tail].
      cbn [fst snd foldr] in *. rewrite IH.
      2: { simpl in Hlen. rewrite length_app in Hlen. simpl in Hlen. lia. }
      rewrite !concat_cons, concat_app, !concat_cons. by simpl_append.
    + rewrite IH by lia. rewrite concat_cons, append_assoc. done.
Qed.

Lemma finditer_keeps_text env text :
  foldr (fun m acc => fst (fst m) +:+ "##" +:+ snd (fst m) +:+ "$$" +:+ acc)
    (snd (PaperSearchService.finditer env text))
    (fst (PaperSearchService.finditer env text))
  = text.
Proof.
  unfold PaperSearchService.finditer.
  rewrite (finditer_from_keeps_text env (length (chars text))) by done.
  rewrite append_nil_l. apply chars_concat.
Qed.

(** X16: [_add_paragraph_with_citations] loses no text. The text is a
    sequence of pieces, each a plain part followed by a marker ##digits$$,
    and a plain tail; the runs of the paragraph are, piece by piece, the
    plain part when it is not empty and the citation [digits] in brackets,
    then the tail when it is not empty. No run of plain text is empty. *)
Theorem citation_runs_cover_the_text env text :
  ∃ (pieces : list (string * string)) (tail : string),
    text
    = foldr (fun piece rest =>
               fst piece +:+ "##" +:+ snd piece +:+ "$$" +:+ rest) tail pieces
    ∧ PaperSearchService._add_paragraph_with_citations env text
      = (flat_map
           (fun piece =>
              (if truthy (fst piece) then [text_run (fst piece)] else [])
                ++ [citation_run ("[" +:+ snd piece +:+ "]")])
           pieces
         ++ (if truthy tail then [text_run tail] else []))%list
    ∧ text_run EmptyString
        ∉ PaperSearchService._add_paragraph_with_citations env text.
Proof.
  pose proof (finditer_keeps_text env text) as Htext.
  unfold PaperSearchService._add_paragraph_with_citations.
  destruct (PaperSearchService.finditer env text) as [ms tail].
  cbn [fst snd] in Htext.
  exists (map fst ms), tail.
  assert (Hruns :
    flat_map
      (fun m : string * string * Z =>
         let '(before, digits, _) := m in
         ((if truthy before then [text_run before] else [])
            ++ [citation_run ("[" +:+ digits +:+ "]")])%list) ms
    = flat_map
        (fun piece : string * string =>
           ((if truthy (fst piece) then [text_run (fst piece)] else [])
              ++ [citation_run ("[" +:+ snd piece +:+ "]")])%list)
        (map fst ms)).
  { clear Htext. induction ms as [| [[before digits] n] rest IH];
      [done |].
    cbn [flat_map map fst snd]. by rewrite IH. }
  split; [| split].
  - rewrite <- Htext. clear. induction ms as [| [[before digits] n] rest IH];
      [done |].
    cbn [foldr map fst snd]. by rewrite IH.
  - by rewrite Hruns.
  - rewrite Hruns. clear. intros Hin.
    apply elem_of_app in Hin as [Hin | Hin].
    + apply list_elem_of_In, in_flat_map in Hin as (piece & _ & Hin).
      apply in_app_or in Hin as [Hin | [Hin | []]]; [| discriminate].
      destruct (fst piece) as [| c before]; [destruct Hin |].
      destruct Hin as [Hin | []]. discriminate.
    + destruct tail as [| c tail]; [by apply elem_of_nil in Hin |].
      apply list_elem_of_singleton in Hin. discriminate.
Qed.

Lemma insert_sorted_elem_of n m l : m ∈ PaperSearchService.insert_sorted n l ↔ m = n ∨ m ∈ l.
Proof.
  induction l as [| x rest IH]; simpl.
  - rewrite list_elem_of_singleton, elem_of_nil. tauto.
  - destruct (n <? x)%Z; [by rewrite elem_of_cons |].
    destruct (n =? x)%Z eqn:Heq.
    + apply Z.eqb_eq in Heq as ->. rewrite elem_of_cons. tauto.
    + rewrite !elem_of_cons, IH. tauto.
Qed.

Lemma insert_sorted_increasing n l :
  StronglySorted Z.lt l → StronglySorted Z.lt (PaperSearchService.insert_sorted n l).
Proof.
  induction 1 as [| x rest Hs IH Hx]; simpl.
  - by repeat constructor.
  - destruct (n <? x)%Z eqn:Hlt.
    + apply Z.ltb_lt in Hlt. constructor; [by constructor |].
      constructor; [done |].
      eapply Forall_impl; [exact Hx |]. simpl. lia.
    + destruct (n =? x)%Z eqn:Heq; [by constructor |].
      apply Z.ltb_ge in Hlt. apply Z.eqb_neq in Heq.
      constructor; [exact IH |].
      apply Forall_forall. intros m Hm.
      apply insert_sorted_elem_of in Hm as [-> | Hm]; [lia |].
      rewrite Forall_forall in Hx. by apply Hx.
Qed.

Lemma cited_indices_fold ms :
  ∀ acc,
    StronglySorted Z.lt acc →
    StronglySorted Z.lt
      (fold_left (fun acc m => PaperSearchService.insert_sorted (snd m) acc) ms acc)
    ∧ ∀ n : Z,
        n ∈ fold_left
              (fun acc (m : string * string * Z) =>
                 PaperSearchService.insert_sorted (snd m) acc) ms acc
        ↔ n ∈ acc ∨ n ∈ map snd ms.
Proof.
  induction ms as [| m rest IH]; intros acc Hacc; simpl.
  - split; [done |]. intros n. rewrite elem_of_nil. tauto.
  - destruct (IH _ (insert_sorted_increasing (snd m) acc Hacc)) as [Hs Hin].
    split; [exact Hs |]. intros n.
    rewrite Hin, insert_sorted_elem_of, elem_of_cons. tauto.
Qed.

Lemma cited_indices_membership env content_ :
  ∀ n, n ∈ map snd (fst (PaperSearchService.finditer env content_))
       ↔ n ∈ PaperSearchService.sorted_cited_indices env content_.
Proof.
  intros n. unfold PaperSearchService.sorted_cited_indices.
  destruct (cited_indices_fold (fst (PaperSearchService.finditer env content_))
              [] (SSorted_nil _)) as [_ Hin].
  rewrite Hin, elem_of_nil. tauto.
Qed.

(** X17: the numbers of the reference list are [sorted(set(...))] of the
    cited numbers: strictly increasing, and a number is listed exactly when
    some marker of the content cites it. *)
Theorem cited_indices_are_the_sorted_set env content_ :
  StronglySorted Z.lt (PaperSearchService.sorted_cited_indices env content_)
  ∧ ∀ n, n ∈ PaperSearchService.sorted_cited_indices env content_
         ↔ n ∈ map snd (fst (PaperSearchService.finditer env content_)).
Proof.
  unfold PaperSearchService.sorted_cited_indices.
  destruct (cited_indices_fold (fst (PaperSearchService.finditer env content_))
              [] (SSorted_nil _)) as [Hs Hin].
  split; [exact Hs |]. intros n. rewrite Hin, elem_of_nil. tauto.
Qed.

(** X18: every entry of the reference list of the Word document stands
    for a citation of the content whose number lies between 1 and the
    number of papers; its label is that number in brackets and its title is
    the title of the paper at that position. Citations out of this range
    give no entry. *)
Theorem references_name_cited_papers env content_ title papers label
    reference_title :
  reference_paragraph label reference_title
    ∈ PaperSearchService.word_document env content_ title papers →
  ∃ idx paper,
    idx ∈ map snd (fst (PaperSearchService.finditer env content_))
    ∧ (1 ≤ idx ≤ Z.of_nat (length papers))%Z
    ∧ papers !! Z.to_nat (idx - 1) = Some paper
    ∧ label = "[" +:+ str idx +:+ "] "
    ∧ reference_title = get_or (paper_title paper) "未知标题".
Proof.
  unfold PaperSearchService.word_document.
  rewrite !elem_of_app. intros [Hhead | [Hbody | Hrefs]].
  - repeat (apply elem_of_cons in Hhead as [Hhead | Hhead]; [discriminate |]).
    by apply elem_of_nil in Hhead.
  - apply list_elem_of_In, in_flat_map in Hbody as (line & _ & Hline).
    unfold PaperSearchService.block_of_line in Hline.
    repeat (match type of Hline with
            | In _ (if ?c then _ else _) => destruct c
            end);
      repeat (destruct Hline as [Hline | Hline]; [discriminate |]);
      destruct Hline.
  - unfold PaperSearchService.reference_blocks in Hrefs.
    destruct papers as [| p papers']; [by apply elem_of_nil in Hrefs |].
    destruct (PaperSearchService.sorted_cited_indices env content_)
      as [| i cited] eqn:Hcited; [by apply elem_of_nil in Hrefs |].
    apply elem_of_app in Hrefs as [Hhead | Hrefs].
    { repeat (apply elem_of_cons in Hhead as [Hhead | Hhead]; [discriminate |]).
      by apply elem_of_nil in Hhead. }
    apply list_elem_of_In, in_flat_map in Hrefs as (idx & Hidx & Hblock).
    apply list_elem_of_In in Hidx.
    destruct ((0 <=? idx - 1)%Z && (idx - 1 <? Z.of_nat (length (p :: papers')))%Z)
      eqn:Hrange; [| destruct Hblock].
    apply andb_true_iff in Hrange as [Hlo Hhi].
    apply Z.leb_le in Hlo. apply Z.ltb_lt in Hhi.
    destruct ((p :: papers') !! Z.to_nat (idx - 1)) as [paper |] eqn:Hpaper;
      [| destruct Hblock].
    destruct Hblock as [Hblock | []]. injection Hblock as <- <-.
    exists idx, paper.
    split; [| split; [lia | done]].
    apply (proj2 (cited_indices_membership env content_ idx)).
    rewrite Hcited. exact Hidx.
Qed.

Lemma references_name_cited_papers_witness :
  reference_paragraph "[1] " "Attention Is All You Need"
    ∈ PaperSearchService.word_document calm_env "See ##1$$ and ##7$$." "Survey"
        [paper_one]
  ∧ ∃ idx paper,
      (1 ≤ idx ≤ 1)%Z
      ∧ [paper_one] !! Z.to_nat (idx - 1) = Some paper
      ∧ "[1] " = "[" +:+ str idx +:+ "] ".
Proof.
  assert (Hin : reference_paragraph "[1] " "Attention Is All You Need"
                  ∈ PaperSearchService.word_document calm_env
                      "See ##1$$ and ##7$$." "Survey" [paper_one]).
  { apply list_elem_of_In. vm_compute. tauto. }
  split; [exact Hin |].
  destruct (references_name_cited_papers calm_env "See ##1$$ and ##7$$."
              "Survey" [paper_one] "[1] " "Attention Is All You Need" Hin)
    as (idx & paper & _ & Hrange & Hpaper & Hlabel & _).
  by exists idx, paper.
Defined.

(** ** What the searches return and keep *)

(** X19: [search_papers_with_keywords] never raises and makes no model
    call. It returns the query and the confirmed search query as given. In
    the search record with the given id, when one is stored, it leaves the
    JSON object of the confirmed query as keywords and the dumped papers
    with their number, and it leaves every other column and record alone.
    Without any knowledge base, and behind an engine that raises, the
    papers are the empty list. *)
Theorem confirmed_search_never_raises env search_record_id_ query search_query
    tenant_id use_fuzzy w :
  ∃ papers w',
    PaperSearchService.search_papers_with_keywords env search_record_id_ query
      search_query tenant_id use_fuzzy w
    = (Returns {| confirmed_search_record_id := search_record_id_;
                  confirmed_papers := papers;
                  confirmed_query := query;
                  confirmed_keywords := search_query |}, w')
    ∧ searches w' !! search_record_id_
      = (fun r =>
           {| search_id := search_id r;
              search_tenant_id := search_tenant_id r;
              search_user_id := search_user_id r;
              search_query_text := search_query_text r;
              keywords := dumps_confirmed_query search_query;
              search_results := dumps_papers env papers;
              result_count := Z.of_nat (length papers) |})
          <$> searches w !! search_record_id_
    ∧ (∀ k, k ≠ search_record_id_ → searches w' !! k = searches w !! k)
    ∧ llm_calls w' = llm_calls w
    ∧ (((kbs_of_tenant env tenant_id ++ public_kbs env)%list = []
        ∨ ∀ question mdl tenant kb_ids params,
            ∃ e, retrieval env question mdl tenant kb_ids params = inl e) →
       papers = []).
Proof.
  destruct (confirmed_search_runs env search_record_id_ query search_query
              tenant_id use_fuzzy) as (papers & Hrun & Hnone).
  exists papers. eexists. split; [apply Hrun |].
  cbn [searches llm_calls with_searches].
  destruct (search_record_after_updates (searches w) search_record_id_
              (dumps_confirmed_query search_query) (dumps_papers env papers)
              (Z.of_nat (length papers))) as [Hrow Hothers].
  by repeat split.
Qed.

Lemma confirmed_search_never_raises_witness :
  ∃ papers w',
    PaperSearchService.search_papers_with_keywords library_env "q1"
      "transformers" "attention" "t1" true world_with_search
    = (Returns {| confirmed_search_record_id := "q1";
                  confirmed_papers := papers;
                  confirmed_query := "transformers";
                  confirmed_keywords := "attention" |}, w')
    ∧ searches w' !! "q1"
      = Some {| search_id := "q1"; search_tenant_id := "t1";
                search_user_id := "u1"; search_query_text := "transformers";
                keywords :=
                  "{" +:+ dq +:+ "user_confirmed_query" +:+ dq +:+ ": "
                    +:+ dq +:+ "attention" +:+ dq +:+ "}";
                search_results := "<2 papers>"; result_count := 2 |}.
Proof.
  destruct (confirmed_search_never_raises library_env "q1" "transformers"
              "attention" "t1" true world_with_search)
    as (papers & w' & Hrun & Hrow & _).
  exists papers, w'. split; [exact Hrun |]. rewrite Hrow.
  vm_compute in Hrun. injection Hrun as <- _. reflexivity.
Defined.



(** X21: whenever [search_papers] returns a result, its papers are one
    for each document: no two papers share a document id, and every paper
    is selected, has the knowledge base as source and carries no full
    content. *)
Theorem search_returns_one_paper_per_document env search_record_id_ query
    tenant_id keywords_num query_num use_fuzzy w res w' :
  PaperSearchService.search_papers env search_record_id_ query tenant_id
    keywords_num query_num use_fuzzy w = (Returns res, w') →
  NoDup (map paper_doc_id (result_papers res))
  ∧ Forall (fun p => paper_selected p = Some true
                     ∧ paper_source p = Some "RAGFlow知识库"
                     ∧ paper_full_content p = None) (result_papers res).
Proof.
  intros Hreturned.
  destruct (search_papers_runs env search_record_id_ query tenant_id
              keywords_num query_num use_fuzzy w)
    as (kw & w1 & _ & _ & Hrun).
  destruct (PaperSearchService.search_query_of kw) as [e | search_query].
  { rewrite Hrun in Hreturned. discriminate. }
  destruct Hrun as (papers & Hrun & _ & Hnodup & Hgood & _).
  rewrite Hrun in Hreturned. injection Hreturned as <- _.
  by split.
Qed.

Lemma search_returns_one_paper_per_document_witness :
  ∃ res w',
    PaperSearchService.search_papers library_env "q1" "transformers" "t1" 5 5
      true world_with_search = (Returns res, w')
    ∧ map paper_doc_id (result_papers res) = [Some "d1"; Some "d2"]
    ∧ map paper_abstract (result_papers res) = [Some "first"; Some "second"]
    ∧ NoDup (map paper_doc_id (result_papers res)).
Proof.
  destruct (PaperSearchService.search_papers library_env "q1" "transformers"
              "t1" 5 5 true world_with_search) as [[res | e] w'] eqn:Hrun;
    [| vm_compute in Hrun; discriminate].
  destruct (search_returns_one_paper_per_document library_env "q1"
              "transformers" "t1" 5 5 true world_with_search res w' Hrun)
    as [Hnodup _].
  exists res, w'. split; [reflexivity |].
  vm_compute in Hrun. injection Hrun as <- _.
  split; [reflexivity |]. split; [reflexivity | exact Hnodup].
Defined.

(** X22: [paper_search] keeps no search record. The record it builds
    is never inserted, and the updates of [search_papers] address an id
    that is not stored, so the search table is as before. The handler
    always answers: for a user with a tenant, with the result of the
    search when the search query can be built from the extracted keywords,
    and with a server error for the exception of that construction when
    it cannot. *)
Theorem paper_search_keeps_no_record env current_user query keywords_num
    query_num use_fuzzy w :
  searches w !! uuid env (uuids_drawn w) = None →
  searches (snd (paper_search env current_user query keywords_num query_num
                   use_fuzzy w)) = searches w
  ∧ ∃ r,
      fst (paper_search env current_user query keywords_num query_num
             use_fuzzy w) = Returns r
      ∧ ∀ tenant,
          tenant_of env current_user = Some tenant →
          ∃ kw,
            fst (PaperSearchService.extract_keywords env query tenant
                   keywords_num query_num (with_uuid_drawn w)) = Returns kw
            ∧ match PaperSearchService.search_query_of kw with
              | inr _ =>
                  ∃ papers,
                    r = get_json_result
                          (data_search
                             {| result_search_record_id :=
                                  uuid env (uuids_drawn w);
                                result_papers := papers;
                                result_keywords := kw |})
              | inl e => r = server_error_response e
              end.
Proof.
  intros Hfresh.
  assert (Hrun : ∃ r w',
    paper_search env current_user query keywords_num query_num use_fuzzy w
    = (Returns r, w')
    ∧ searches w' = searches w
    ∧ ∀ tenant,
        tenant_of env current_user = Some tenant →
        ∃ kw,
          fst (PaperSearchService.extract_keywords env query tenant
                 keywords_num query_num (with_uuid_drawn w)) = Returns kw
          ∧ match PaperSearchService.search_query_of kw with
            | inr _ =>
                ∃ papers,
                  r = get_json_result
                        (data_search
                           {| result_search_record_id :=
                                uuid env (uuids_drawn w);
                              result_papers := papers;
                              result_keywords := kw |})
            | inl e => r = server_error_response e
            end).
  { unfold paper_search, try_except.
    destruct (tenant_of env current_user) as [tenant_id |].
    2: { eexists _, _. split; [reflexivity |]. split; [done |].
         intros tenant. discriminate. }
    unfold bind at 1. unfold PaperSearchService.get_uuid at 1. cbv beta iota.
    destruct (search_papers_runs env (uuid env (uuids_drawn w)) query tenant_id
                keywords_num query_num use_fuzzy (with_uuid_drawn w))
      as (kw & w1 & Hkw & Hs & Hrun).
    destruct (PaperSearchService.search_query_of kw) as [e | search_query]
      eqn:Hquery.
    - rewrite (bind_raises _ _ _ _ _ Hrun). unfold ret.
      eexists _, _. split; [reflexivity |]. split.
      + cbn [searches with_searches]. rewrite Hs.
        cbn [searches with_uuid_drawn].
        by rewrite (alter_absent _ _ (searches w) Hfresh).
      + intros tenant [= <-]. exists kw. rewrite Hkw, Hquery. by split.
    - destruct Hrun as (papers & Hrun & _).
      rewrite (bind_returns _ _ _ _ _ Hrun). cbv beta. unfold ret.
      eexists _, _. split; [reflexivity |]. split.
      + cbn [searches with_searches]. rewrite Hs.
        cbn [searches with_uuid_drawn].
        rewrite (alter_absent _ _ (searches w) Hfresh).
        by rewrite (alter_absent _ _ (searches w) Hfresh).
      + intros tenant [= <-]. exists kw. rewrite Hkw, Hquery.
        split; [done | by exists papers]. }
  destruct Hrun as (r & w' & -> & Hs & Hr). cbn [fst snd].
  split; [exact Hs |]. by exists r.
Qed.

Lemma paper_search_keeps_no_record_witness :
  (searches world_with_search !! uuid library_env (uuids_drawn world_with_search)
   = None
   ∧ searches world_with_search
       !! uuid null_keywords_env (uuids_drawn world_with_search) = None)
  ∧ searches (snd (paper_search library_env "u1" "graph neural networks" 5 5
                     true world_with_search)) = searches world_with_search
  ∧ fst (paper_search null_keywords_env "u1" "graph neural networks" 5 5 true
           world_with_search)
    = Returns (server_error_response PaperSearchService.not_iterable).
Proof.
  split; [split; reflexivity |]. split.
  - apply (paper_search_keeps_no_record library_env "u1"
             "graph neural networks" 5 5 true world_with_search).
    reflexivity.
  - destruct (paper_search_keeps_no_record null_keywords_env "u1"
                "graph neural networks" 5 5 true world_with_search eq_refl)
      as (_ & r & Hr & Hanswer).
    destruct (Hanswer "tenant-of-u1" eq_refl) as (kw & Hkw & Hcase).
    vm_compute in Hkw. injection Hkw as <-.
    vm_compute in Hcase. rewrite Hr. by rewrite Hcase.
Defined.

(** X23: [paper_search_with_keywords] keeps no search record either: for
    a fresh identifier the search table is as before, whatever the
    selections are. *)
Theorem confirmed_search_keeps_no_record env current_user query all_keywords
    selected_keyword_indices use_fuzzy w :
  searches w !! uuid env (uuids_drawn w) = None →
  searches (snd (paper_search_with_keywords env current_user query all_keywords
                   selected_keyword_indices use_fuzzy w)) = searches w.
Proof.
  intros Hfresh. unfold paper_search_with_keywords, try_except.
  destruct (tenant_of env current_user) as [tenant_id |]; [| done].
  unfold bind at 1. unfold PaperSearchService.get_uuid at 1. cbv beta iota.
  unfold bind at 1.
  destruct (selected_keywords all_keywords selected_keyword_indices [])
    as [e | parts]; [done |].
  cbn [lift ret]. cbv zeta.
  destruct (confirmed_search_runs env (uuid env (uuids_drawn w)) query
              (join " " parts) tenant_id use_fuzzy) as (papers & Hrun & _).
  rewrite (bind_returns _ _ _ _ _ (Hrun _)). cbv beta. unfold ret. cbv iota.
  cbn [snd searches with_searches with_uuid_drawn].
  rewrite (alter_absent _ _ (searches w) Hfresh).
  by rewrite (alter_absent _ _ (searches w) Hfresh).
Qed.

Lemma confirmed_search_keeps_no_record_witness :
  searches world_with_search !! uuid calm_env (uuids_drawn world_with_search)
  = None
  ∧ searches (snd (paper_search_with_keywords calm_env "u1" "graph neural networks"
                   {[ "keyword_en" := ["graph"; "network"] ]}
                   [ {| selection_selected := true;
                        selection_type := Some "keyword_en";
                        selection_index := Some 1%Z |} ]
                   true world_with_search))
  = searches world_with_search.
Proof.
  split; [reflexivity |].
  apply (confirmed_search_keeps_no_record calm_env "u1" "graph neural networks"
           {[ "keyword_en" := ["graph"; "network"] ]}
           [ {| selection_selected := true;
                selection_type := Some "keyword_en";
                selection_index := Some 1%Z |} ]
           true world_with_search).
  reflexivity.
Defined.

(** ** The selections of a confirmed search *)

(** X24: the index of a selected keyword is checked from above only. For
    a selection that is selected and names an offered category with n
    keywords: an index of n or more is skipped; an index from -n to n - 1
    picks the keyword at that index modulo n, so a negative index counts
    from the end; an index below -n raises IndexError, which fails the
    whole request. *)
Theorem selection_index_is_checked_from_above_only all_keywords category
    category_keywords index rest parts :
  all_keywords !! category = Some category_keywords →
  let n := Z.of_nat (length category_keywords) in
  let selections :=
    {| selection_selected := true; selection_type := Some category;
       selection_index := Some index |} :: rest in
  ((n ≤ index)%Z →
     selected_keywords all_keywords selections parts
     = selected_keywords all_keywords rest parts)
  ∧ ((index < - n)%Z →
     selected_keywords all_keywords selections parts = inl IndexError)
  ∧ ((- n ≤ index < n)%Z →
     ∃ keyword,
       category_keywords !! Z.to_nat (index mod n) = Some keyword
       ∧ selected_keywords all_keywords selections parts
         = selected_keywords all_keywords rest (parts ++ [keyword])).
Proof.
  intros Hcat n selections. subst selections.
  cbn [selected_keywords selection_selected selection_type selection_index].
  cbn [mbind option_bind]. rewrite Hcat. fold n.
  split; [| split].
  - intros Hge. by rewrite (proj2 (Z.ltb_ge index n) Hge).
  - intros Hlt.
    rewrite (proj2 (Z.ltb_lt index n)) by lia.
    unfold py_index. fold n.
    rewrite (proj2 (Z.ltb_lt index 0)) by lia.
    by rewrite (proj2 (Z.ltb_lt (n + index) 0)) by lia.
  - intros [Hlo Hhi].
    rewrite (proj2 (Z.ltb_lt index n) Hhi).
    unfold py_index. fold n.
    assert (Hmod : (0 ≤ index mod n < n)%Z) by (apply Z.mod_pos_bound; lia).
    destruct (lookup_lt_is_Some_2 category_keywords (Z.to_nat (index mod n)))
      as [keyword Hkeyword]; [lia |].
    exists keyword. split; [exact Hkeyword |].
    destruct (index <? 0)%Z eqn:Hneg.
    + apply Z.ltb_lt in Hneg.
      rewrite (proj2 (Z.ltb_ge (n + index) 0)) by lia.
      replace (n + index)%Z with (index mod n)%Z.
      2: { symmetry. apply (Z.mod_unique index n (-1)); lia. }
      by rewrite Hkeyword.
    + apply Z.ltb_ge in Hneg.
      rewrite (proj2 (Z.ltb_ge index 0) Hneg).
      rewrite <- (Z.mod_small index n) at 1 by lia.
      by rewrite Hkeyword.
Qed.

Lemma selection_index_witness :
  selected_keywords {[ "keyword_en" := ["graph"; "network"] ]}
    [ {| selection_selected := true; selection_type := Some "keyword_en";
         selection_index := Some 2%Z |} ] []
  = inr []
  ∧ selected_keywords {[ "keyword_en" := ["graph"; "network"] ]}
      [ {| selection_selected := true; selection_type := Some "keyword_en";
           selection_index := Some (-3)%Z |} ] []
    = inl IndexError
  ∧ selected_keywords {[ "keyword_en" := ["graph"; "network"] ]}
      [ {| selection_selected := true; selection_type := Some "keyword_en";
           selection_index := Some (-1)%Z |} ] []
    = inr ["network"].
Proof.
  assert (Hcat : ({[ "keyword_en" := ["graph"; "network"] ]}
                    : gmap string (list string)) !! "keyword_en"
                 = Some ["graph"; "network"]) by reflexivity.
  destruct (selection_index_is_checked_from_above_only
              {[ "keyword_en" := ["graph"; "network"] ]} "keyword_en"
              ["graph"; "network"] 2 [] [] Hcat) as (Habove & _ & _).
  destruct (selection_index_is_checked_from_above_only
              {[ "keyword_en" := ["graph"; "network"] ]} "keyword_en"
              ["graph"; "network"] (-3) [] [] Hcat) as (_ & Hbelow & _).
  destruct (selection_index_is_checked_from_above_only
              {[ "keyword_en" := ["graph"; "network"] ]} "keyword_en"
              ["graph"; "network"] (-1) [] [] Hcat) as (_ & _ & Hend).
  split; [| split].
  - rewrite Habove; [reflexivity | simpl; lia].
  - apply Hbelow. simpl. lia.
  - destruct Hend as (keyword & Hkeyword & ->); [simpl; lia |].
    vm_compute in Hkeyword. injection Hkeyword as <-. reflexivity.
Defined.

(** X25: the confirmed search query is built from offered keywords only:
    when the loop over the selections ends without an exception, it has
    added at most one keyword for each selection, and every keyword it
    added is a keyword of some offered category. *)
Theorem confirmed_query_uses_offered_keywords all_keywords selections :
  ∀ parts result,
    selected_keywords all_keywords selections parts = inr result →
    (length result ≤ length parts + length selections)%nat
    ∧ ∀ keyword,
        keyword ∈ result →
        keyword ∈ parts
        ∨ ∃ category category_keywords,
            all_keywords !! category = Some category_keywords
            ∧ keyword ∈ category_keywords.
Proof.
  induction selections as [| selected rest IH]; intros parts result;
    cbn [selected_keywords].
  - intros [= <-]. split; [simpl; lia | by left].
  - assert (Hskip :
      selected_keywords all_keywords rest parts = inr result →
      (length result ≤ length parts + length (selected :: rest))%nat
      ∧ ∀ keyword,
          keyword ∈ result →
          keyword ∈ parts
          ∨ ∃ category category_keywords,
              all_keywords !! category = Some category_keywords
              ∧ keyword ∈ category_keywords).
    { intros Hrun. destruct (IH _ _ Hrun) as [Hlen Hin].
      split; [simpl; lia | exact Hin]. }
    destruct (selection_selected selected); [| exact Hskip].
    destruct (selection_type selected) as [category |]; cbn [mbind option_bind];
      [| exact Hskip].
    destruct (all_keywords !! category) as [category_keywords |] eqn:Hcat;
      [| exact Hskip].
    destruct (selection_index selected) as [index |]; [| discriminate].
    destruct (index <? Z.of_nat (length category_keywords))%Z; [| exact Hskip].
    destruct (py_index category_keywords index) as [e | keyword] eqn:Hpick;
      [discriminate |].
    intros Hrun. destruct (IH _ _ Hrun) as [Hlen Hin].
    split; [rewrite length_app in Hlen; simpl in *; lia |].
    intros k Hk. destruct (Hin k Hk) as [Hparts | Hoffered]; [| by right].
    apply elem_of_app in Hparts as [Hparts | Hnew]; [by left |].
    apply list_elem_of_singleton in Hnew as ->.
    right. exists category, category_keywords. split; [exact Hcat |].
    revert Hpick. unfold py_index.
    destruct (_ <? 0)%Z; [discriminate |].
    destruct (category_keywords !! _) as [x |] eqn:Hx; [| discriminate].
    intros [= <-]. by eapply list_elem_of_lookup_2.
Qed.

Lemma confirmed_query_uses_offered_keywords_witness :
  selected_keywords {[ "keyword_en" := ["graph"; "network"] ]}
    [ {| selection_selected := true; selection_type := Some "keyword_en";
         selection_index := Some 1%Z |} ] []
  = inr ["network"]
  ∧ (length ["network"] ≤ 0 + 1)%nat.
Proof.
  split; [reflexivity |].
  apply (confirmed_query_uses_offered_keywords
           {[ "keyword_en" := ["graph"; "network"] ]}
           [ {| selection_selected := true; selection_type := Some "keyword_en";
                selection_index := Some 1%Z |} ] [] ["network"]).
  reflexivity.
Defined.

(** ** After a deletion *)

Lemma delete_survey_record_success env current_user survey_id_ w :
  (∀ r, surveys w !! survey_id_ = Some r → survey_id r = survey_id_) →
  fst (delete_survey_record env current_user survey_id_ w)
  = Returns (get_json_result data_true) →
  delete_survey_record env current_user survey_id_ w
  = (Returns (get_json_result data_true), with_write (Delete survey_id_) w)
  ∧ ∃ tenant, tenant_of env current_user = Some tenant.
Proof.
  intros Hkey. unfold delete_survey_record, try_except.
  destruct (tenant_of env current_user) as [tenant |]; [| discriminate].
  unfold bind at 1.
  unfold PaperSearchService.delete_survey_record, try_except, bind,
    PaperSurveyRecord.get.
  destruct (surveys w !! survey_id_) as [r |] eqn:Hr; [| discriminate].
  destruct (_ && _); [| discriminate].
  unfold PaperSurveyRecord.delete_instance. rewrite (Hkey r eq_refl).
  intros _. split; [reflexivity | by exists tenant].
Qed.

(** X26: a deleted job is gone for every handler. After
    [delete_survey_record] has answered with success, the job is no longer
    stored; [get_survey], [get_survey_progress] and [cancel_survey] answer
    every user that the survey does not exist, and a second deletion is
    refused. *)
Theorem deleted_job_is_gone_for_every_handler env current_user survey_id_ w :
  (∀ r, surveys w !! survey_id_ = Some r → survey_id r = survey_id_) →
  fst (delete_survey_record env current_user survey_id_ w)
  = Returns (get_json_result data_true) →
  ∃ w',
    snd (delete_survey_record env current_user survey_id_ w) = w'
    ∧ surveys w' = delete survey_id_ (surveys w)
    ∧ (∀ user,
         get_survey user survey_id_ w'
         = (Returns (get_data_error_result "综述不存在或无权限访问"), w'))
    ∧ (∀ user,
         get_survey_progress env user survey_id_ w'
         = (Returns (get_data_error_result "综述不存在或无权限访问"), w'))
    ∧ (∀ user,
         cancel_survey env user survey_id_ w'
         = (Returns (get_data_error_result "综述不存在或无权限访问"), w'))
    ∧ delete_survey_record env current_user survey_id_ w'
      = (Returns (get_data_error_result "删除失败或无权限删除"), w').
Proof.
  intros Hkey Hok.
  destruct (delete_survey_record_success env current_user survey_id_ w Hkey Hok)
    as [-> [tenant Ht]].
  exists (with_write (Delete survey_id_) w). cbn [snd].
  assert (Hgone : surveys (with_write (Delete survey_id_) w) !! survey_id_ = None)
    by apply lookup_delete_eq.
  split; [reflexivity |]. split; [reflexivity |].
  split; [| split; [| split]].
  - intros user.
    unfold get_survey, try_except, bind, PaperSearchService.get_survey,
      try_except, bind, PaperSurveyRecord.get.
    by rewrite Hgone.
  - intros user.
    unfold get_survey_progress, try_except, bind, PaperSurveyRecord.get.
    by rewrite Hgone.
  - intros user.
    unfold cancel_survey, try_except, bind, PaperSurveyRecord.get.
    by rewrite Hgone.
  - unfold delete_survey_record, try_except, bind. rewrite Ht.
    unfold PaperSearchService.delete_survey_record, try_except, bind,
      PaperSurveyRecord.get.
    by rewrite Hgone.
Qed.

Lemma deleted_job_is_gone_witness :
  fst (delete_survey_record calm_env "u1" "s1" (world_with_job "completed"))
  = Returns (get_json_result data_true)
  ∧ ∃ w',
      snd (delete_survey_record calm_env "u1" "s1" (world_with_job "completed"))
      = w'
      ∧ get_survey "u1" "s1" w'
        = (Returns (get_data_error_result "综述不存在或无权限访问"), w').
Proof.
  split; [reflexivity |].
  destruct (deleted_job_is_gone_for_every_handler calm_env "u1" "s1"
              (world_with_job "completed"))
    as (w' & Hw' & _ & Hget & _).
  - intros r Hr. vm_compute in Hr. injection Hr as <-. reflexivity.
  - reflexivity.
  - exists w'. split; [exact Hw' | apply Hget].
Defined.

(** ** The keyword request *)

(** X27: for a user with a tenant, the request [extract_keywords] always
    answers with keywords, those of the service, also when the model is
    down; the search table is not touched. *)
Theorem keyword_request_always_answers env current_user query keywords_num
    query_num tenant w :
  tenant_of env current_user = Some tenant →
  ∃ kw w',
    extract_keywords env current_user query keywords_num query_num w
    = (Returns (get_json_result (data_keywords kw)), w')
    ∧ PaperSearchService.extract_keywords env query tenant keywords_num
        query_num w = (Returns kw, w')
    ∧ searches w' = searches w.
Proof.
  intros Ht. unfold extract_keywords, try_except. rewrite Ht.
  destruct (extract_keywords_returns env query tenant keywords_num query_num w)
    as (kw & w' & Hrun & Hs).
  exists kw, w'. rewrite (bind_returns _ _ _ _ _ Hrun). by repeat split.
Qed.

Lemma keyword_request_always_answers_witness :
  tenant_of model_down_env "u1" = Some "tenant-of-u1"
  ∧ ∃ kw w',
      extract_keywords model_down_env "u1" "graph neural networks" 2 0
        empty_world
      = (Returns (get_json_result (data_keywords kw)), w')
      ∧ keyword_en kw = py_strings ["graph"; "neural"].
Proof.
  split; [reflexivity |].
  destruct (keyword_request_always_answers model_down_env "u1"
              "graph neural networks" 2 0 "tenant-of-u1" empty_world eq_refl)
    as (kw & w' & Hrun & _ & _).
  exists kw, w'. split; [exact Hrun |].
  vm_compute in Hrun. by injection Hrun as <- _.
Defined.
